(** * pyhatchbabyrest: the asynchronous Hatch Baby Rest client

    A shallow embedding of [pyhatchbabyrest/pyhatchbabyrestasync.py].

    - Python values: a byte of the status buffer is a [Byte.byte], an [int]
      is a [Z], a [str] is a [string]; an attribute that may be [None] (or
      not yet assigned) is an [option].
    - Exceptions: every operation returns a [result]; a raised exception
      keeps the mutations done before it, so stateful code is a function
      [S -> result A * S].
    - The BLE stack (bleak) is outside the repository.  Its answers are read
      from a [World]: what the n-th search of a scanner hears, whether the
      n-th connect or write succeeds, what the n-th read of the feedback
      characteristic returns, what the n-th reading of the wall clock is.
      Every search of a scanner listens again.  Every call on the client is
      appended to a trace.  A link changes state through [connect] and
      [disconnect] only, and [disconnect] does not fail.
    - [constants.py] is not part of the sources: the manufacturer identifier,
      the two characteristic identifiers and the values of the
      [PyHatchBabyRestSound] enumeration are parameters ([Constants]). *)

From Stdlib Require Import ZArith List String Ascii Bool Lia HexString DecimalString.
From Stdlib Require Import RelationClasses.
From Stdlib.Strings Require Import Byte.
Import ListNotations.

Local Open Scope Z_scope.

(** ** Exceptions and results *)

Inductive exception : Set :=
| RuntimeError
| AssertionError
| ValueError
| IndexError
| AttributeError
| BleakError.

Inductive result (A : Type) : Type :=
| Ok (a : A)
| Raise (e : exception).

Arguments Ok {A} a.
Arguments Raise {A} e.

Definition bindR {A B : Type} (r : result A) (k : A -> result B) : result B :=
  match r with
  | Ok a => k a
  | Raise e => Raise e
  end.

Notation "'let*' x ':=' r 'in' k" := (bindR r (fun x => k))
  (at level 10, x pattern, r at level 100, k at level 200).

(** Stateful, fallible code over a state [S]. *)

Definition ST (S A : Type) : Type := S -> result A * S.

Definition ret {S A : Type} (a : A) : ST S A := fun s => (Ok a, s).

Definition raise {S A : Type} (e : exception) : ST S A := fun s => (Raise e, s).

Definition bind {S A B : Type} (m : ST S A) (k : A -> ST S B) : ST S B :=
  fun s =>
    match m s with
    | (Ok a, s') => k a s'
    | (Raise e, s') => (Raise e, s')
    end.

Definition lift {S A : Type} (r : result A) : ST S A := fun s => (r, s).

Definition gets {S A : Type} (f : S -> A) : ST S A := fun s => (Ok (f s), s).

Definition modify {S : Type} (f : S -> S) : ST S unit := fun s => (Ok tt, f s).

(** [finally body release]: [release] runs on every exit path of [body]; it
    returns nothing, so an exception of [body] is raised again after it. *)
Definition finally {S A : Type} (body : ST S A) (release : ST S unit) : ST S A :=
  fun s =>
    let (r, s1) := body s in
    match release s1 with
    | (Ok _, s2) => (r, s2)
    | (Raise e, s2) => (Raise e, s2)
    end.

Notation "x <- m ;; k" := (bind m (fun x => k))
  (at level 61, m at next level, right associativity).
Notation "m ;; k" := (bind m (fun _ => k))
  (at level 61, right associativity).

(** ** The Python primitives the module uses *)

Module Py.

(** [hex(x)]: ["0x"] and the lowercase digits, a leading ["-"] below zero. *)
Definition hex (x : Z) : string := HexString.of_Z x.

Fixpoint hex_digits (s : string) (acc : N) : option N :=
  match s with
  | EmptyString => Some acc
  | String ch s' =>
      match HexString.ascii_to_digit ch with
      | Some v => hex_digits s' (v + 16 * acc)%N
      | None => None
      end
  end.

Definition strip_sign (s : string) : bool * string :=
  match s with
  | String "-"%char r => (true, r)
  | String "+"%char r => (false, r)
  | _ => (false, s)
  end.

Definition strip_0x (s : string) : string :=
  match s with
  | String "0"%char (String "x"%char r) => r
  | String "0"%char (String "X"%char r) => r
  | _ => s
  end.

(** [int(s, 16)]: an optional sign, an optional [0x] prefix, at least one
    hexadecimal digit; anything else is a [ValueError].  (Surrounding blanks
    and digit-group underscores, which Python also takes, are left out: no
    output of [hex] has them.) *)
Definition int_base16 (s : string) : result Z :=
  let (neg, body) := strip_sign s in
  match strip_0x body with
  | EmptyString => Raise ValueError
  | ds =>
      match hex_digits ds 0%N with
      | Some n => Ok (if neg then - Z.of_N n else Z.of_N n)
      | None => Raise ValueError
      end
  end.

(** [l[i]] *)
Definition index {A : Type} (l : list A) (i : nat) : result A :=
  match nth_error l i with
  | Some x => Ok x
  | None => Raise IndexError
  end.

(** [l[i:j]]: a slice never raises, it is cut at the end of the list. *)
Definition slice {A : Type} (l : list A) (i j : nat) : list A :=
  firstn (j - i) (skipn i l).

Definition int_of_byte (b : byte) : Z := Z.of_N (Byte.to_N b).

(** [int.from_bytes(bs)], whose byte order defaults to big-endian. *)
Definition int_from_bytes (bs : list byte) : Z :=
  fold_left (fun acc b => acc * 256 + int_of_byte b) bs 0.

(** [[f(x) for x in l]] where [f] may raise. *)
Fixpoint comprehension {A B : Type} (f : A -> result B) (l : list A) : result (list B) :=
  match l with
  | [] => Ok []
  | x :: l' =>
      let* y := f x in
      let* ys := comprehension f l' in
      Ok (y :: ys)
  end.

Fixpoint zeros (n : nat) : string :=
  match n with
  | O => EmptyString
  | S n' => String "0"%char (zeros n')
  end.

(** Zero fill of a digit string up to [width] characters. *)
Definition zfill (width : nat) (digits : string) : string :=
  String.append (zeros (width - String.length digits)) digits.

(** ["{:02x}".format(n)]: lowercase hexadecimal, no prefix, filled with
    zeros to two characters; the sign counts in the width and a wider number
    is not cut. *)
Definition format_02x (n : Z) : string :=
  match n with
  | Z0 => zfill 2 "0"
  | Zpos p => zfill 2 (HexString.Raw.of_pos p EmptyString)
  | Zneg p => String "-"%char (zfill 1 (HexString.Raw.of_pos p EmptyString))
  end.

(** The decimal digits of a number. *)
Definition digits (n : N) : string := NilEmpty.string_of_uint (N.to_uint n).

(** A decimal field of [strftime], filled with zeros. *)
Definition decimal (width : nat) (n : N) : string := zfill width (digits n).

End Py.

(** ** Dates *)

(** The fields of a naive [datetime], as [datetime.now()] returns it. *)
Record civil : Set := {
  year : N;
  month : N;
  day : N;
  hour : N;
  minute : N;
  second : N
}.

(** A [datetime] held by the session is either
    [datetime.fromtimestamp(ts, UTC)], the aware instant [ts] seconds after
    the epoch, or a naive wall-clock value. *)
Inductive datetime : Set :=
| fromtimestamp_UTC (ts : Z)
| naive (c : civil).

(** [d.strftime("ST%Y%m%d%H%M%SU")] of a naive [d].  The year is printed
    with the digits it has: three for the year 999.  The other fields are
    filled with zeros to two digits. *)
Definition strftime_ST (c : civil) : string :=
  String.append "ST"
   (String.append (Py.digits (year c))
   (String.append (Py.decimal 2 (month c))
   (String.append (Py.decimal 2 (day c))
   (String.append (Py.decimal 2 (hour c))
   (String.append (Py.decimal 2 (minute c))
   (String.append (Py.decimal 2 (second c)) "U")))))).

(** ** constants.py (parameters) *)

Record Constants : Type := {
  BT_MANUFACTURER_ID : Z;
  CHAR_FEEDBACK : string;
  CHAR_TX : string;
  (** the values of the members of the integer enumeration
      [PyHatchBabyRestSound] *)
  sound_values : list Z
}.

(** [PyHatchBabyRestSound(v)]: the member of value [v], a [ValueError] when
    there is none.  A member is represented by its value. *)
Definition PyHatchBabyRestSound (K : Constants) (v : Z) : result Z :=
  if existsb (Z.eqb v) (sound_values K) then Ok v else Raise ValueError.

(** ** The transport (bleak) *)

Module BLEDevice.

Record t : Type := {
  address : string;
  name : option string;
  (** [metadata["manufacturer_data"]]: company identifier to payload *)
  manufacturer_data : list (Z * list byte)
}.

End BLEDevice.

Inductive event : Type :=
| Connect
| Disconnect
| ReadGatt (char_specifier : string)
| WriteGatt (char_specifier : string) (data : string) (response : bool)
| Sleep (milliseconds : N).

(** The side of the transport that changes: how many calls of each kind were
    made, and the calls in the order they were made. *)
Record Link : Type := {
  connects : nat;
  reads : nat;
  writes : nat;
  ticks : nat;
  trace : list event
}.

Definition fresh_link : Link :=
  {| connects := 0; reads := 0; writes := 0; ticks := 0; trace := [] |}.

(** The answers of the outside world. *)
Record World : Type := {
  (** the devices that the n-th search of a scanner hears before it gives
      up, in the order in which they are heard *)
  air : nat -> list BLEDevice.t;
  (** whether the n-th [connect] succeeds *)
  link_ok : nat -> bool;
  (** what the n-th [read_gatt_char] returns, [None] when it fails *)
  feedback : nat -> option (list byte);
  (** whether the n-th [write_gatt_char] succeeds *)
  tx_ok : nat -> bool;
  (** the n-th reading of [datetime.now()] *)
  clock : nat -> civil
}.

Definition log (ev : event) (l : Link) : Link :=
  {| connects := connects l; reads := reads l; writes := writes l;
     ticks := ticks l; trace := trace l ++ [ev] |}.

Definition count_connect (l : Link) : Link :=
  {| connects := S (connects l); reads := reads l; writes := writes l;
     ticks := ticks l; trace := trace l |}.

Definition count_read (l : Link) : Link :=
  {| connects := connects l; reads := S (reads l); writes := writes l;
     ticks := ticks l; trace := trace l |}.

Definition count_write (l : Link) : Link :=
  {| connects := connects l; reads := reads l; writes := S (writes l);
     ticks := ticks l; trace := trace l |}.

Definition count_tick (l : Link) : Link :=
  {| connects := connects l; reads := reads l; writes := writes l;
     ticks := S (ticks l); trace := trace l |}.

Module BleakScanner.

(** A scanner object.  It keeps nothing of what it heard: every search
    listens again, and the object only counts the searches made with it. *)
Record t : Type := { searches : nat }.

(** [BleakScanner()] *)
Definition create : t := {| searches := 0 |}.

Section Methods.

Variable W : World.

(** A search returns the first device heard that it looks for, [None] when
    it gives up, and leaves the scanner one search older. *)
Definition find_device_by_filter (sc : t) (f : BLEDevice.t -> bool) :
  option BLEDevice.t * t :=
  (find f (air W (searches sc)), {| searches := S (searches sc) |}).

Definition find_device_by_address (sc : t) (a : string) : option BLEDevice.t * t :=
  find_device_by_filter sc (fun d => String.eqb (BLEDevice.address d) a).

End Methods.

End BleakScanner.

(** ** class SaveConnectBleakClient(BleakClient) *)

Module SaveConnectBleakClient.

Record t : Type := {
  target : BLEDevice.t;
  is_connected : bool;
  was_open : bool
}.

(** [SaveConnectBleakClient(device)]; [was_open] starts from the class
    attribute, [False]. *)
Definition new (d : BLEDevice.t) : t :=
  {| target := d; is_connected := false; was_open := false |}.

Definition set_is_connected (b : bool) (c : t) : t :=
  {| target := target c; is_connected := b; was_open := was_open c |}.

Definition set_was_open (b : bool) (c : t) : t :=
  {| target := target c; is_connected := is_connected c; was_open := b |}.

Section Methods.

Variable W : World.

(** The methods work on the client object and on the link. *)
Definition C (A : Type) : Type := ST (t * Link) A.

(** [BleakClient.connect]: the world decides whether the link comes up. *)
Definition connect : C unit :=
  fun '(c, l) =>
    let l' := count_connect (log Connect l) in
    if link_ok W (connects l)
    then (Ok tt, (set_is_connected true c, l'))
    else (Raise BleakError, (c, l')).

(** [BleakClient.disconnect] *)
Definition disconnect : C unit :=
  fun '(c, l) => (Ok tt, (set_is_connected false c, log Disconnect l)).

(** [BleakClient.read_gatt_char]: fails on a client that is not connected. *)
Definition read_gatt_char (char_specifier : string) : C (list byte) :=
  fun '(c, l) =>
    if is_connected c
    then
      let l' := count_read (log (ReadGatt char_specifier) l) in
      match feedback W (reads l) with
      | Some raw => (Ok raw, (c, l'))
      | None => (Raise BleakError, (c, l'))
      end
    else (Raise BleakError, (c, l)).

(** [BleakClient.write_gatt_char]: fails on a client that is not connected. *)
Definition write_gatt_char (char_specifier data : string) (response : bool) : C unit :=
  fun '(c, l) =>
    if is_connected c
    then
      let l' := count_write (log (WriteGatt char_specifier data response) l) in
      if tx_ok W (writes l) then (Ok tt, (c, l')) else (Raise BleakError, (c, l'))
    else (Raise BleakError, (c, l)).

(** [__aenter__] (lines 18-23) *)
Definition __aenter__ : C unit :=
  c <- gets fst ;;
  if is_connected c
  then modify (fun '(c, l) => (set_was_open true c, l))
  else connect.

(** [__aexit__] (lines 25-28); the assignment [self.was_open = False] is
    inside the [if]. *)
Definition __aexit__ : C unit :=
  c <- gets fst ;;
  if negb (was_open c)
  then
    disconnect ;;
    modify (fun '(c, l) => (set_was_open false c, l))
  else ret tt.

End Methods.

End SaveConnectBleakClient.

(** ** class PyHatchBabyRestAsync *)

Module PyHatchBabyRestAsync.

(** The attributes of a session.  The six attributes of the status snapshot
    do not exist before they are first assigned ([None] here). *)
Record t : Type := {
  scanner : option BleakScanner.t;
  auto_refresh : bool;
  device : option BLEDevice.t;
  address : option string;
  _client : option SaveConnectBleakClient.t;
  time : option datetime;
  color : option (Z * Z * Z);
  brightness : option Z;
  sound : option Z;
  volume : option Z;
  power : option bool
}.

Definition set_scanner (v : option BleakScanner.t) (o : t) : t :=
  {| scanner := v; auto_refresh := auto_refresh o; device := device o;
     address := address o; _client := _client o; time := time o;
     color := color o; brightness := brightness o; sound := sound o;
     volume := volume o; power := power o |}.

Definition set_device (v : option BLEDevice.t) (o : t) : t :=
  {| scanner := scanner o; auto_refresh := auto_refresh o; device := v;
     address := address o; _client := _client o; time := time o;
     color := color o; brightness := brightness o; sound := sound o;
     volume := volume o; power := power o |}.

Definition set_address (v : option string) (o : t) : t :=
  {| scanner := scanner o; auto_refresh := auto_refresh o; device := device o;
     address := v; _client := _client o; time := time o;
     color := color o; brightness := brightness o; sound := sound o;
     volume := volume o; power := power o |}.

Definition set__client (v : option SaveConnectBleakClient.t) (o : t) : t :=
  {| scanner := scanner o; auto_refresh := auto_refresh o; device := device o;
     address := address o; _client := v; time := time o;
     color := color o; brightness := brightness o; sound := sound o;
     volume := volume o; power := power o |}.

Definition set_time_attr (v : option datetime) (o : t) : t :=
  {| scanner := scanner o; auto_refresh := auto_refresh o; device := device o;
     address := address o; _client := _client o; time := v;
     color := color o; brightness := brightness o; sound := sound o;
     volume := volume o; power := power o |}.

Definition set_color_attr (v : option (Z * Z * Z)) (o : t) : t :=
  {| scanner := scanner o; auto_refresh := auto_refresh o; device := device o;
     address := address o; _client := _client o; time := time o;
     color := v; brightness := brightness o; sound := sound o;
     volume := volume o; power := power o |}.

Definition set_brightness_attr (v : option Z) (o : t) : t :=
  {| scanner := scanner o; auto_refresh := auto_refresh o; device := device o;
     address := address o; _client := _client o; time := time o;
     color := color o; brightness := v; sound := sound o;
     volume := volume o; power := power o |}.

Definition set_sound_attr (v : option Z) (o : t) : t :=
  {| scanner := scanner o; auto_refresh := auto_refresh o; device := device o;
     address := address o; _client := _client o; time := time o;
     color := color o; brightness := brightness o; sound := v;
     volume := volume o; power := power o |}.

Definition set_volume_attr (v : option Z) (o : t) : t :=
  {| scanner := scanner o; auto_refresh := auto_refresh o; device := device o;
     address := address o; _client := _client o; time := time o;
     color := color o; brightness := brightness o; sound := sound o;
     volume := v; power := power o |}.

Definition set_power_attr (v : option bool) (o : t) : t :=
  {| scanner := scanner o; auto_refresh := auto_refresh o; device := device o;
     address := address o; _client := _client o; time := time o;
     color := color o; brightness := brightness o; sound := sound o;
     volume := volume o; power := v |}.

(** The session object together with the link it talks over. *)
Record Sys : Type := { self : t; net : Link }.

Definition M (A : Type) : Type := ST Sys A.

Definition assign (f : t -> t) : M unit :=
  modify (fun s => {| self := f (self s); net := net s |}).

(** The local variables of [refresh_data] at line 138. *)
Record locals : Type := {
  l_timestamp : Z;
  l_red : Z;
  l_green : Z;
  l_blue : Z;
  l_brightness : Z;
  l_sound : Z;
  l_volume : Z;
  l_power : bool
}.

Section Methods.

Variable W : World.
Variable K : Constants.

(** A call of a method of the cached client, [self._client], which the
    call mutates in place. *)
Definition on_client {A : Type} (m : SaveConnectBleakClient.C A) : M A :=
  fun s =>
    match _client (self s) with
    | None => (Raise AttributeError, s)
    | Some c =>
        let '(r, (c', l')) := m (c, net s) in
        (r, {| self := set__client (Some c') (self s); net := l' |})
    end.

(** [async with <the cached client> as client: body] *)
Definition async_with {A : Type} (body : M A) : M A :=
  on_client (SaveConnectBleakClient.__aenter__ W) ;;
  finally body (on_client SaveConnectBleakClient.__aexit__).

(** A search with the scanner of the session, [self.scanner], which the
    search changes in place. *)
Definition on_scanner {A : Type} (m : BleakScanner.t -> A * BleakScanner.t) : M A :=
  sc <- gets (fun s => scanner (self s)) ;;
  match sc with
  | None => raise AttributeError
  | Some sc =>
      let (r, sc') := m sc in
      assign (set_scanner (Some sc')) ;;
      ret r
  end.

(** [scan] (lines 95-114).  An address that is [None] or empty is falsy. *)
Definition scan : M BLEDevice.t :=
  sc0 <- gets (fun s => scanner (self s)) ;;
  assign (set_scanner
            (Some match sc0 with
                  | None => BleakScanner.create
                  | Some sc => sc
                  end)) ;;
  a <- gets (fun s => address (self s)) ;;
  found <-
    match a with
    | Some (String c r) =>
        on_scanner (fun sc => BleakScanner.find_device_by_address W sc (String c r))
    | _ =>
        on_scanner
          (fun sc =>
             BleakScanner.find_device_by_filter W sc
               (fun d =>
                  existsb (Z.eqb (BT_MANUFACTURER_ID K))
                    (map fst (BLEDevice.manufacturer_data d))))
    end ;;
  match found with
  | None => raise RuntimeError
  | Some d =>
      assign (set_device (Some d)) ;;
      assign (set_address (Some (BLEDevice.address d))) ;;
      ret d
  end.

(** [_ensure_scan] (lines 71-75) *)
Definition _ensure_scan : M BLEDevice.t :=
  d <- gets (fun s => device (self s)) ;;
  match d with
  | None => scan
  | Some d => ret d
  end.

(** The property [client] (lines 62-69); the client it returns is the one
    in [self._client]. *)
Definition client : M unit :=
  c <- gets (fun s => _client (self s)) ;;
  match c with
  | Some _ => ret tt
  | None =>
      d <- _ensure_scan ;;
      assign (set__client (Some (SaveConnectBleakClient.new d)))
  end.

(** Lines 122-137 of [refresh_data]: from the bytes read to the local
    variables, in the order of the source. *)
Definition decode (raw_char_read : list byte) : result locals :=
  let response := map (fun x => Py.hex (Py.int_of_byte x)) raw_char_read in
  let timestamp := Py.int_from_bytes (Py.slice raw_char_read 1 5) in
  let* r5 := Py.index response 5 in
  if negb (String.eqb r5 "0x43") then Raise AssertionError else
  let* r10 := Py.index response 10 in
  if negb (String.eqb r10 "0x53") then Raise AssertionError else
  let* r13 := Py.index response 13 in
  if negb (String.eqb r13 "0x50") then Raise AssertionError else
  let* rgbb := Py.comprehension Py.int_base16 (Py.slice response 6 10) in
  match rgbb with
  | [red; green; blue; brightness] =>
      let* r11 := Py.index response 11 in
      let* v11 := Py.int_base16 r11 in
      let* sound := PyHatchBabyRestSound K v11 in
      let* r12 := Py.index response 12 in
      let* volume := Py.int_base16 r12 in
      let* r14 := Py.index response 14 in
      let* v14 := Py.int_base16 r14 in
      let power := negb (negb (Z.land 192 v14 =? 0)) in
      Ok {| l_timestamp := timestamp; l_red := red; l_green := green;
            l_blue := blue; l_brightness := brightness; l_sound := sound;
            l_volume := volume; l_power := power |}
  | _ => Raise ValueError
  end.

(** Lines 139-144 of [refresh_data]. *)
Definition store (v : locals) : M unit :=
  assign (set_time_attr (Some (fromtimestamp_UTC (l_timestamp v)))) ;;
  assign (set_color_attr (Some (l_red v, l_green v, l_blue v))) ;;
  assign (set_brightness_attr (Some (l_brightness v))) ;;
  assign (set_sound_attr (Some (l_sound v))) ;;
  assign (set_volume_attr (Some (l_volume v))) ;;
  assign (set_power_attr (Some (l_power v))).

(** Lines 117-120 of [refresh_data]. *)
Definition read_feedback : M (list byte) :=
  d <- _ensure_scan ;;
  assign (set_device (Some d)) ;;
  client ;;
  async_with (on_client (SaveConnectBleakClient.read_gatt_char W (CHAR_FEEDBACK K))).

(** [refresh_data] (lines 116-144) *)
Definition refresh_data : M unit :=
  raw_char_read <- read_feedback ;;
  v <- lift (decode raw_char_read) ;;
  store v.

(** [asyncio.sleep(0.25)] *)
Definition sleep_quarter_second : M unit :=
  modify (fun s => {| self := self s; net := log (Sleep 250) (net s) |}).

(** [_send_command] (lines 77-93); [bytearray(command, "utf-8")] of a
    command, which is ASCII, has the characters of the command. *)
Definition _send_command (command : string) : M unit :=
  d <- _ensure_scan ;;
  assign (set_device (Some d)) ;;
  client ;;
  async_with
    (on_client (SaveConnectBleakClient.write_gatt_char W (CHAR_TX K) command true) ;;
     ar <- gets (fun s => auto_refresh (self s)) ;;
     if ar
     then sleep_quarter_second ;; refresh_data
     else ret tt).

(** [connect] (lines 146-149) *)
Definition connect : M unit :=
  client ;;
  c <- gets (fun s => _client (self s)) ;;
  match c with
  | Some c =>
      if negb (SaveConnectBleakClient.is_connected c)
      then on_client (SaveConnectBleakClient.connect W)
      else ret tt
  | None => raise AttributeError
  end.

(** [disconnect] (lines 151-154) *)
Definition disconnect : M unit :=
  client ;;
  c <- gets (fun s => _client (self s)) ;;
  match c with
  | Some c =>
      if SaveConnectBleakClient.is_connected c
      then on_client SaveConnectBleakClient.disconnect
      else ret tt
  | None => raise AttributeError
  end.

(** [power_on] (lines 156-159) *)
Definition power_on : M unit :=
  let command := String.append "SI" (Py.format_02x 1) in
  assign (set_power_attr (Some true)) ;;
  _send_command command.

(** [power_off] (lines 161-164) *)
Definition power_off : M unit :=
  let command := String.append "SI" (Py.format_02x 0) in
  assign (set_power_attr (Some false)) ;;
  _send_command command.

(** [set_sound] (lines 166-169) *)
Definition set_sound (sound : Z) : M unit :=
  let command := String.append "SN" (Py.format_02x sound) in
  assign (set_sound_attr (Some sound)) ;;
  _send_command command.

(** [set_volume] (lines 171-174) *)
Definition set_volume (volume : Z) : M unit :=
  let command := String.append "SV" (Py.format_02x volume) in
  assign (set_volume_attr (Some volume)) ;;
  _send_command command.

(** The command of [set_color] and [set_brightness]. *)
Definition format_SC (red green blue brightness : Z) : string :=
  String.append "SC"
   (String.append (Py.format_02x red)
   (String.append (Py.format_02x green)
   (String.append (Py.format_02x blue) (Py.format_02x brightness)))).

(** Reading an attribute of the snapshot that was never assigned. *)
Definition getattr {A : Type} (f : t -> option A) : M A :=
  fun s =>
    match f (self s) with
    | Some v => (Ok v, s)
    | None => (Raise AttributeError, s)
    end.

(** [set_color] (lines 176-182) *)
Definition set_color (red green blue : Z) : M unit :=
  refresh_data ;;
  b <- getattr brightness ;;
  let command := format_SC red green blue b in
  assign (set_color_attr (Some (red, green, blue))) ;;
  _send_command command.

(** [set_brightness] (lines 184-192) *)
Definition set_brightness (brightness : Z) : M unit :=
  refresh_data ;;
  c <- getattr color ;;
  let '(c0, c1, c2) := c in
  let command := format_SC c0 c1 c2 brightness in
  assign (set_brightness_attr (Some brightness)) ;;
  _send_command command.

(** [datetime.now()] *)
Definition now : M civil :=
  fun s => (Ok (clock W (ticks (net s))),
            {| self := self s; net := count_tick (net s) |}).

(** [set_time] (lines 194-201); every [datetime] is truthy, so [not
    new_time] holds of [None] only. *)
Definition set_time (new_time : option datetime) : M unit :=
  new_time <-
    match new_time with
    | None => c <- now ;; ret (naive c)
    | Some d => ret d
    end ;;
  assign (set_time_attr (Some new_time)) ;;
  c <- now ;;
  let command := strftime_ST c in
  _send_command command.

(** The property [name] (lines 203-205) *)
Definition name (o : t) : option string :=
  match device o with
  | Some d => BLEDevice.name d
  | None => None
  end.

(** The property [is_connected] (lines 207-213) *)
Definition is_connected : M bool :=
  c <- gets (fun s => _client (self s)) ;;
  match c with
  | None => ret false
  | Some _ =>
      client ;;
      c <- gets (fun s => _client (self s)) ;;
      match c with
      | Some c => ret (SaveConnectBleakClient.is_connected c)
      | None => raise AttributeError
      end
  end.

End Methods.

(** The first argument of the constructor: [None], an address, or a device. *)
Inductive address_or_ble_device : Type :=
| NoAddress
| Address (a : string)
| Device (d : BLEDevice.t).

(** [__init__] (lines 34-60), on a link [l]. *)
Definition __init__ (W : World) (K : Constants) (arg : address_or_ble_device)
  (scanner : option BleakScanner.t) (scan_now refresh_now auto_refresh : bool)
  (l : Link) : result unit * Sys :=
  let blank :=
    {| scanner := scanner; auto_refresh := auto_refresh; device := None;
       address := None; _client := None; time := None; color := None;
       brightness := None; sound := None; volume := None; power := None |} in
  let construct : M unit :=
    match arg with
    | Device d =>
        assign (set_device (Some d)) ;;
        assign (set_address (Some (BLEDevice.address d)))
    | _ =>
        assign (set_address
                  match arg with
                  | Address a => Some a
                  | _ => None
                  end) ;;
        if scan_now
        then d <- scan W K ;; assign (set_device (Some d))
        else assign (set_device None)
    end ;;
    if refresh_now then refresh_data W K else ret tt in
  construct {| self := blank; net := l |}.

End PyHatchBabyRestAsync.

(** The module-level [connect] (lines 216-236). *)
Definition connect (W : World) (K : Constants)
  (arg : PyHatchBabyRestAsync.address_or_ble_device)
  (scanner : option BleakScanner.t) (scan_now refresh_now auto_refresh : bool)
  (l : Link) : result unit * PyHatchBabyRestAsync.Sys :=
  let (r, rest) := PyHatchBabyRestAsync.__init__ W K arg scanner false false auto_refresh l in
  match r with
  | Raise e => (Raise e, rest)
  | Ok _ =>
      ((if scan_now then PyHatchBabyRestAsync.scan W K ;; ret tt else ret tt) ;;
       (if refresh_now then PyHatchBabyRestAsync.refresh_data W K else ret tt)) rest
  end.

(** ** Sample data

    A world with one Rest in the air, used to run the code on concrete
    inputs.  The values given to the constants are examples. *)

Module Sample.

Import PyHatchBabyRestAsync.

Local Open Scope string_scope.

Definition K : Constants :=
  {| BT_MANUFACTURER_ID := 1076;
     CHAR_FEEDBACK := "02260002-5efd-47eb-9c1a-de53f7a2b232";
     CHAR_TX := "02240002-5efd-47eb-9c1a-de53f7a2b232";
     sound_values := [0; 2; 3; 4; 5; 6; 7; 9; 10; 11; 13; 14] |}.

Definition rest : BLEDevice.t :=
  {| BLEDevice.address := "AA:BB:CC:DD:EE:FF";
     BLEDevice.name := Some "Hatch Rest";
     BLEDevice.manufacturer_data := [(1076, [])] |}.

Definition lamp : BLEDevice.t :=
  {| BLEDevice.address := "11:22:33:44:55:66";
     BLEDevice.name := Some "Lamp";
     BLEDevice.manufacturer_data := [(76, [])] |}.

(** Another Rest. *)
Definition other_rest : BLEDevice.t :=
  {| BLEDevice.address := "AA:BB:CC:DD:EE:00";
     BLEDevice.name := Some "Hatch Rest";
     BLEDevice.manufacturer_data := [(1076, [])] |}.

(** A status buffer: timestamp 0x5f000102, colour (10, 20, 30), brightness
    100, sound 2, volume 50, and [flags] in byte 14. *)
Definition buffer (flags : byte) : list byte :=
  [x54; x5f; x00; x01; x02; x43; x0a; x14; x1e; x64; x53; x02; x32; x50; flags]%byte.

(** The same with brightness 200. *)
Definition buffer' : list byte :=
  [x54; x5f; x00; x01; x02; x43; x0a; x14; x1e; xc8; x53; x02; x32; x50; x00]%byte.

Definition noon : civil :=
  {| year := 2024; month := 3; day := 9; hour := 12; minute := 0; second := 5 |}.

(** Every connect and write succeeds, every read returns [raw]. *)
Definition world (raw : list byte) : World :=
  {| air := fun _ => [lamp; rest];
     link_ok := fun _ => true;
     feedback := fun _ => Some raw;
     tx_ok := fun _ => true;
     clock := fun _ => noon |}.


(** The first search hears the Rest, the later ones another Rest only. *)
Definition moving_world : World :=
  {| air := fun n => match n with O => [lamp; rest] | _ => [lamp; other_rest] end;
     link_ok := fun _ => true;
     feedback := fun _ => Some (buffer x00);
     tx_ok := fun _ => true;
     clock := fun _ => noon |}.

(** A world with no Rest in the air. *)
Definition empty_world : World :=
  {| air := fun _ => [lamp];
     link_ok := fun _ => true;
     feedback := fun _ => None;
     tx_ok := fun _ => true;
     clock := fun _ => noon |}.

(** A session made by [PyHatchBabyRestAsync(rest, scan_now=False,
    refresh_now=False, auto_refresh=ar)]. *)
Definition session (ar : bool) : Sys :=
  snd (__init__ (world (buffer x00)) K (Device rest) None false false ar fresh_link).

(** A session made for an address that no device in the air has. *)
Definition stranger (ar : bool) : Sys :=
  snd (__init__ (world (buffer x00)) K (Address "00:00:00:00:00:01") None false false ar
         fresh_link).

(** A session made without address or device, not scanned yet. *)
Definition anonymous (ar : bool) : Sys :=
  snd (__init__ (world (buffer x00)) K NoAddress None false false ar fresh_link).

End Sample.

(** ** The vocabulary of the specification *)

Module Spec.

Import PyHatchBabyRestAsync.

(** The unsigned value of the byte at offset [i] (0 beyond the end). *)
Definition byte_at (raw : list byte) (i : nat) : Z :=
  Py.int_of_byte (nth i raw x00%byte).

(** The big-endian unsigned 32-bit integer held by bytes 1 to 4. *)
Definition be32 (raw : list byte) : Z :=
  byte_at raw 1 * 2 ^ 24 + byte_at raw 2 * 2 ^ 16 + byte_at raw 3 * 2 ^ 8 + byte_at raw 4.

(** A status buffer is well formed when it reaches offset 14, carries the
    three section markers and a known sound. *)
Definition well_formed (K : Constants) (raw : list byte) : bool :=
  (15 <=? List.length raw)%nat
  && (byte_at raw 5 =? 67) && (byte_at raw 10 =? 83) && (byte_at raw 13 =? 80)
  && existsb (Z.eqb (byte_at raw 11)) (sound_values K).

(** What a buffer holds at the fixed offsets; the power is on when neither
    of the two most significant bits of byte 14 is set. *)
Definition layout (raw : list byte) : locals :=
  {| l_timestamp := be32 raw;
     l_red := byte_at raw 6;
     l_green := byte_at raw 7;
     l_blue := byte_at raw 8;
     l_brightness := byte_at raw 9;
     l_sound := byte_at raw 11;
     l_volume := byte_at raw 12;
     l_power := negb (Z.testbit (byte_at raw 14) 7 || Z.testbit (byte_at raw 14) 6) |}.

(** The snapshot that [refresh_data] stores for decoded values. *)
Definition snapshot_of (v : locals) :
  option datetime * option (Z * Z * Z) * option Z * option Z * option Z * option bool :=
  (Some (fromtimestamp_UTC (l_timestamp v)),
   Some (l_red v, l_green v, l_blue v),
   Some (l_brightness v), Some (l_sound v), Some (l_volume v), Some (l_power v)).

(** The six attributes of the status snapshot. *)
Definition snapshot (o : t) :
  option datetime * option (Z * Z * Z) * option Z * option Z * option Z * option bool :=
  (time o, color o, brightness o, sound o, volume o, power o).

(** The stored identity of the device. *)
Definition identity (o : t) : option BLEDevice.t * option string :=
  (device o, address o).

(** The payloads handed to [write_gatt_char], oldest first. *)
Fixpoint written (tr : list event) : list string :=
  match tr with
  | [] => []
  | WriteGatt _ data _ :: tr' => data :: written tr'
  | _ :: tr' => written tr'
  end.

(** The status reads of a trace. *)
Definition is_read (ev : event) : bool :=
  match ev with
  | ReadGatt _ => true
  | _ => false
  end.

(** The two characters of a byte written in lowercase hexadecimal. *)
Definition hex_char (n : Z) : ascii :=
  nth (Z.to_nat n) (list_ascii_of_string "0123456789abcdef") "?"%char.

Definition two_hex (n : Z) : string :=
  String (hex_char (n / 16)) (String (hex_char (n mod 16)) EmptyString).

(** The value of a string of hexadecimal digits of either case. *)
Definition hex_value (s : string) : option N := Py.hex_digits s 0%N.



(** The character of a decimal digit. *)
Definition digit_char (n : N) : ascii :=
  nth (N.to_nat n) (list_ascii_of_string "0123456789") "?"%char.

(** The last two, and the last four, decimal digits of a number. *)
Definition two_digits (n : N) : string :=
  String (digit_char ((n / 10) mod 10)) (String (digit_char (n mod 10)) EmptyString).

Definition four_digits (n : N) : string :=
  String.append (two_digits (n / 100)) (two_digits n).

(** A reading of the clock written as YYYYMMDDHHMMSS. *)
Definition YYYYMMDDHHMMSS (c : civil) : string :=
  String.append (four_digits (year c))
   (String.append (two_digits (month c))
   (String.append (two_digits (day c))
   (String.append (two_digits (hour c))
   (String.append (two_digits (minute c)) (two_digits (second c)))))).

(** The fields of a clock reading are in the range of a calendar date with a
    year of four digits. *)
Definition calendar (c : civil) : Prop :=
  (1000 <= year c < 10000 /\ month c < 100 /\ day c < 100
   /\ hour c < 100 /\ minute c < 100 /\ second c < 100)%N.

(** [replace_at i b raw]: the buffer [raw] with the byte at offset [i]
    replaced by [b] (unchanged when [i] is beyond the end). *)
Fixpoint replace_at (i : nat) (b : byte) (raw : list byte) : list byte :=
  match raw, i with
  | [], _ => []
  | _ :: raw', O => b :: raw'
  | x :: raw', S i' => x :: replace_at i' b raw'
  end.

(** The failure expected of a buffer that is well formed but for byte [i],
    replaced by [b]: a wrong section marker is a format error (the
    [AssertionError] the asserts raise), a sound outside the enumeration is
    an unknown sound (the [ValueError] the enumeration raises). *)
Definition corruption (K : Constants) (raw : list byte) (i : nat) (b : byte) :
  option exception :=
  if existsb (Nat.eqb i) [5; 10; 13]%nat && negb (Py.int_of_byte b =? byte_at raw i)
  then Some AssertionError
  else if (i =? 11)%nat && negb (existsb (Z.eqb (Py.int_of_byte b)) (sound_values K))
  then Some ValueError
  else None.

(** The power decoded from a buffer, when the decode succeeds. *)
Definition decoded_power (K : Constants) (raw : list byte) : option bool :=
  match decode K raw with
  | Ok v => Some (l_power v)
  | Raise _ => None
  end.

(** Between [before] and [after] exactly one payload was handed to
    [write_gatt_char], and it was [command]. *)
Definition sends (before after : Sys) (command : string) : Prop :=
  exists added,
    trace (net after) = trace (net before) ++ added /\ written added = [command].

(** A relation between the state before and the state after holds of every
    run of [m], whether it returns or raises. *)
Definition stable {S A : Type} (R : S -> S -> Prop) (m : ST S A) : Prop :=
  forall s, R s (snd (m s)).

(** The snapshot is untouched. *)
Definition same_snapshot (s s' : Sys) : Prop :=
  snapshot (self s') = snapshot (self s).

(** The cached client is untouched. *)
Definition same_client (s s' : Sys) : Prop :=
  _client (self s') = _client (self s).

(** No status read is made. *)
Definition unread (s s' : Sys) : Prop :=
  reads (net s') = reads (net s) /\
  filter is_read (trace (net s')) = filter is_read (trace (net s)).

(** The trace grows, by calls other than writes. *)
Definition quiet (s s' : Sys) : Prop :=
  exists added, trace (net s') = trace (net s) ++ added /\ written added = [].

Section Readiness.

Variable W : World.
Variable K : Constants.

(** Whether the session holds an open connection. *)
Definition connected (s : Sys) : bool :=
  match _client (self s) with
  | Some c => SaveConnectBleakClient.is_connected c
  | None => false
  end.

(** The [was_open] flag of the cached client. *)
Definition flag (s : Sys) : bool :=
  match _client (self s) with
  | Some c => SaveConnectBleakClient.was_open c
  | None => false
  end.

(** Whether the guard of the next transport operation can be entered: the
    device is known or a scan finds it, and the link is up or comes up. *)
Definition ready (s : Sys) : bool :=
  match fst (_ensure_scan W K s) with
  | Ok _ => true
  | Raise _ => false
  end
  && (connected s || link_ok W (connects (net s))).

(** The device is known and the client exists. *)
Definition settled (s : Sys) : bool :=
  match device (self s), _client (self s) with
  | Some _, Some _ => true
  | _, _ => false
  end.

(** What [_send_command] and [refresh_data] do before they enter the guard
    (lines 82 and 84, lines 117 and 119). *)
Definition prelude : M unit :=
  d <- _ensure_scan W K ;;
  assign (set_device (Some d)) ;;
  client W K.

(** The guarded block of [refresh_data] (lines 119-120). *)
Definition guarded_read : M (list byte) :=
  async_with W (on_client (SaveConnectBleakClient.read_gatt_char W (CHAR_FEEDBACK K))).

(** The guarded block of [_send_command] (lines 84-93). *)
Definition guarded_write (command : string) : M unit :=
  async_with W
    (on_client (SaveConnectBleakClient.write_gatt_char W (CHAR_TX K) command true) ;;
     ar <- gets (fun s => auto_refresh (self s)) ;;
     if ar
     then sleep_quarter_second ;; refresh_data W K
     else ret tt).

(** The scanner that the next scan uses: the one of the session, or one
    made on demand. *)
Definition the_scanner (s : Sys) : BleakScanner.t :=
  match scanner (self s) with
  | Some sc => sc
  | None => BleakScanner.create
  end.

(** What the next scan of the session hears. *)
Definition heard (s : Sys) : list BLEDevice.t :=
  air W (BleakScanner.searches (the_scanner s)).

(** What the next scan of the session looks for: the stored address, or
    when there is none the manufacturer identifier. *)
Definition wanted (s : Sys) : BLEDevice.t -> bool :=
  match address (self s) with
  | Some (String c r) => fun d => String.eqb (BLEDevice.address d) (String c r)
  | _ =>
      fun d =>
        existsb (Z.eqb (BT_MANUFACTURER_ID K)) (map fst (BLEDevice.manufacturer_data d))
  end.

(** The session after a scan that found nothing: its scanner is one search
    older. *)
Definition searched (s : Sys) : Sys :=
  {| self :=
       set_scanner
         (Some {| BleakScanner.searches := S (BleakScanner.searches (the_scanner s)) |})
         (self s);
     net := net s |}.

(** No device matches the scan: with an address, no device heard has it;
    without, no advertisement heard has the manufacturer identifier among
    the keys of its manufacturer data. *)
Definition no_match (s : Sys) : Prop :=
  match address (self s) with
  | Some (String c r) =>
      forall d, In d (heard s) -> BLEDevice.address d <> String c r
  | _ =>
      forall d, In d (heard s) ->
        ~ In (BT_MANUFACTURER_ID K) (map fst (BLEDevice.manufacturer_data d))
  end.

(** The calls a user of the session can make. *)
Inductive call : Type :=
| Scan
| RefreshData
| SendCommand (command : string)
| DoConnect
| DoDisconnect
| PowerOn
| PowerOff
| SetSound (sound : Z)
| SetVolume (volume : Z)
| SetColor (red green blue : Z)
| SetBrightness (brightness : Z)
| SetTime (new_time : option datetime).

Definition run (c : call) : M unit :=
  match c with
  | Scan => scan W K ;; ret tt
  | RefreshData => refresh_data W K
  | SendCommand command => _send_command W K command
  | DoConnect => PyHatchBabyRestAsync.connect W K
  | DoDisconnect => PyHatchBabyRestAsync.disconnect W K
  | PowerOn => power_on W K
  | PowerOff => power_off W K
  | SetSound v => set_sound W K v
  | SetVolume v => set_volume W K v
  | SetColor r g b => set_color W K r g b
  | SetBrightness v => set_brightness W K v
  | SetTime d => set_time W K d
  end.

(** A sequence of calls; a call that raises does not stop the next ones. *)
Fixpoint run_all (cs : list call) (s : Sys) : Sys :=
  match cs with
  | [] => s
  | c :: cs' => run_all cs' (snd (run c s))
  end.

End Readiness.

(** A raised [was_open] flag stays raised. *)
Definition sticky (s s' : Sys) : Prop := flag s = true -> flag s' = true.

(** What [_send_command] returns when its automatic refresh read [x]. *)
Definition reply (K : Constants) (x : option (list byte)) : result unit :=
  match x with
  | Some raw => let* _ := decode K raw in Ok tt
  | None => Raise BleakError
  end.

End Spec.

(** ** Further vocabulary *)

Module More.

(** The module-level [connect], under a name that the method [connect] of the
    session does not hide. *)
Abbreviation module_connect := connect (only parsing).

Import PyHatchBabyRestAsync Spec.

(** The calls that open or close the link. *)
Definition is_link (ev : event) : bool :=
  match ev with
  | Connect | Disconnect => true
  | _ => false
  end.

Definition link_events (s : Sys) : list event := filter is_link (trace (net s)).

(** An open connection stays open and nothing connects or disconnects. *)
Definition kept_open (s s' : Sys) : Prop :=
  connected s = true ->
  connected s' = true /\ link_events s' = link_events s.

(** The same inside the guard, where the flag is raised. *)
Definition held_open (s s' : Sys) : Prop :=
  connected s = true /\ flag s = true ->
  connected s' = true /\ flag s' = true /\ link_events s' = link_events s.

(** The connection is closed and the flag is down. *)
Definition closed (s : Sys) : bool := negb (connected s) && negb (flag s).

(** Without the automatic refresh a closed session stays closed. *)
Definition kept_closed (s s' : Sys) : Prop :=
  closed s = true /\ auto_refresh (self s) = false ->
  closed s' = true /\ auto_refresh (self s') = false.

(** A closed session stays closed, whatever the policy. *)
Definition stays_closed (s s' : Sys) : Prop := closed s = true -> closed s' = true.

(** The value of a string of decimal digits (0 when it is not one). *)
Definition decimal_value (s : string) : N :=
  match NilEmpty.uint_of_string s with
  | Some u => N.of_uint u
  | None => 0%N
  end.

(** A decimal field [s] of [width] characters that reads back as [n]. *)
Definition field_ok (width : nat) (s : string) (n : N) : bool :=
  (String.length s =? width)%nat && (decimal_value s =? n)%N.

(** The cached client stays bound to the device it was made for. *)
Definition same_target (s s' : Sys) : Prop :=
  forall c, _client (self s) = Some c ->
  exists c', _client (self s') = Some c'
             /\ SaveConnectBleakClient.target c' = SaveConnectBleakClient.target c.

(** Once the device is known, the stored identity and the scanner stay. *)
Definition known (s s' : Sys) : Prop :=
  device (self s) <> None ->
  identity (self s') = identity (self s) /\ scanner (self s') = scanner (self s).

(** The link is untouched. *)
Definition same_net (s s' : Sys) : Prop := net s' = net s.

Definition not_scan (c : call) : bool :=
  match c with
  | Scan => false
  | _ => true
  end.

Definition not_connect (c : call) : bool :=
  match c with
  | DoConnect => false
  | _ => true
  end.

Definition not_disconnect (c : call) : bool :=
  match c with
  | DoDisconnect => false
  | _ => true
  end.

(** The device is known or a scan finds it. *)
Definition resolvable (W : World) (K : Constants) (s : Sys) : bool :=
  match fst (_ensure_scan W K s) with
  | Ok _ => true
  | Raise _ => false
  end.

End More.

(** * Properties *)

Import PyHatchBabyRestAsync Spec.

Arguments Py.hex : simpl never.
Arguments Py.int_base16 : simpl never.
Arguments Py.int_of_byte : simpl never.
Arguments scan : simpl never.
Arguments PyHatchBabyRestSound : simpl never.

(** ** The hexadecimal round trip of [refresh_data] *)

Lemma int_base16_hex (b : byte) :
  Py.int_base16 (Py.hex (Py.int_of_byte b)) = Ok (Py.int_of_byte b).
Proof. destruct b; reflexivity. Qed.

Lemma int_of_byte_range (b : byte) : 0 <= Py.int_of_byte b < 256.
Proof. destruct b; vm_compute; split; congruence. Qed.

Lemma hex_injective (x y : Z) : Py.hex x = Py.hex y -> x = y.
Proof.
  unfold Py.hex; intros E.
  rewrite <- (HexString.to_Z_of_Z x), <- (HexString.to_Z_of_Z y), E.
  reflexivity.
Qed.

Lemma hex_eqb (x y : Z) : String.eqb (Py.hex x) (Py.hex y) = (x =? y).
Proof.
  destruct (Z.eqb_spec x y) as [->|N].
  - apply String.eqb_refl.
  - apply String.eqb_neq; intros E; apply N, hex_injective, E.
Qed.

Lemma marker_eqb (b : byte) (m : Z) (s : string) :
  s = Py.hex m -> String.eqb (Py.hex (Py.int_of_byte b)) s = (Py.int_of_byte b =? m).
Proof. intros ->; apply hex_eqb. Qed.

Lemma format_02x_byte (b : byte) :
  Py.format_02x (Py.int_of_byte b) = two_hex (Py.int_of_byte b).
Proof. destruct b; reflexivity. Qed.

Lemma two_hex_value (b : byte) :
  hex_value (two_hex (Py.int_of_byte b)) = Some (Byte.to_N b).
Proof. destruct b; reflexivity. Qed.

Lemma power_mask (b : byte) :
  negb (negb (Z.land 192 (Py.int_of_byte b) =? 0)) =
  negb (Z.testbit (Py.int_of_byte b) 7 || Z.testbit (Py.int_of_byte b) 6).
Proof. destruct b; reflexivity. Qed.

(** ** The decode block *)

Lemma decode_cons (K : Constants) b0 b1 b2 b3 b4 b5 b6 b7 b8 b9 b10 b11 b12 b13 b14 rest :
  let raw := b0 :: b1 :: b2 :: b3 :: b4 :: b5 :: b6 :: b7 :: b8 :: b9 :: b10
               :: b11 :: b12 :: b13 :: b14 :: rest in
  decode K raw =
    if negb (Py.int_of_byte b5 =? 67) then Raise AssertionError else
    if negb (Py.int_of_byte b10 =? 83) then Raise AssertionError else
    if negb (Py.int_of_byte b13 =? 80) then Raise AssertionError else
    if existsb (Z.eqb (Py.int_of_byte b11)) (sound_values K)
    then Ok (layout raw) else Raise ValueError.
Proof.
  intros raw; subst raw.
  unfold decode.
  cbn [map Py.index nth_error bindR Py.slice skipn firstn Nat.sub Py.comprehension].
  rewrite (marker_eqb b5 67 "0x43" eq_refl), (marker_eqb b10 83 "0x53" eq_refl),
    (marker_eqb b13 80 "0x50" eq_refl).
  destruct (Py.int_of_byte b5 =? 67); [|reflexivity].
  destruct (Py.int_of_byte b10 =? 83); [|reflexivity].
  destruct (Py.int_of_byte b13 =? 80); [|reflexivity].
  cbn [negb].
  rewrite !int_base16_hex. cbn [bindR].
  unfold PyHatchBabyRestSound.
  destruct (existsb _ _); [|reflexivity].
  cbn [bindR]. rewrite power_mask.
  unfold layout, be32, byte_at. cbn [nth].
  f_equal. f_equal.
  unfold Py.int_from_bytes. cbn [fold_left]. lia.
Qed.

Ltac decode_fails :=
  unfold decode, PyHatchBabyRestSound;
  cbn [map Py.index nth_error bindR Py.slice skipn firstn Nat.sub Py.comprehension];
  repeat (rewrite ?int_base16_hex; cbn [bindR];
          match goal with
          | |- context [if ?c then _ else _] => destruct c
          end);
  rewrite ?int_base16_hex; cbn [bindR]; discriminate.

Lemma decode_Ok_length (K : Constants) (raw : list byte) (v : locals) :
  decode K raw = Ok v -> (15 <= List.length raw)%nat.
Proof.
  intros H.
  do 15 (destruct raw as [|? raw]; [exfalso; revert H; decode_fails|]).
  cbn [List.length]; lia.
Qed.

(** The decode succeeds on the well-formed buffers and on no other, and it
    returns what the layout says. *)
Lemma decode_spec (K : Constants) (raw : list byte) (v : locals) :
  decode K raw = Ok v <-> well_formed K raw = true /\ v = layout raw.
Proof.
  split.
  - intros H. pose proof (decode_Ok_length _ _ _ H) as L.
    do 15 (destruct raw as [|? raw]; [cbn in L; lia|]).
    rewrite decode_cons in H. unfold well_formed, byte_at. cbn [nth].
    apply Nat.leb_le in L. rewrite L. cbn [andb].
    repeat match type of H with
           | context [if negb ?c then _ else _] => destruct c; cbn [negb] in H; [|discriminate]
           end.
    destruct (existsb _ _); [|discriminate].
    split; [reflexivity|congruence].
  - intros [WF ->]. unfold well_formed in WF.
    apply andb_prop in WF as [WF S11]. apply andb_prop in WF as [WF M13].
    apply andb_prop in WF as [WF M10]. apply andb_prop in WF as [L M5].
    apply Nat.leb_le in L.
    do 15 (destruct raw as [|? raw]; [cbn in L; lia|]).
    unfold byte_at in *; cbn [nth] in *.
    rewrite decode_cons, M5, M10, M13, S11. reflexivity.
Qed.

Lemma well_formed_parts (K : Constants) (raw : list byte) :
  well_formed K raw = true ->
  exists b0 b1 b2 b3 b4 b5 b6 b7 b8 b9 b10 b11 b12 b13 b14 rest,
    raw = b0 :: b1 :: b2 :: b3 :: b4 :: b5 :: b6 :: b7 :: b8 :: b9 :: b10
            :: b11 :: b12 :: b13 :: b14 :: rest
    /\ Py.int_of_byte b5 = 67 /\ Py.int_of_byte b10 = 83 /\ Py.int_of_byte b13 = 80
    /\ existsb (Z.eqb (Py.int_of_byte b11)) (sound_values K) = true.
Proof.
  unfold well_formed. intros WF.
  apply andb_prop in WF as [WF S11]. apply andb_prop in WF as [WF M13].
  apply andb_prop in WF as [WF M10]. apply andb_prop in WF as [L M5].
  apply Nat.leb_le in L.
  do 15 (destruct raw as [|? raw]; [cbn in L; lia|]).
  unfold byte_at in *; cbn [nth] in *.
  apply Z.eqb_eq in M5, M10, M13.
  repeat eexists; eauto.
Qed.

(** A wrong section marker is an [AssertionError]. *)
Lemma decode_corrupted_marker (K : Constants) (raw : list byte) (i : nat) (b : byte) :
  well_formed K raw = true ->
  In i [5; 10; 13]%nat ->
  Py.int_of_byte b <> byte_at raw i ->
  decode K (replace_at i b raw) = Raise AssertionError.
Proof.
  intros WF Hi Hb.
  destruct (well_formed_parts _ _ WF)
    as (b0&b1&b2&b3&b4&b5&b6&b7&b8&b9&b10&b11&b12&b13&b14&rest&->&M5&M10&M13&S11).
  unfold byte_at in Hb.
  destruct Hi as [<-|[<-|[<-|[]]]]; cbn [replace_at nth] in *; rewrite decode_cons.
  - apply Z.eqb_neq in Hb. rewrite M5 in Hb. rewrite Hb. reflexivity.
  - rewrite M5, Z.eqb_refl. cbn [negb].
    apply Z.eqb_neq in Hb. rewrite M10 in Hb. rewrite Hb. reflexivity.
  - rewrite M5, M10, !Z.eqb_refl. cbn [negb].
    apply Z.eqb_neq in Hb. rewrite M13 in Hb. rewrite Hb. reflexivity.
Qed.

(** A sound outside the enumeration is a [ValueError]. *)
Lemma decode_unknown_sound (K : Constants) (raw : list byte) (b : byte) :
  well_formed K raw = true ->
  existsb (Z.eqb (Py.int_of_byte b)) (sound_values K) = false ->
  decode K (replace_at 11 b raw) = Raise ValueError.
Proof.
  intros WF Hb.
  destruct (well_formed_parts _ _ WF)
    as (b0&b1&b2&b3&b4&b5&b6&b7&b8&b9&b10&b11&b12&b13&b14&rest&->&M5&M10&M13&S11).
  cbn [replace_at]. rewrite decode_cons, M5, M10, M13, !Z.eqb_refl, Hb. reflexivity.
Qed.

(** ** Relations kept by every run *)

Section Stable.

Context {S : Type} (R : S -> S -> Prop) {PR : PreOrder R}.

Lemma stable_ret {A : Type} (a : A) : stable R (ret a).
Proof. intros s; reflexivity. Qed.

Lemma stable_raise {A : Type} (e : exception) : stable R (@raise S A e).
Proof. intros s; reflexivity. Qed.

Lemma stable_lift {A : Type} (r : result A) : stable R (lift r).
Proof. intros s; reflexivity. Qed.

Lemma stable_gets {A : Type} (f : S -> A) : stable R (gets f).
Proof. intros s; reflexivity. Qed.

Lemma stable_bind {A B : Type} (m : ST S A) (k : A -> ST S B) :
  stable R m -> (forall a, stable R (k a)) -> stable R (bind m k).
Proof.
  intros Hm Hk s. unfold bind.
  specialize (Hm s). destruct (m s) as [[a|e] s1]; cbn in *.
  - etransitivity; [exact Hm|apply Hk].
  - exact Hm.
Qed.

Lemma stable_finally {A : Type} (body : ST S A) (release : ST S unit) :
  stable R body -> stable R release -> stable R (finally body release).
Proof.
  intros Hb Hr s. unfold finally.
  specialize (Hb s). destruct (body s) as [r s1]; cbn in *.
  specialize (Hr s1). destruct (release s1) as [[[]|e] s2]; cbn in *;
    etransitivity; eassumption.
Qed.

End Stable.

Ltac stable_step :=
  lazymatch goal with
  | |- stable _ (ret _) => apply stable_ret; exact _
  | |- stable _ (raise _) => apply stable_raise; exact _
  | |- stable _ (lift _) => apply stable_lift; exact _
  | |- stable _ (gets _) => apply stable_gets; exact _
  | |- stable _ (bind _ _) => apply stable_bind; [exact _| |intro]
  | |- stable _ (finally _ _) => apply stable_finally; [exact _| |]
  | |- stable _ (match ?x with _ => _ end) => destruct x
  end.

Lemma written_app (a b : list event) : written (a ++ b) = written a ++ written b.
Proof.
  induction a as [|ev a IH]; [reflexivity|].
  destruct ev; cbn; rewrite ?IH; reflexivity.
Qed.

#[local] Instance same_snapshot_pre : PreOrder same_snapshot.
Proof.
  split; [intros s; reflexivity|].
  intros a b c H1 H2; unfold same_snapshot in *; congruence.
Qed.

#[local] Instance same_client_pre : PreOrder same_client.
Proof.
  split; [intros s; reflexivity|].
  intros a b c H1 H2; unfold same_client in *; congruence.
Qed.

#[local] Instance quiet_pre : PreOrder quiet.
Proof.
  split.
  - intros s. exists []. rewrite app_nil_r. split; reflexivity.
  - intros a b c [x [Hx Wx]] [y [Hy Wy]]. exists (x ++ y).
    rewrite Hy, Hx, <- app_assoc, written_app, Wx, Wy. split; reflexivity.
Qed.

#[local] Instance sticky_pre : PreOrder sticky.
Proof. split; [intros s H; exact H | intros a b c H1 H2 H; auto]. Qed.

(** *** The composite operations keep what their steps keep *)

Section Composite.

Variable W : World.
Variable K : Constants.
Variable R : Sys -> Sys -> Prop.
Context {PR : PreOrder R}.

(** An assignment to [scanner], [device] or [address]. *)
Hypothesis R_identity : forall f,
  (forall o, _client (f o) = _client o /\ auto_refresh (f o) = auto_refresh o
             /\ snapshot (f o) = snapshot o) ->
  stable R (assign f).
(** An assignment to an attribute of the snapshot. *)
Hypothesis R_status : forall f,
  (forall o, _client (f o) = _client o /\ auto_refresh (f o) = auto_refresh o) ->
  stable R (assign f).
(** The creation of the client. *)
Hypothesis R_new : forall d s, _client (self s) = None ->
  R s (snd (assign (set__client (Some (SaveConnectBleakClient.new d))) s)).
Hypothesis R_enter : stable R (on_client (SaveConnectBleakClient.__aenter__ W)).
Hypothesis R_exit : stable R (on_client SaveConnectBleakClient.__aexit__).
Hypothesis R_read : forall ch,
  stable R (on_client (SaveConnectBleakClient.read_gatt_char W ch)).
Hypothesis R_write : forall ch data rsp,
  stable R (on_client (SaveConnectBleakClient.write_gatt_char W ch data rsp)).
Hypothesis R_connect : stable R (on_client (SaveConnectBleakClient.connect W)).
Hypothesis R_disconnect : stable R (on_client SaveConnectBleakClient.disconnect).
Hypothesis R_sleep : stable R sleep_quarter_second.
Hypothesis R_now : stable R (now W).

Ltac frame :=
  repeat stable_step;
  try (apply R_identity; intros; repeat split; reflexivity);
  try (apply R_status; intros; repeat split; reflexivity);
  auto.

Lemma scan_stable : stable R (scan W K).
Proof. unfold scan, on_scanner. frame. Qed.

Lemma ensure_scan_stable : stable R (_ensure_scan W K).
Proof. unfold _ensure_scan. frame. apply scan_stable. Qed.

Lemma scan_same_client : stable same_client (scan W K).
Proof. unfold scan, on_scanner. repeat stable_step; intros [? ?]; reflexivity. Qed.

Lemma ensure_scan_same_client : stable same_client (_ensure_scan W K).
Proof. unfold _ensure_scan. repeat stable_step. apply scan_same_client. Qed.

Lemma client_stable : stable R (client W K).
Proof.
  intros s. unfold client, bind, gets.
  destruct (_client (self s)) eqn:E; [reflexivity|].
  pose proof (ensure_scan_stable s) as H1.
  pose proof (ensure_scan_same_client s) as H2. unfold same_client in H2.
  destruct (_ensure_scan W K s) as [[d|e] s1]; cbn in *; [|exact H1].
  etransitivity; [exact H1|]. apply R_new. congruence.
Qed.

Lemma async_with_stable {A : Type} (body : M A) :
  stable R body -> stable R (async_with W body).
Proof. intros H. unfold async_with. frame. Qed.

Lemma read_feedback_stable : stable R (read_feedback W K).
Proof.
  unfold read_feedback. frame; try apply ensure_scan_stable; try apply client_stable.
  apply async_with_stable, R_read.
Qed.

Lemma store_stable (v : locals) : stable R (store v).
Proof. unfold store. frame. Qed.

Lemma refresh_data_stable : stable R (refresh_data W K).
Proof. unfold refresh_data. frame; try apply read_feedback_stable. apply store_stable. Qed.

Lemma send_command_stable (command : string) : stable R (_send_command W K command).
Proof.
  unfold _send_command. frame; try apply ensure_scan_stable; try apply client_stable.
  apply async_with_stable. frame. apply refresh_data_stable.
Qed.

Lemma connect_stable : stable R (PyHatchBabyRestAsync.connect W K).
Proof. unfold PyHatchBabyRestAsync.connect. frame. apply client_stable. Qed.

Lemma disconnect_stable : stable R (PyHatchBabyRestAsync.disconnect W K).
Proof. unfold PyHatchBabyRestAsync.disconnect. frame. apply client_stable. Qed.

Lemma getattr_stable {A : Type} (f : t -> option A) : stable R (getattr f).
Proof. intros s. unfold getattr. destruct (f (self s)); reflexivity. Qed.

Lemma run_stable (c : call) : stable R (run W K c).
Proof.
  destruct c; cbn [run];
    unfold power_on, power_off, set_sound, set_volume, set_color, set_brightness, set_time;
    frame;
    try apply scan_stable; try apply refresh_data_stable; try apply send_command_stable;
    try apply connect_stable; try apply disconnect_stable; try apply getattr_stable.
Qed.

Lemma run_all_stable (cs : list call) (s : Sys) : R s (run_all W K cs s).
Proof.
  revert s; induction cs as [|c cs IH]; intros s; cbn [run_all].
  - reflexivity.
  - etransitivity; [apply run_stable|apply IH].
Qed.

End Composite.

(** *** The steps *)

Ltac run_prim :=
  intros [[sc ar dev addr [[d ic wo]|] tm co br so vo pw] l];
  unfold on_client, SaveConnectBleakClient.__aenter__, SaveConnectBleakClient.__aexit__,
    SaveConnectBleakClient.connect, SaveConnectBleakClient.disconnect,
    SaveConnectBleakClient.read_gatt_char, SaveConnectBleakClient.write_gatt_char,
    sleep_quarter_second, now, assign, bind, gets, modify, ret;
  cbn;
  try (destruct ic, wo; cbn);
  repeat match goal with
         | |- context [link_ok ?w ?n] => destruct (link_ok w n) eqn:?; cbn
         | |- context [tx_ok ?w ?n] => destruct (tx_ok w n) eqn:?; cbn
         | |- context [feedback ?w ?n] => destruct (feedback w n) eqn:?; cbn
         end.

Ltac quiet_by l := exists l; rewrite ?app_nil_r; split; reflexivity.

Section Steps.

Variable W : World.

(** A method of the client touches the client and the link only. *)
Lemma on_client_snapshot {A : Type} (m : SaveConnectBleakClient.C A) :
  stable same_snapshot (on_client m).
Proof.
  intros [o l]. unfold on_client, same_snapshot. cbn.
  destruct (_client o) as [c|]; [|reflexivity].
  destruct (m (c, l)) as [r [c' l']]. reflexivity.
Qed.

Lemma snapshot_identity f :
  (forall o, _client (f o) = _client o /\ auto_refresh (f o) = auto_refresh o
             /\ snapshot (f o) = snapshot o) ->
  stable same_snapshot (assign f).
Proof. intros H [o l]. unfold same_snapshot. cbn. apply H. Qed.

Lemma snapshot_new d s : _client (self s) = None ->
  same_snapshot s (snd (assign (set__client (Some (SaveConnectBleakClient.new d))) s)).
Proof. intros _. destruct s as [o l]. reflexivity. Qed.

Lemma sticky_assign f :
  (forall o, _client (f o) = _client o /\ auto_refresh (f o) = auto_refresh o) ->
  stable sticky (assign f).
Proof.
  intros H [o l] F. unfold flag in *. cbn in *.
  destruct (H o) as [-> _]. exact F.
Qed.

Lemma sticky_identity f :
  (forall o, _client (f o) = _client o /\ auto_refresh (f o) = auto_refresh o
             /\ snapshot (f o) = snapshot o) ->
  stable sticky (assign f).
Proof. intros H. apply sticky_assign. intros o. split; apply H. Qed.

Lemma sticky_new d s : _client (self s) = None ->
  sticky s (snd (assign (set__client (Some (SaveConnectBleakClient.new d))) s)).
Proof. intros E F. unfold flag in F. rewrite E in F. discriminate. Qed.

Lemma sticky_enter : stable sticky (on_client (SaveConnectBleakClient.__aenter__ W)).
Proof. run_prim; unfold sticky, flag; cbn; auto. Qed.

Lemma sticky_exit : stable sticky (on_client SaveConnectBleakClient.__aexit__).
Proof. run_prim; unfold sticky, flag; cbn; auto. Qed.

Lemma sticky_read ch :
  stable sticky (on_client (SaveConnectBleakClient.read_gatt_char W ch)).
Proof. run_prim; unfold sticky, flag; cbn; auto. Qed.

Lemma sticky_write ch data rsp :
  stable sticky (on_client (SaveConnectBleakClient.write_gatt_char W ch data rsp)).
Proof. run_prim; unfold sticky, flag; cbn; auto. Qed.

Lemma sticky_connect : stable sticky (on_client (SaveConnectBleakClient.connect W)).
Proof. run_prim; unfold sticky, flag; cbn; auto. Qed.

Lemma sticky_disconnect : stable sticky (on_client SaveConnectBleakClient.disconnect).
Proof. run_prim; unfold sticky, flag; cbn; auto. Qed.

Lemma sticky_sleep : stable sticky sleep_quarter_second.
Proof. run_prim; unfold sticky, flag; cbn; auto. Qed.

Lemma sticky_now : stable sticky (now W).
Proof. run_prim; unfold sticky, flag; cbn; auto. Qed.

Lemma quiet_assign f : stable quiet (assign f).
Proof. intros [o l]. cbn. quiet_by (@nil event). Qed.

Lemma quiet_enter : stable quiet (on_client (SaveConnectBleakClient.__aenter__ W)).
Proof.
  run_prim; unfold quiet; cbn;
    first [quiet_by (@nil event) | quiet_by [Connect]].
Qed.

Lemma quiet_exit : stable quiet (on_client SaveConnectBleakClient.__aexit__).
Proof.
  run_prim; unfold quiet; cbn;
    first [quiet_by (@nil event) | quiet_by [Disconnect]].
Qed.

Lemma quiet_read ch :
  stable quiet (on_client (SaveConnectBleakClient.read_gatt_char W ch)).
Proof.
  run_prim; unfold quiet; cbn;
    first [quiet_by (@nil event) | quiet_by [ReadGatt ch]].
Qed.

End Steps.

(** ** Running the guarded blocks *)

Ltac unfold_session :=
  unfold guarded_write, guarded_read, refresh_data, read_feedback, store, client,
    _ensure_scan, async_with, finally, on_client, sleep_quarter_second,
    SaveConnectBleakClient.__aenter__, SaveConnectBleakClient.__aexit__,
    SaveConnectBleakClient.connect, SaveConnectBleakClient.disconnect,
    SaveConnectBleakClient.read_gatt_char, SaveConnectBleakClient.write_gatt_char,
    assign, lift, bind, gets, modify, ret, raise.

(** A state whose device is known and whose client exists, taken apart. *)
Ltac settled_state s :=
  destruct s as [[sc ar dev addr cl tm co br so vo pw] l];
  unfold settled, connected, flag; cbn;
  destruct dev as [d0|]; [|discriminate]; destruct cl as [[d ic wo]|]; [|discriminate];
  cbn.

Section Exec.

Variable W : World.
Variable K : Constants.

(** A scan is one search by the scanner of the session, for what is wanted;
    the device found and its address are stored. *)
Lemma scan_eq (s : Sys) :
  scan W K s =
  match find (wanted K s) (heard W s) with
  | Some d =>
      (Ok d,
       {| self := set_address (Some (BLEDevice.address d))
                    (set_device (Some d) (self (searched s)));
          net := net s |})
  | None => (Raise RuntimeError, searched s)
  end.
Proof.
  destruct s as [[sc ar dev addr cl tm co br so vo pw] l].
  unfold scan, on_scanner, heard, wanted, searched, the_scanner,
    BleakScanner.find_device_by_address, BleakScanner.find_device_by_filter,
    assign, bind, gets, modify, ret, raise.
  cbn.
  destruct addr as [[|c r]|]; cbn;
    match goal with
    | |- context [find ?f ?l] => destruct (find f l)
    end; reflexivity.
Qed.

Lemma send_command_prelude (command : string) (s : Sys) :
  _send_command W K command s = (prelude W K ;; guarded_write W K command) s.
Proof.
  unfold _send_command, prelude, guarded_write, bind.
  destruct (_ensure_scan W K s) as [[d|e] s1]; [|reflexivity].
  destruct (assign (set_device (Some d)) s1) as [[[]|e] s2]; [|reflexivity].
  destruct (client W K s2) as [[[]|e] s3]; reflexivity.
Qed.

Lemma read_feedback_prelude (s : Sys) :
  read_feedback W K s = (prelude W K ;; guarded_read W K) s.
Proof.
  unfold read_feedback, prelude, guarded_read, bind.
  destruct (_ensure_scan W K s) as [[d|e] s1]; [|reflexivity].
  destruct (assign (set_device (Some d)) s1) as [[[]|e] s2]; [|reflexivity].
  destruct (client W K s2) as [[[]|e] s3]; reflexivity.
Qed.

(** From a ready state the prelude succeeds; it settles the device and the
    client and leaves the link, the client's flags, the policy and the
    snapshot as they were. *)
Lemma prelude_ready (s : Sys) :
  ready W K s = true ->
  exists s1, prelude W K s = (Ok tt, s1) /\ settled s1 = true /\ net s1 = net s /\
    connected s1 = connected s /\ flag s1 = flag s /\
    auto_refresh (self s1) = auto_refresh (self s) /\
    snapshot (self s1) = snapshot (self s).
Proof.
  destruct s as [[sc ar dev addr cl tm co br so vo pw] l].
  unfold ready, prelude, _ensure_scan, client, _ensure_scan, assign,
    bind, gets, modify, ret, raise.
  cbn. intros H. apply andb_prop in H as [H _].
  destruct dev as [d|]; cbn in *.
  - destruct cl as [c|]; cbn; eexists; repeat split.
  - rewrite scan_eq in *.
    destruct (find _ _) as [d|]; cbn in *; [|discriminate].
    destruct cl as [c|]; cbn; eexists; repeat split.
Qed.

Lemma ready_linkable (s : Sys) :
  ready W K s = true -> connected s || link_ok W (connects (net s)) = true.
Proof. unfold ready. intros H. apply andb_prop in H as [_ H]. exact H. Qed.

(** [_send_command] from a ready state is its guarded block from a settled
    state with the same link. *)
Lemma send_command_ready (command : string) (s : Sys) :
  ready W K s = true ->
  exists s1, _send_command W K command s = guarded_write W K command s1 /\
    settled s1 = true /\ net s1 = net s /\ connected s1 = connected s /\
    flag s1 = flag s /\ auto_refresh (self s1) = auto_refresh (self s) /\
    snapshot (self s1) = snapshot (self s).
Proof.
  intros H. destruct (prelude_ready s H) as (s1 & P & rest).
  exists s1. split; [|exact rest].
  rewrite send_command_prelude. unfold bind. rewrite P. reflexivity.
Qed.

Lemma read_feedback_ready (s : Sys) :
  ready W K s = true ->
  exists s1, read_feedback W K s = guarded_read W K s1 /\
    settled s1 = true /\ net s1 = net s /\ connected s1 = connected s /\
    flag s1 = flag s /\ auto_refresh (self s1) = auto_refresh (self s) /\
    snapshot (self s1) = snapshot (self s).
Proof.
  intros H. destruct (prelude_ready s H) as (s1 & P & rest).
  exists s1. split; [|exact rest].
  rewrite read_feedback_prelude. unfold bind. rewrite P. reflexivity.
Qed.

(** The guarded write with the automatic refresh, all of it. *)
Lemma guarded_write_auto (command : string) (s : Sys) :
  settled s = true ->
  connected s || link_ok W (connects (net s)) = true ->
  tx_ok W (writes (net s)) = true ->
  auto_refresh (self s) = true ->
  let out := guarded_write W K command s in
  trace (net (snd out)) =
    trace (net s) ++ (if connected s then [] else [Connect])
      ++ [WriteGatt (CHAR_TX K) command true; Sleep 250; ReadGatt (CHAR_FEEDBACK K)]
  /\ flag (snd out) = true /\ connected (snd out) = true
  /\ fst out = reply K (feedback W (reads (net s)))
  /\ forall raw v, feedback W (reads (net s)) = Some raw -> decode K raw = Ok v ->
       snapshot (self (snd out)) = snapshot_of v.
Proof.
  settled_state s. unfold reply. intros _ L T ->.
  unfold_session. cbn.
  destruct ic; cbn in *; rewrite ?L; cbn; rewrite T; cbn;
    (destruct (feedback W (reads l)) as [raw|]; cbn;
     [destruct (decode K raw) as [v|e] eqn:D; cbn|]);
    repeat rewrite <- app_assoc; cbn;
    (repeat split; try reflexivity;
     intros raw0 v0 E D'; try discriminate;
     injection E as <-; rewrite D in D'; try discriminate;
     injection D' as <-; reflexivity).
Qed.

(** Whatever else happens, the guarded write hands exactly its command to
    the transport. *)
Lemma guarded_write_sends (command : string) (s : Sys) :
  settled s = true ->
  connected s || link_ok W (connects (net s)) = true ->
  sends s (snd (guarded_write W K command s)) command.
Proof.
  settled_state s. intros _ L.
  unfold sends. unfold_session. cbn.
  destruct ic; cbn in *; rewrite ?L; cbn;
    destruct (tx_ok W (writes l)); cbn;
    destruct ar; cbn;
    try (destruct (feedback W (reads l)) as [raw|]; cbn;
         [destruct (decode K raw) as [v|e]; cbn|]);
    try (destruct wo; cbn);
    repeat rewrite <- app_assoc; cbn;
    eexists; (split; [reflexivity|reflexivity]).
Qed.

(** With the flag raised the guarded blocks leave the connection open. *)
Lemma guarded_read_flagged (s : Sys) :
  settled s = true ->
  flag s = true ->
  connected s || link_ok W (connects (net s)) = true ->
  flag (snd (guarded_read W K s)) = true /\ connected (snd (guarded_read W K s)) = true.
Proof.
  settled_state s. intros _ -> L.
  unfold_session. cbn.
  destruct ic; cbn in *; rewrite ?L; cbn;
    destruct (feedback W (reads l)) as [raw|]; cbn; split; reflexivity.
Qed.

Lemma guarded_write_flagged (command : string) (s : Sys) :
  settled s = true ->
  flag s = true ->
  connected s || link_ok W (connects (net s)) = true ->
  flag (snd (guarded_write W K command s)) = true
  /\ connected (snd (guarded_write W K command s)) = true.
Proof.
  settled_state s. intros _ -> L.
  unfold_session. cbn.
  destruct ic; cbn in *; rewrite ?L; cbn;
    destruct (tx_ok W (writes l)); cbn;
    destruct ar; cbn;
    try (destruct (feedback W (reads l)) as [raw|]; cbn;
         [destruct (decode K raw) as [v|e]; cbn|]);
    split; reflexivity.
Qed.

End Exec.

(** ** The status decode *)

(** A failed refresh leaves the snapshot as it was, wherever it fails. *)
Lemma read_feedback_keeps_snapshot (W : World) (K : Constants) :
  stable same_snapshot (read_feedback W K).
Proof.
  apply read_feedback_stable; try exact _;
    auto using snapshot_identity, snapshot_new, on_client_snapshot.
Qed.

Lemma refresh_data_run (W : World) (K : Constants) (s s1 : Sys) (raw : list byte) :
  read_feedback W K s = (Ok raw, s1) ->
  refresh_data W K s =
    match decode K raw with
    | Ok v => store v s1
    | Raise e => (Raise e, s1)
    end.
Proof.
  intros H. unfold refresh_data, bind, lift. rewrite H.
  destruct (decode K raw); reflexivity.
Qed.

Lemma store_run (v : locals) (s : Sys) :
  store v s = (Ok tt, snd (store v s)) /\ snapshot (self (snd (store v s))) = snapshot_of v
  /\ net (snd (store v s)) = net s /\ _client (self (snd (store v s))) = _client (self s)
  /\ identity (self (snd (store v s))) = identity (self s)
  /\ scanner (self (snd (store v s))) = scanner (self s)
  /\ auto_refresh (self (snd (store v s))) = auto_refresh (self s).
Proof. destruct s as [o l]. repeat split. Qed.

Lemma refresh_data_atomic (W : World) (K : Constants) (s s' : Sys) (e : exception) :
  refresh_data W K s = (Raise e, s') -> snapshot (self s') = snapshot (self s).
Proof.
  pose proof (read_feedback_keeps_snapshot W K s) as F. unfold same_snapshot in F.
  destruct (read_feedback W K s) as [[raw|e1] s1] eqn:E.
  - rewrite (refresh_data_run _ _ _ _ _ E).
    destruct (decode K raw) as [v|e2].
    + intros H. pose proof (store_run v s1) as [S1 _]. rewrite H in S1. discriminate.
    + intros [= _ <-]. exact F.
  - unfold refresh_data, bind. rewrite E. intros [= _ <-]. exact F.
Qed.

(** C1 (counterexample).  With byte 14 equal to [0b01000000] the decoded power
    is [False], although the two most significant bits are not both set: the
    power is not "off only when both bits are set". *)
Lemma C1_power_mask_counterexample :
  decoded_power Sample.K (Sample.buffer x40) = Some false
  /\ byte_at (Sample.buffer x40) 14 = 64
  /\ Z.land 64 192 <> 192.
Proof. repeat split; vm_compute; discriminate. Qed.

(** C1 (amended).  For every status buffer that decodes, the decoded power is
    [False] exactly when at least one of the two most significant bits of
    byte 14 is set, that is when [byte[14] & 0b11000000] is not zero; byte 14
    equal to [0b11000000], [0b01000000] or [0b10000000] gives [False], and
    [0b00000000] gives [True]. *)
Theorem C1_power_flag_decode (K : Constants) (raw : list byte) (v : locals) :
  decode K raw = Ok v ->
  (l_power v = false <-> Z.land (byte_at raw 14) 192 <> 0)
  /\ (l_power v = false <->
      Z.testbit (byte_at raw 14) 7 = true \/ Z.testbit (byte_at raw 14) 6 = true)
  /\ (byte_at raw 14 = 192 -> l_power v = false)
  /\ (byte_at raw 14 = 64 -> l_power v = false)
  /\ (byte_at raw 14 = 128 -> l_power v = false)
  /\ (byte_at raw 14 = 0 -> l_power v = true).
Proof.
  intros H. apply decode_spec in H as [_ ->]. cbn [layout l_power].
  pose proof (power_mask (nth 14 raw x00%byte)) as P. fold (byte_at raw 14) in P.
  repeat split.
  - intros E. rewrite E in P. rewrite Z.land_comm.
    destruct (Z.eqb_spec (Z.land 192 (byte_at raw 14)) 0); [discriminate|assumption].
  - intros N. rewrite <- P. rewrite Z.land_comm in N.
    apply Z.eqb_neq in N. rewrite N. reflexivity.
  - intros E. apply negb_false_iff, orb_true_iff in E. exact E.
  - intros E. apply negb_false_iff, orb_true_iff. exact E.
  - intros ->. reflexivity.
  - intros ->. reflexivity.
  - intros ->. reflexivity.
  - intros ->. reflexivity.
Qed.

(** On the sample buffer with flags [0b01000000]. *)
Lemma C1_power_flag_decode_witness :
  decode Sample.K (Sample.buffer x40) = Ok (layout (Sample.buffer x40))
  /\ (l_power (layout (Sample.buffer x40)) = false <->
      Z.land (byte_at (Sample.buffer x40) 14) 192 <> 0).
Proof.
  split; [reflexivity|].
  apply (C1_power_flag_decode Sample.K (Sample.buffer x40)). reflexivity.
Defined.

(** C3.  When the status read returns a buffer that is well formed except
    that one of the three section markers (offsets 5, 10, 13) was replaced by
    another byte, [refresh_data] raises the [AssertionError] of its format
    asserts (the specification's [ProtocolFormatError]), and when byte 11 was
    replaced by a value outside the sound enumeration it raises the
    [ValueError] of the enumeration (the specification's [UnknownSoundMode]);
    in both cases no attribute of the snapshot has changed.  More generally
    a refresh that raises, whatever the reason, leaves the snapshot as it
    was. *)
Theorem C3_atomic_decode_or_fail (W : World) (K : Constants) (s s1 : Sys)
  (raw : list byte) (i : nat) (b : byte) (e : exception) :
  well_formed K raw = true ->
  corruption K raw i b = Some e ->
  read_feedback W K s = (Ok (replace_at i b raw), s1) ->
  refresh_data W K s = (Raise e, s1)
  /\ snapshot (self s1) = snapshot (self s)
  /\ (e = AssertionError <-> In i [5; 10; 13]%nat)
  /\ (e = ValueError <-> i = 11%nat)
  /\ forall e' s', refresh_data W K s = (Raise e', s') ->
       snapshot (self s') = snapshot (self s).
Proof.
  intros WF C R.
  assert (D : decode K (replace_at i b raw) = Raise e
              /\ (e = AssertionError <-> In i [5; 10; 13]%nat)
              /\ (e = ValueError <-> i = 11%nat)).
  { unfold corruption in C.
    destruct (existsb (Nat.eqb i) [5; 10; 13]%nat) eqn:Ei; cbn [andb] in C.
    - assert (Hi : In i [5; 10; 13]%nat).
      { apply existsb_exists in Ei as [x [Hx E]]. apply Nat.eqb_eq in E. subst x. exact Hx. }
      destruct (Py.int_of_byte b =? byte_at raw i) eqn:Eb; cbn [negb] in C.
      + destruct ((i =? 11)%nat) eqn:E11.
        * apply Nat.eqb_eq in E11. subst i. cbn in Ei. discriminate.
        * discriminate.
      + injection C as <-. apply Z.eqb_neq in Eb.
        split; [apply decode_corrupted_marker; assumption|].
        split; split; intros H; try assumption; try reflexivity; try discriminate.
        subst i. cbn in Ei. discriminate.
    - destruct ((i =? 11)%nat) eqn:E11; cbn [andb] in C; [|discriminate].
      apply Nat.eqb_eq in E11. subst i.
      destruct (existsb (Z.eqb (Py.int_of_byte b)) (sound_values K)) eqn:Es;
        cbn [negb] in C; [discriminate|].
      injection C as <-.
      split; [apply decode_unknown_sound; assumption|].
      split; split; intros H; try reflexivity; try discriminate.
      cbn in H. intuition discriminate. }
  destruct D as (D & A1 & A2).
  pose proof (refresh_data_run _ _ _ _ _ R) as Run. rewrite D in Run.
  repeat split; try apply A1; try apply A2.
  - exact Run.
  - apply (refresh_data_atomic W K s s1 e Run).
  - intros e' s'. apply refresh_data_atomic.
Qed.

(** On the sample session, the audio marker (offset 10) replaced by zero. *)
Lemma C3_atomic_decode_or_fail_witness :
  let W := Sample.world (replace_at 10 x00 (Sample.buffer x00)) in
  let s := Sample.session true in
  refresh_data W Sample.K s = (Raise AssertionError, snd (read_feedback W Sample.K s))
  /\ snapshot (self (snd (read_feedback W Sample.K s))) = snapshot (self s).
Proof.
  intros W s.
  pose proof (C3_atomic_decode_or_fail W Sample.K s (snd (read_feedback W Sample.K s))
                (Sample.buffer x00) 10 x00 AssertionError) as H.
  destruct H as (H1 & H2 & _); [vm_compute; reflexivity ..|].
  split; assumption.
Defined.

(** C6.  When the status read returns a well-formed buffer, [refresh_data]
    succeeds and stores: as time the instant whose epoch seconds are the
    big-endian unsigned 32-bit integer of bytes 1 to 4; as colour bytes 6, 7
    and 8; as brightness byte 9; as sound the member of value byte 11; as
    volume byte 12. *)
Theorem C6_status_decode_layout (W : World) (K : Constants) (s s1 : Sys)
  (raw : list byte) :
  read_feedback W K s = (Ok raw, s1) ->
  well_formed K raw = true ->
  let out := refresh_data W K s in
  fst out = Ok tt
  /\ time (self (snd out)) = Some (fromtimestamp_UTC (be32 raw))
  /\ 0 <= be32 raw < 2 ^ 32
  /\ color (self (snd out)) = Some (byte_at raw 6, byte_at raw 7, byte_at raw 8)
  /\ brightness (self (snd out)) = Some (byte_at raw 9)
  /\ sound (self (snd out)) = Some (byte_at raw 11)
  /\ volume (self (snd out)) = Some (byte_at raw 12).
Proof.
  intros R WF out. subst out.
  rewrite (refresh_data_run _ _ _ _ _ R).
  assert (D : decode K raw = Ok (layout raw)) by (apply decode_spec; split; auto).
  rewrite D. destruct s1 as [o l]. cbn.
  repeat split.
  - unfold be32, byte_at.
    pose proof (int_of_byte_range (nth 1 raw x00%byte)).
    pose proof (int_of_byte_range (nth 2 raw x00%byte)).
    pose proof (int_of_byte_range (nth 3 raw x00%byte)).
    pose proof (int_of_byte_range (nth 4 raw x00%byte)). lia.
  - unfold be32, byte_at.
    pose proof (int_of_byte_range (nth 1 raw x00%byte)).
    pose proof (int_of_byte_range (nth 2 raw x00%byte)).
    pose proof (int_of_byte_range (nth 3 raw x00%byte)).
    pose proof (int_of_byte_range (nth 4 raw x00%byte)). lia.
Qed.

(** On the sample session and buffer. *)
Lemma C6_status_decode_layout_witness :
  let W := Sample.world (Sample.buffer x00) in
  let out := refresh_data W Sample.K (Sample.session true) in
  fst out = Ok tt
  /\ time (self (snd out)) = Some (fromtimestamp_UTC 1593835778)
  /\ color (self (snd out)) = Some (10, 20, 30)
  /\ brightness (self (snd out)) = Some 100
  /\ sound (self (snd out)) = Some 2
  /\ volume (self (snd out)) = Some 50.
Proof.
  intros W out.
  destruct (C6_status_decode_layout W Sample.K (Sample.session true)
              (snd (read_feedback W Sample.K (Sample.session true)))
              (Sample.buffer x00))
    as (H1 & H2 & _ & H4 & H5 & H6 & H7); [vm_compute; reflexivity ..|].
  repeat split; assumption.
Defined.

(** ** Commands *)

Section Commands.

Variable W : World.
Variable K : Constants.

(** From a ready state [_send_command] hands exactly its command to the
    transport, whether or not the write or the refresh then fails. *)
Lemma send_command_sends (command : string) (s : Sys) :
  ready W K s = true -> sends s (snd (_send_command W K command s)) command.
Proof.
  intros H.
  destruct (send_command_ready W K command s H) as (s1 & E & St & N & Cn & _).
  rewrite E.
  pose proof (ready_linkable W K s H) as L. rewrite <- Cn, <- N in L.
  destruct (guarded_write_sends W K command s1 St L) as (added & T & Wr).
  exists added. rewrite T, N. split; [reflexivity|exact Wr].
Qed.

(** The readiness depends on the scanner, the identity, the client and the
    link only. *)
Lemma ready_frame (s s' : Sys) :
  scanner (self s') = scanner (self s) ->
  identity (self s') = identity (self s) ->
  _client (self s') = _client (self s) ->
  connects (net s') = connects (net s) ->
  ready W K s' = ready W K s.
Proof.
  destruct s as [o l], s' as [o' l']. cbn. intros H1 H2 H3 H5.
  unfold identity in H2. injection H2 as H2 H4.
  unfold ready, connected, _ensure_scan, bind, gets.
  cbn. rewrite H2, H3, H5. destruct (device o); cbn; [reflexivity|].
  rewrite !scan_eq. unfold heard, wanted, the_scanner. cbn. rewrite H1, H4.
  destruct (find _ _); reflexivity.
Qed.

(** An optimistic assignment changes neither the readiness nor the link. *)
Lemma ready_status f (s : Sys) :
  (forall o, scanner (f o) = scanner o /\ identity (f o) = identity o
             /\ _client (f o) = _client o) ->
  ready W K (snd (assign f s)) = ready W K s /\ net (snd (assign f s)) = net s.
Proof.
  intros H. destruct s as [o l]. destruct (H o) as (H1 & H2 & H3).
  split; [|reflexivity]. apply ready_frame; assumption || reflexivity.
Qed.

Lemma mutator_sends f (command : string) (s : Sys) :
  (forall o, scanner (f o) = scanner o /\ identity (f o) = identity o
             /\ _client (f o) = _client o) ->
  ready W K s = true ->
  sends s (snd ((assign f ;; _send_command W K command) s)) command.
Proof.
  intros Hf H. destruct (ready_status f s Hf) as [R N].
  unfold bind. change (assign f s) with (Ok tt, snd (assign f s)).
  rewrite <- R in H.
  destruct (send_command_sends command _ H) as (added & T & Wr).
  exists added. rewrite T, N. split; [reflexivity|exact Wr].
Qed.

End Commands.

(** C7.  For a buffer that decodes, sending the decoded sound back with
    [set_sound] hands the transport the command [SN] followed by the two
    hexadecimal digits of byte 11, and sending the decoded volume back with
    [set_volume] hands it [SV] followed by the two hexadecimal digits of
    byte 12; the digits read back as the values of those bytes. *)
Theorem C7_field_round_trip (W : World) (K : Constants) (raw : list byte)
  (v : locals) (s : Sys) :
  decode K raw = Ok v ->
  ready W K s = true ->
  sends s (snd (set_sound W K (l_sound v) s))
    (String.append "SN" (two_hex (byte_at raw 11)))
  /\ sends s (snd (set_volume W K (l_volume v) s))
       (String.append "SV" (two_hex (byte_at raw 12)))
  /\ hex_value (two_hex (byte_at raw 11)) = Some (Z.to_N (byte_at raw 11))
  /\ hex_value (two_hex (byte_at raw 12)) = Some (Z.to_N (byte_at raw 12)).
Proof.
  intros D H. apply decode_spec in D as [_ ->]. cbn [layout l_sound l_volume].
  unfold byte_at. rewrite <- !format_02x_byte, !format_02x_byte.
  repeat split.
  - rewrite <- format_02x_byte. unfold set_sound.
    apply mutator_sends; [intros o; repeat split|exact H].
  - rewrite <- format_02x_byte. unfold set_volume.
    apply mutator_sends; [intros o; repeat split|exact H].
  - rewrite two_hex_value. unfold Py.int_of_byte. rewrite N2Z.id. reflexivity.
  - rewrite two_hex_value. unfold Py.int_of_byte. rewrite N2Z.id. reflexivity.
Qed.

(** On the sample session: sound 2 and volume 50 go back as [SN02] and [SV32]. *)
Lemma C7_field_round_trip_witness :
  let W := Sample.world (Sample.buffer x00) in
  sends (Sample.session false)
    (snd (set_sound W Sample.K 2 (Sample.session false))) "SN02"
  /\ sends (Sample.session false)
       (snd (set_volume W Sample.K 50 (Sample.session false))) "SV32".
Proof.
  intros W.
  destruct (C7_field_round_trip W Sample.K (Sample.buffer x00)
              (layout (Sample.buffer x00)) (Sample.session false))
    as (H1 & H2 & _); [vm_compute; reflexivity ..|].
  split; assumption.
Defined.





(** ** The refresh policy of [_send_command] *)

Section Policy.

Variable W : World.
Variable K : Constants.

(** The guarded write without the automatic refresh, all of it. *)
Lemma guarded_write_plain (command : string) (s : Sys) :
  settled s = true ->
  connected s || link_ok W (connects (net s)) = true ->
  tx_ok W (writes (net s)) = true ->
  auto_refresh (self s) = false ->
  let out := guarded_write W K command s in
  trace (net (snd out)) =
    trace (net s) ++ (if connected s then [] else [Connect])
      ++ [WriteGatt (CHAR_TX K) command true]
      ++ (if flag s || connected s then [] else [Disconnect])
  /\ fst out = Ok tt.
Proof.
  settled_state s. intros _ L T ->.
  unfold_session. cbn.
  destruct ic; cbn in *; rewrite ?L; cbn; rewrite T; cbn;
    destruct wo; cbn; repeat rewrite <- app_assoc; cbn; split; reflexivity.
Qed.

(** Without the automatic refresh the guarded write makes no status read
    and leaves the snapshot alone, whether or not the transport fails. *)
Lemma guarded_write_no_refresh (command : string) (s : Sys) :
  settled s = true ->
  auto_refresh (self s) = false ->
  unread s (snd (guarded_write W K command s))
  /\ snapshot (self (snd (guarded_write W K command s))) = snapshot (self s).
Proof.
  settled_state s. intros _ ->.
  unfold unread. unfold_session. cbn.
  destruct ic; cbn;
    try (destruct (link_ok W (connects l)); cbn);
    destruct (tx_ok W (writes l)); cbn;
    destruct wo; cbn; rewrite ?filter_app; cbn; rewrite ?app_nil_r;
    repeat split; reflexivity.
Qed.

Lemma send_command_no_refresh (command : string) (s : Sys) :
  ready W K s = true ->
  auto_refresh (self s) = false ->
  unread s (snd (_send_command W K command s))
  /\ snapshot (self (snd (_send_command W K command s))) = snapshot (self s).
Proof.
  intros H A.
  destruct (send_command_ready W K command s H) as (s1 & E & St & N & _ & _ & P & Sn).
  rewrite E. rewrite <- P in A.
  destruct (guarded_write_no_refresh command s1 St A) as [[U1 U2] U3].
  unfold unread. rewrite U1, U2, U3, N, Sn. repeat split.
Qed.

End Policy.

(** C5.  From a state in which the guard can be entered and in which the
    write succeeds: with the automatic refresh enabled, [_send_command] makes
    after the write a pause of 250 ms and then exactly one status read, and
    nothing else; it returns what the decode of the buffer read returns, and
    when that buffer decodes, the six attributes of the snapshot are those
    decoded from it, whatever they were before.  With the automatic refresh
    disabled, the write is followed by no status read (only by the
    disconnect of the guard, if any), and the snapshot is left alone. *)
Theorem C5_auto_refresh_policy (W : World) (K : Constants) (command : string)
  (s : Sys) :
  ready W K s = true ->
  tx_ok W (writes (net s)) = true ->
  let out := _send_command W K command s in
  if auto_refresh (self s)
  then
    trace (net (snd out)) =
      trace (net s) ++ (if connected s then [] else [Connect])
        ++ [WriteGatt (CHAR_TX K) command true; Sleep 250; ReadGatt (CHAR_FEEDBACK K)]
    /\ fst out = reply K (feedback W (reads (net s)))
    /\ forall raw v, feedback W (reads (net s)) = Some raw -> decode K raw = Ok v ->
         snapshot (self (snd out)) = snapshot_of v
  else
    trace (net (snd out)) =
      trace (net s) ++ (if connected s then [] else [Connect])
        ++ [WriteGatt (CHAR_TX K) command true]
        ++ (if flag s || connected s then [] else [Disconnect])
    /\ fst out = Ok tt
    /\ unread s (snd out)
    /\ snapshot (self (snd out)) = snapshot (self s).
Proof.
  intros H T out. subst out.
  pose proof (ready_linkable W K s H) as L.
  destruct (auto_refresh (self s)) eqn:A.
  - destruct (send_command_ready W K command s H) as (s1 & E & St & N & Cn & Fl & P & Sn).
    rewrite E. rewrite <- N, <- Cn in *. rewrite <- P in A.
    destruct (guarded_write_auto W K command s1 St L T A) as (G1 & _ & _ & G4 & G5).
    repeat split; assumption.
  - destruct (send_command_no_refresh W K command s H A) as [U Sn].
    destruct (send_command_ready W K command s H) as (s1 & E & St & N & Cn & Fl & P & _).
    rewrite E in *. rewrite <- N, <- Cn, <- Fl in *. rewrite <- P in A.
    destruct (guarded_write_plain W K command s1 St L T A) as (G1 & G2).
    repeat split; try assumption; apply U.
Qed.

(** On the sample sessions: [power_off] with and without the automatic
    refresh, against a device that reports the power on. *)
Lemma C5_auto_refresh_policy_witness :
  let W := Sample.world Sample.buffer' in
  (let out := power_off W Sample.K (Sample.session true) in
   trace (net (snd out)) =
     [Connect; WriteGatt (CHAR_TX Sample.K) "SI00" true; Sleep 250;
      ReadGatt (CHAR_FEEDBACK Sample.K)]
   /\ power (self (snd out)) = Some true)
  /\ (let out := power_off W Sample.K (Sample.session false) in
      trace (net (snd out)) =
        [Connect; WriteGatt (CHAR_TX Sample.K) "SI00" true; Disconnect]
      /\ power (self (snd out)) = Some false).
Proof.
  intros W. split.
  - pose proof (C5_auto_refresh_policy W Sample.K "SI00"
                  (snd (assign (set_power_attr (Some false)) (Sample.session true)))) as H.
    destruct H as (H1 & _ & H3); [vm_compute; reflexivity ..|].
    split; [exact H1|].
    specialize (H3 Sample.buffer' (layout Sample.buffer')).
    assert (E : snapshot (self (snd (power_off W Sample.K (Sample.session true))))
                = snapshot_of (layout Sample.buffer'))
      by (apply H3; vm_compute; reflexivity).
    exact (f_equal snd E).
  - pose proof (C5_auto_refresh_policy W Sample.K "SI00"
                  (snd (assign (set_power_attr (Some false)) (Sample.session false)))) as H.
    destruct H as (H1 & _ & _ & H4); [vm_compute; reflexivity ..|].
    split; [exact H1|].
    exact (f_equal snd H4).
Defined.

(** ** Scanning *)

Lemma find_none_all {A : Type} (f : A -> bool) (l : list A) :
  (forall x, In x l -> f x = false) -> find f l = None.
Proof.
  induction l as [|x l IH]; intros H; [reflexivity|].
  cbn. rewrite (H x (or_introl eq_refl)). apply IH. intros y Hy. apply H. right. exact Hy.
Qed.

(** What [scan] returns and stores, as a function of what is heard. *)
Lemma scan_run (W : World) (K : Constants) (s : Sys) :
  match find (wanted K s) (heard W s) with
  | Some d =>
      fst (scan W K s) = Ok d
      /\ identity (self (snd (scan W K s))) = (Some d, Some (BLEDevice.address d))
  | None =>
      fst (scan W K s) = Raise RuntimeError
      /\ identity (self (snd (scan W K s))) = identity (self s)
  end.
Proof.
  rewrite scan_eq. destruct (find _ _); destruct s as [o l]; split; reflexivity.
Qed.

(** Nothing heard is wanted when no device matches. *)
Lemma no_match_find (W : World) (K : Constants) (s : Sys) :
  no_match W K s -> find (wanted K s) (heard W s) = None.
Proof.
  unfold no_match, wanted. intros NM.
  assert (Filter : (forall d, In d (heard W s) ->
                      ~ In (BT_MANUFACTURER_ID K) (map fst (BLEDevice.manufacturer_data d))) ->
                   find (fun d => existsb (Z.eqb (BT_MANUFACTURER_ID K))
                                    (map fst (BLEDevice.manufacturer_data d)))
                     (heard W s) = None).
  { intros H. apply find_none_all. intros d Hd.
    destruct (existsb _ _) eqn:Ex; [|reflexivity].
    apply existsb_exists in Ex as [x [Hx Ex]]. apply Z.eqb_eq in Ex. subst x.
    exfalso. exact (H d Hd Hx). }
  destruct (address (self s)) as [[|c r]|]; [apply Filter, NM| |apply Filter, NM].
  apply find_none_all. intros d Hd. apply String.eqb_neq, NM, Hd.
Qed.

(** C8.  When no device matches (with a non-empty address stored, no device
    heard has that address; otherwise no advertisement heard has the
    manufacturer identifier in its manufacturer data), [scan] raises the
    [RuntimeError] that stands for the specification's [DeviceNotFound] and
    leaves the stored device and address as they were.  In every state, a
    scan that raises leaves them as they were, and a scan that returns a
    device stores that device and its address. *)
Theorem C8_scan_failure (W : World) (K : Constants) (s : Sys) :
  no_match W K s ->
  fst (scan W K s) = Raise RuntimeError
  /\ identity (self (snd (scan W K s))) = identity (self s)
  /\ (forall s0 e, fst (scan W K s0) = Raise e ->
        e = RuntimeError /\ identity (self (snd (scan W K s0))) = identity (self s0))
  /\ (forall s0 d, fst (scan W K s0) = Ok d ->
        identity (self (snd (scan W K s0))) = (Some d, Some (BLEDevice.address d))).
Proof.
  intros NM.
  assert (G : forall s0,
             match fst (scan W K s0) with
             | Ok d => identity (self (snd (scan W K s0))) = (Some d, Some (BLEDevice.address d))
             | Raise e =>
                 e = RuntimeError
                 /\ identity (self (snd (scan W K s0))) = identity (self s0)
             end).
  { intros s0. pose proof (scan_run W K s0) as R.
    destruct (find (wanted K s0) (heard W s0)) as [d|];
      destruct R as [-> R]; [exact R|split; [reflexivity|exact R]]. }
  assert (F : fst (scan W K s) = Raise RuntimeError
              /\ identity (self (snd (scan W K s))) = identity (self s)).
  { pose proof (scan_run W K s) as R.
    rewrite (no_match_find W K s NM) in R. exact R. }
  destruct F as [F1 F2].
  repeat split; try assumption.
  - specialize (G s0). rewrite H in G. apply G.
  - specialize (G s0). rewrite H in G. apply G.
  - intros s0 d H. specialize (G s0). rewrite H in G. exact G.
Qed.

(** With only a lamp in the air: a scan by filter and a scan by address. *)
Lemma C8_scan_failure_witness :
  (fst (scan Sample.empty_world Sample.K (Sample.anonymous true)) = Raise RuntimeError
   /\ identity (self (snd (scan Sample.empty_world Sample.K (Sample.anonymous true))))
      = (None, None))
  /\ (fst (scan Sample.empty_world Sample.K (Sample.stranger true)) = Raise RuntimeError
      /\ identity (self (snd (scan Sample.empty_world Sample.K (Sample.stranger true))))
         = (None, Some "00:00:00:00:00:01"%string)).
Proof.
  split.
  - destruct (C8_scan_failure Sample.empty_world Sample.K (Sample.anonymous true))
      as (H1 & H2 & _).
    + cbn. intros d [<-|[]]. cbn. intros [E|[]]. discriminate.
    + split; [exact H1|exact H2].
  - destruct (C8_scan_failure Sample.empty_world Sample.K (Sample.stranger true))
      as (H1 & H2 & _).
    + cbn. intros d [<-|[]]. cbn. discriminate.
    + split; [exact H1|exact H2].
Defined.

(** ** The guard *)

Section Guard.

Variable W : World.
Variable K : Constants.

(** Every call keeps a raised flag raised. *)
Lemma run_all_sticky (cs : list call) (s : Sys) : sticky s (run_all W K cs s).
Proof.
  apply run_all_stable; try exact _;
    auto using sticky_identity, sticky_assign, sticky_new, sticky_enter, sticky_exit,
      sticky_read, sticky_write, sticky_connect, sticky_disconnect, sticky_sleep,
      sticky_now.
Qed.

(** The guarded read with the flag raised, all of it. *)
Lemma guarded_read_flagged_trace (s : Sys) :
  settled s = true ->
  flag s = true ->
  connected s || link_ok W (connects (net s)) = true ->
  trace (net (snd (guarded_read W K s))) =
    trace (net s) ++ (if connected s then [] else [Connect])
      ++ [ReadGatt (CHAR_FEEDBACK K)].
Proof.
  settled_state s. intros _ -> L.
  unfold_session. cbn.
  destruct ic; cbn in *; rewrite ?L; cbn;
    destruct (feedback W (reads l)) as [raw|]; cbn;
    repeat rewrite <- app_assoc; reflexivity.
Qed.

(** After its read, [refresh_data] touches neither the link nor the client. *)
Lemma refresh_data_after_read (s : Sys) :
  net (snd (refresh_data W K s)) = net (snd (read_feedback W K s))
  /\ _client (self (snd (refresh_data W K s))) = _client (self (snd (read_feedback W K s))).
Proof.
  unfold refresh_data, bind, lift.
  destruct (read_feedback W K s) as [[raw|e] s1]; cbn; [|split; reflexivity].
  destruct (decode K raw) as [v|e]; cbn; [|split; reflexivity].
  destruct (store_run v s1) as (_ & _ & N & C & _). split; assumption.
Qed.

(** When the flag is down and the connection closed, the guarded read leaves
    the connection closed: the guard works as long as the flag was never
    raised. *)
Lemma guarded_read_leave_closed (s : Sys) :
  settled s = true ->
  flag s = false ->
  connected s = false ->
  connected (snd (guarded_read W K s)) = false /\ flag (snd (guarded_read W K s)) = false.
Proof.
  settled_state s. intros _ -> ->.
  unfold_session. cbn.
  destruct (link_ok W (connects l)); cbn;
    try (destruct (feedback W (reads l)) as [raw|]; cbn); split; reflexivity.
Qed.

End Guard.

(** C9.  Once the [was_open] flag of the cached client is raised, no sequence
    of calls of the session lowers it; from then on, whenever the guard can
    be entered, [refresh_data] and [_send_command] leave the connection open
    on exit, also when the connection was closed on entry and the guard
    itself issued the connect (the trace of [refresh_data] is then the
    connect and the read, without a disconnect).  The flag is raised in
    particular by a [_send_command] with the automatic refresh, whose
    refresh enters the guard again while the connection is held open. *)
Theorem C9_was_open_sticky (W : World) (K : Constants) (s : Sys) (command : string) :
  flag s = true ->
  (forall cs, flag (run_all W K cs s) = true)
  /\ (ready W K s = true ->
        connected (snd (refresh_data W K s)) = true
        /\ connected (snd (_send_command W K command s)) = true
        /\ trace (net (snd (refresh_data W K s))) =
             trace (net s) ++ (if connected s then [] else [Connect])
               ++ [ReadGatt (CHAR_FEEDBACK K)])
  /\ (forall s0, auto_refresh (self s0) = true -> ready W K s0 = true ->
        tx_ok W (writes (net s0)) = true ->
        flag (snd (_send_command W K command s0)) = true).
Proof.
  intros F. split; [|split].
  - intros cs. apply (run_all_sticky W K cs s F).
  - intros H. pose proof (ready_linkable W K s H) as L.
    destruct (read_feedback_ready W K s H) as (s1 & E & St & N & Cn & Fl & _).
    destruct (send_command_ready W K command s H) as (s2 & E2 & St2 & N2 & Cn2 & Fl2 & _).
    destruct (refresh_data_after_read W K s) as [RN RC].
    rewrite E in RN, RC.
    rewrite <- Fl in F. rewrite <- N, <- Cn in L.
    destruct (guarded_read_flagged W K s1 St F L) as [_ G2].
    pose proof (guarded_read_flagged_trace W K s1 St F L) as G3.
    split; [|split].
    + unfold connected in *. rewrite RC. exact G2.
    + rewrite E2. rewrite Fl, <- Fl2 in F. rewrite N, Cn, <- N2, <- Cn2 in L.
      apply (guarded_write_flagged W K command s2 St2 F L).
    + rewrite RN, G3, N, Cn. reflexivity.
  - intros s0 A H T.
    pose proof (ready_linkable W K s0 H) as L.
    destruct (send_command_ready W K command s0 H) as (s1 & E & St & N & Cn & Fl & P & _).
    rewrite E. rewrite <- N in T. rewrite <- N, <- Cn in L. rewrite <- P in A.
    apply (guarded_write_auto W K command s1 St L T A).
Qed.

(** On the sample session, after a [power_on] and a [disconnect]. *)
Lemma C9_was_open_sticky_witness :
  let W := Sample.world (Sample.buffer x00) in
  let s := Spec.run_all W Sample.K [PowerOn; DoDisconnect] (Sample.session true) in
  flag s = true /\ connected s = false
  /\ connected (snd (refresh_data W Sample.K s)) = true
  /\ flag (Spec.run_all W Sample.K [RefreshData; DoDisconnect; PowerOff] s) = true.
Proof.
  intros W s.
  destruct (C9_was_open_sticky W Sample.K s "SI01") as (H1 & H2 & _);
    [vm_compute; reflexivity|].
  assert (R : ready W Sample.K s = true) by (vm_compute; reflexivity).
  destruct (H2 R) as (H3 & _).
  split; [vm_compute; reflexivity|].
  split; [vm_compute; reflexivity|].
  split; [exact H3|apply H1].
Defined.

(** C2 (the code at the failing inputs).  A session whose client is not
    connected sends a command with the automatic refresh: the guard of
    [_send_command] connects, the refresh enters the guard again on the
    connected client and raises [was_open], and no guard disconnects: the
    connection that was closed on entry is open on exit.  From then on a
    plain [refresh_data] on the disconnected client leaves it connected
    too. *)
Theorem C2_guard_leaves_connection_open :
  let W := Sample.world (Sample.buffer x00) in
  let s := Sample.session true in
  let out := power_on W Sample.K s in
  connected s = false
  /\ fst out = Ok tt
  /\ connected (snd out) = true
  /\ trace (net (snd out)) =
       [Connect; WriteGatt (CHAR_TX Sample.K) "SI01" true; Sleep 250;
        ReadGatt (CHAR_FEEDBACK Sample.K)]
  /\ let s' := snd (PyHatchBabyRestAsync.disconnect W Sample.K (snd out)) in
     connected s' = false
     /\ fst (refresh_data W Sample.K s') = Ok tt
     /\ connected (snd (refresh_data W Sample.K s')) = true.
Proof. vm_compute. repeat split. Qed.

(** ** Setting the time *)

Section SetTime.

Variable W : World.
Variable K : Constants.

Lemma sends_from (s s' out : Sys) (command : string) :
  trace (net s') = trace (net s) -> sends s' out command -> sends s out command.
Proof. intros E (added & T & Wr). exists added. rewrite T, E. split; [reflexivity|exact Wr]. Qed.

(** [set_time] with an argument is [_send_command] of the stamp of the clock
    from the state where the argument was cached and the clock read once. *)
Lemma set_time_run (new_time : datetime) (s : Sys) :
  let s' := snd ((assign (set_time_attr (Some new_time)) ;; now W) s) in
  set_time W K (Some new_time) s
  = _send_command W K (strftime_ST (clock W (ticks (net s)))) s'
  /\ trace (net s') = trace (net s)
  /\ ready W K s' = ready W K s
  /\ auto_refresh (self s') = auto_refresh (self s)
  /\ time (self s') = Some new_time.
Proof.
  destruct s as [o l]. cbn. repeat split.
  apply ready_frame; reflexivity.
Qed.

Lemma set_time_now_run (s : Sys) :
  let s' :=
    snd ((now W ;; assign (set_time_attr (Some (naive (clock W (ticks (net s))))))
          ;; now W) s) in
  set_time W K None s
  = _send_command W K (strftime_ST (clock W (S (ticks (net s))))) s'
  /\ trace (net s') = trace (net s)
  /\ ready W K s' = ready W K s.
Proof.
  destruct s as [o l]. cbn. repeat split.
  apply ready_frame; reflexivity.
Qed.

End SetTime.

Lemma string_append_assoc (a b c : string) :
  String.append (String.append a b) c = String.append a (String.append b c).
Proof. induction a as [|x a IH]; cbn; [reflexivity|rewrite IH; reflexivity]. Qed.

Lemma digits_checked :
  forallb (fun n => String.eqb (Py.decimal 2 n) (two_digits n))
    (map N.of_nat (seq 0 100)) = true
  /\ forallb (fun n => String.eqb (Py.digits n) (four_digits n))
       (map N.of_nat (seq (N.to_nat 1000) (N.to_nat 9000))) = true.
Proof. split; vm_compute; reflexivity. Qed.

Lemma decimal_two_digits (n : N) : (n < 100)%N -> Py.decimal 2 n = two_digits n.
Proof.
  intros H. destruct digits_checked as [F _].
  apply String.eqb_eq.
  apply (proj1 (forallb_forall _ _) F).
  apply in_map_iff. exists (N.to_nat n). split; [lia|].
  apply in_seq. lia.
Qed.

Lemma digits_four_digits (n : N) : (1000 <= n < 10000)%N -> Py.digits n = four_digits n.
Proof.
  intros H. destruct digits_checked as [_ F].
  apply String.eqb_eq.
  apply (proj1 (forallb_forall _ _) F).
  apply in_map_iff. exists (N.to_nat n). split; [lia|].
  apply in_seq. lia.
Qed.

(** The stamp of a reading with a year of four digits. *)
Lemma strftime_ST_format (c : civil) :
  calendar c ->
  strftime_ST c = String.append "ST" (String.append (YYYYMMDDHHMMSS c) "U").
Proof.
  intros (Hy & Hm & Hd & Hh & Hi & Hs).
  unfold strftime_ST, YYYYMMDDHHMMSS.
  rewrite (digits_four_digits _ Hy), (decimal_two_digits _ Hm), (decimal_two_digits _ Hd),
    (decimal_two_digits _ Hh), (decimal_two_digits _ Hi), (decimal_two_digits _ Hs).
  rewrite !string_append_assoc. reflexivity.
Qed.

(** C10.  Whenever the guard can be entered, the command that [set_time]
    hands to the transport is the stamp [ST%Y%m%d%H%M%SU] of the wall clock
    read when the command is built, whatever [new_time] the caller gave;
    [new_time] only goes to the cached [time], where it stays when the
    automatic refresh is off.  (Without argument the clock is read twice:
    the first reading is cached, the second is sent.)  For a reading of the
    clock with a year of four digits, the command is [ST], the fourteen
    digits YYYYMMDDHHMMSS of the reading, and [U]. *)
Theorem C10_set_time_ignores_argument (W : World) (K : Constants) (s : Sys)
  (new_time : datetime) :
  ready W K s = true ->
  let first := clock W (ticks (net s)) in
  let second := clock W (S (ticks (net s))) in
  sends s (snd (set_time W K (Some new_time) s)) (strftime_ST first)
  /\ sends s (snd (set_time W K None s)) (strftime_ST second)
  /\ (auto_refresh (self s) = false ->
        time (self (snd (set_time W K (Some new_time) s))) = Some new_time)
  /\ (calendar first ->
      sends s (snd (set_time W K (Some new_time) s))
        (String.append "ST" (String.append (YYYYMMDDHHMMSS first) "U")))
  /\ (calendar second ->
      sends s (snd (set_time W K None s))
        (String.append "ST" (String.append (YYYYMMDDHHMMSS second) "U"))).
Proof.
  intros H first second. subst first second.
  destruct (set_time_run W K new_time s) as (E & T & R & A & Tm). cbv zeta in *.
  destruct (set_time_now_run W K s) as (E0 & T0 & R0). cbv zeta in *.
  assert (S1 : sends s (snd (set_time W K (Some new_time) s))
                 (strftime_ST (clock W (ticks (net s))))).
  { rewrite E. apply (sends_from _ _ _ _ T). apply send_command_sends. congruence. }
  assert (S2 : sends s (snd (set_time W K None s))
                 (strftime_ST (clock W (S (ticks (net s)))))).
  { rewrite E0. apply (sends_from _ _ _ _ T0). apply send_command_sends. congruence. }
  split; [exact S1|]. split; [exact S2|]. split; [|split].
  - intros Ar. rewrite E.
    rewrite <- A in Ar. rewrite <- R in H.
    destruct (send_command_no_refresh W K (strftime_ST (clock W (ticks (net s)))) _ H Ar)
      as [_ Sn].
    unfold snapshot in Sn. injection Sn as Sn _ _ _ _ _.
    etransitivity; [exact Sn|exact Tm].
  - intros Cal. rewrite <- (strftime_ST_format _ Cal). exact S1.
  - intros Cal. rewrite <- (strftime_ST_format _ Cal). exact S2.
Qed.

(** On the sample session: the epoch instant 5 is cached, the wall clock,
    9 March 2024 at 12:00:05, is sent. *)
Lemma C10_set_time_ignores_argument_witness :
  let W := Sample.world (Sample.buffer x00) in
  let out := set_time W Sample.K (Some (fromtimestamp_UTC 5)) (Sample.session false) in
  sends (Sample.session false) (snd out) "ST20240309120005U"
  /\ time (self (snd out)) = Some (fromtimestamp_UTC 5).
Proof.
  intros W out.
  destruct (C10_set_time_ignores_argument W Sample.K (Sample.session false)
              (fromtimestamp_UTC 5)) as (_ & _ & H3 & H4 & _); [vm_compute; reflexivity|].
  split; [apply H4; unfold calendar; cbn; lia|apply H3; reflexivity].
Defined.

(** * Further properties *)

Import More.

#[local] Instance kept_open_pre : PreOrder kept_open.
Proof.
  split; [intros s H; split; [exact H|reflexivity]|].
  intros a b c H1 H2 H. destruct (H1 H) as [Hb Eb]. destruct (H2 Hb) as [Hc Ec].
  split; [exact Hc|congruence].
Qed.

#[local] Instance held_open_pre : PreOrder held_open.
Proof.
  split; [intros s [H1 H2]; repeat split; assumption|].
  intros a b c H1 H2 H. destruct (H1 H) as (Hb & Fb & Eb).
  destruct (H2 (conj Hb Fb)) as (Hc & Fc & Ec).
  repeat split; congruence.
Qed.

#[local] Instance kept_closed_pre : PreOrder kept_closed.
Proof.
  split; [intros s H; exact H|].
  intros a b c H1 H2 H. auto.
Qed.

#[local] Instance same_target_pre : PreOrder same_target.
Proof.
  split.
  - intros s c H. exists c. split; [exact H|reflexivity].
  - intros a b c H1 H2 x Hx. destruct (H1 x Hx) as (y & Hy & Ey).
    destruct (H2 y Hy) as (z & Hz & Ez). exists z. split; [exact Hz|congruence].
Qed.

Ltac link_prim R :=
  run_prim; unfold R, closed, connected, flag, link_events; cbn;
  rewrite ?filter_app; cbn; rewrite ?app_nil_r;
  intuition (try congruence; try discriminate).

Section LinkSteps.

Variable W : World.

Lemma held_open_assign f :
  (forall o, _client (f o) = _client o /\ auto_refresh (f o) = auto_refresh o) ->
  stable held_open (assign f).
Proof.
  intros H [o l]. unfold held_open, connected, flag, link_events. cbn.
  destruct (H o) as [-> _]. intros [H1 H2]. repeat split; assumption.
Qed.

Lemma held_open_identity f :
  (forall o, _client (f o) = _client o /\ auto_refresh (f o) = auto_refresh o
             /\ snapshot (f o) = snapshot o) ->
  stable held_open (assign f).
Proof. intros H. apply held_open_assign. intros o. split; apply H. Qed.

Lemma held_open_new d s : _client (self s) = None ->
  held_open s (snd (assign (set__client (Some (SaveConnectBleakClient.new d))) s)).
Proof. intros E [H _]. unfold connected in H. rewrite E in H. discriminate. Qed.

Lemma held_open_enter : stable held_open (on_client (SaveConnectBleakClient.__aenter__ W)).
Proof. link_prim held_open. Qed.

Lemma held_open_exit : stable held_open (on_client SaveConnectBleakClient.__aexit__).
Proof. link_prim held_open. Qed.

Lemma held_open_read ch :
  stable held_open (on_client (SaveConnectBleakClient.read_gatt_char W ch)).
Proof. link_prim held_open. Qed.

Lemma held_open_write ch data rsp :
  stable held_open (on_client (SaveConnectBleakClient.write_gatt_char W ch data rsp)).
Proof. link_prim held_open. Qed.

Lemma held_open_sleep : stable held_open sleep_quarter_second.
Proof. link_prim held_open. Qed.

Lemma kept_open_assign f :
  (forall o, _client (f o) = _client o /\ auto_refresh (f o) = auto_refresh o) ->
  stable kept_open (assign f).
Proof.
  intros H [o l]. unfold kept_open, connected, link_events. cbn.
  destruct (H o) as [-> _]. intros H1. split; [assumption|reflexivity].
Qed.

Lemma kept_open_identity f :
  (forall o, _client (f o) = _client o /\ auto_refresh (f o) = auto_refresh o
             /\ snapshot (f o) = snapshot o) ->
  stable kept_open (assign f).
Proof. intros H. apply kept_open_assign. intros o. split; apply H. Qed.

Lemma kept_open_new d s : _client (self s) = None ->
  kept_open s (snd (assign (set__client (Some (SaveConnectBleakClient.new d))) s)).
Proof. intros E H. unfold connected in H. rewrite E in H. discriminate. Qed.

Lemma kept_open_now : stable kept_open (now W).
Proof. link_prim kept_open. Qed.

End LinkSteps.

(** ** A connection the caller keeps open *)

Section KeptOpen.

Variable W : World.
Variable K : Constants.

Lemma ensure_scan_kept_open : stable kept_open (_ensure_scan W K).
Proof. apply ensure_scan_stable; try exact _. apply kept_open_identity. Qed.

Lemma client_kept_open : stable kept_open (client W K).
Proof.
  apply client_stable; try exact _; auto using kept_open_identity, kept_open_new.
Qed.

Lemma prelude_kept_open : stable kept_open (prelude W K).
Proof.
  unfold prelude. repeat stable_step.
  - apply ensure_scan_kept_open.
  - apply kept_open_identity. intros o. repeat split.
  - apply client_kept_open.
Qed.

Lemma refresh_data_held_open : stable held_open (refresh_data W K).
Proof.
  apply refresh_data_stable; try exact _;
    auto using held_open_identity, held_open_assign, held_open_new, held_open_enter,
      held_open_exit, held_open_read.
Qed.

(** Entered on an open connection, the guard raises the flag, runs the body
    and leaves the connection open. *)
Lemma async_with_kept_open {A : Type} (body : M A) :
  stable held_open body -> stable kept_open (async_with W body).
Proof.
  intros Hb s Hc.
  assert (E : exists s1, on_client (SaveConnectBleakClient.__aenter__ W) s = (Ok tt, s1)
                         /\ connected s1 = true /\ flag s1 = true
                         /\ link_events s1 = link_events s).
  { destruct s as [[sc ar dev addr [[d ic wo]|] tm co br so vo pw] l];
      unfold connected in Hc; cbn in Hc; [|discriminate]. subst ic.
    eexists. repeat split. }
  destruct E as (s1 & E & C1 & F1 & L1).
  unfold async_with, bind. rewrite E.
  pose proof (stable_finally held_open body
                (on_client SaveConnectBleakClient.__aexit__) Hb held_open_exit s1) as H.
  destruct (H (conj C1 F1)) as (C2 & _ & L2).
  split; [exact C2|congruence].
Qed.

Lemma read_feedback_kept_open : stable kept_open (read_feedback W K).
Proof.
  intros s. rewrite read_feedback_prelude. revert s.
  apply stable_bind; [exact _|apply prelude_kept_open|intros []].
  apply async_with_kept_open, held_open_read.
Qed.

Lemma store_kept_open (v : locals) : stable kept_open (store v).
Proof. apply store_stable; try exact _. apply kept_open_assign. Qed.

Lemma refresh_data_kept_open : stable kept_open (refresh_data W K).
Proof.
  unfold refresh_data. repeat stable_step.
  - apply read_feedback_kept_open.
  - apply store_kept_open.
Qed.

Lemma send_command_kept_open (command : string) :
  stable kept_open (_send_command W K command).
Proof.
  intros s. rewrite send_command_prelude. revert s.
  apply stable_bind; [exact _|apply prelude_kept_open|intros []].
  apply async_with_kept_open.
  repeat stable_step.
  - apply held_open_write.
  - apply held_open_sleep.
  - apply refresh_data_held_open.
Qed.

Lemma connect_kept_open : stable kept_open (PyHatchBabyRestAsync.connect W K).
Proof.
  intros s Hc. unfold PyHatchBabyRestAsync.connect, bind, gets.
  destruct (client_kept_open s Hc) as [C1 L1].
  destruct (client W K s) as [[[]|e] s1]; cbn in *; [|split; assumption].
  assert (E : exists c, _client (self s1) = Some c
                        /\ SaveConnectBleakClient.is_connected c = true).
  { unfold connected in C1. destruct (_client (self s1)) as [c|]; [|discriminate].
    exists c. split; [reflexivity|exact C1]. }
  destruct E as (c & E1 & E2). rewrite E1, E2. cbn. split; assumption.
Qed.

Lemma run_kept_open (c : call) : not_disconnect c = true -> stable kept_open (run W K c).
Proof.
  destruct c; cbn [run not_disconnect]; intros N; try discriminate;
    unfold power_on, power_off, set_sound, set_volume, set_color, set_brightness, set_time;
    repeat stable_step;
    try (apply kept_open_assign; intros; repeat split; reflexivity);
    try apply refresh_data_kept_open; try apply send_command_kept_open;
    try apply connect_kept_open; try apply kept_open_now;
    try (apply getattr_stable; exact _).
  apply scan_stable; try exact _. apply kept_open_identity.
Qed.

End KeptOpen.

(** X1.  A connection that is open stays open through every call of the
    session other than [disconnect], on every path, and none of them
    connects or disconnects: the guard leaves as found a connection the
    caller opened. *)
Theorem X1_open_connection_is_kept (W : World) (K : Constants) (cs : list call)
  (s : Sys) :
  forallb not_disconnect cs = true ->
  connected s = true ->
  connected (run_all W K cs s) = true
  /\ link_events (run_all W K cs s) = link_events s.
Proof.
  revert s. induction cs as [|c cs IH]; intros s N Hc; cbn [run_all].
  - split; [exact Hc|reflexivity].
  - cbn in N. apply andb_prop in N as [N1 N2].
    destruct (run_kept_open W K c N1 s Hc) as [C1 L1].
    destruct (IH _ N2 C1) as [C2 L2]. split; [exact C2|congruence].
Qed.

(** On the sample session after [connect]. *)
Lemma X1_open_connection_is_kept_witness :
  let W := Sample.world (Sample.buffer x00) in
  let s := run_all W Sample.K [DoConnect] (Sample.session true) in
  let s' := run_all W Sample.K [PowerOn; SetColor 1 2 3; RefreshData] s in
  connected s' = true /\ link_events s' = [Connect].
Proof.
  intros W s s'.
  destruct (X1_open_connection_is_kept W Sample.K [PowerOn; SetColor 1 2 3; RefreshData] s)
    as [H1 H2]; [vm_compute; reflexivity ..|].
  split; [exact H1|exact H2].
Defined.

(** ** A connection the guard opens for one operation *)

Section KeptClosed.

Variable W : World.
Variable K : Constants.

Lemma kept_closed_assign f :
  (forall o, _client (f o) = _client o /\ auto_refresh (f o) = auto_refresh o) ->
  stable kept_closed (assign f).
Proof.
  intros H [o l]. unfold kept_closed, closed, connected, flag. cbn.
  destruct (H o) as [-> ->]. intros H1. exact H1.
Qed.

Lemma kept_closed_identity f :
  (forall o, _client (f o) = _client o /\ auto_refresh (f o) = auto_refresh o
             /\ snapshot (f o) = snapshot o) ->
  stable kept_closed (assign f).
Proof. intros H. apply kept_closed_assign. intros o. split; apply H. Qed.

Lemma kept_closed_new d s : _client (self s) = None ->
  kept_closed s (snd (assign (set__client (Some (SaveConnectBleakClient.new d))) s)).
Proof. intros _. destruct s as [o l]. intros [_ H]. split; [reflexivity|exact H]. Qed.

Lemma kept_closed_disconnect :
  stable kept_closed (on_client SaveConnectBleakClient.disconnect).
Proof. link_prim kept_closed. Qed.

Lemma kept_closed_now : stable kept_closed (now W).
Proof. link_prim kept_closed. Qed.

Lemma guarded_read_kept_closed : stable kept_closed (guarded_read W K).
Proof.
  intros [[sc ar dev addr [[d ic wo]|] tm co br so vo pw] l];
    unfold kept_closed, closed, connected, flag; cbn; intros [H1 H2];
    [|split; [reflexivity|exact H2]].
  destruct ic, wo; try discriminate. subst ar.
  unfold_session. cbn.
  destruct (link_ok W (connects l)); cbn;
    try (destruct (feedback W (reads l)) as [raw|]; cbn); split; reflexivity.
Qed.

Lemma guarded_write_kept_closed (command : string) :
  stable kept_closed (guarded_write W K command).
Proof.
  intros [[sc ar dev addr [[d ic wo]|] tm co br so vo pw] l];
    unfold kept_closed, closed, connected, flag; cbn; intros [H1 H2];
    [|split; [reflexivity|exact H2]].
  destruct ic, wo; try discriminate. subst ar.
  unfold guarded_write, async_with, finally, on_client,
    SaveConnectBleakClient.__aenter__, SaveConnectBleakClient.__aexit__,
    SaveConnectBleakClient.connect, SaveConnectBleakClient.disconnect,
    SaveConnectBleakClient.write_gatt_char, bind, gets, modify, ret.
  cbn.
  destruct (link_ok W (connects l)); cbn;
    try (destruct (tx_ok W (writes l)); cbn); split; reflexivity.
Qed.

Lemma prelude_kept_closed : stable kept_closed (prelude W K).
Proof.
  unfold prelude. repeat stable_step.
  - apply ensure_scan_stable; try exact _. apply kept_closed_identity.
  - apply kept_closed_identity. intros o. repeat split.
  - apply client_stable; try exact _; auto using kept_closed_identity, kept_closed_new.
Qed.

Lemma refresh_data_kept_closed : stable kept_closed (refresh_data W K).
Proof.
  unfold refresh_data. repeat stable_step.
  - intros s. rewrite read_feedback_prelude. revert s.
    apply stable_bind; [exact _|apply prelude_kept_closed|intros []].
    apply guarded_read_kept_closed.
  - apply store_stable; try exact _. apply kept_closed_assign.
Qed.

Lemma send_command_kept_closed (command : string) :
  stable kept_closed (_send_command W K command).
Proof.
  intros s. rewrite send_command_prelude. revert s.
  apply stable_bind; [exact _|apply prelude_kept_closed|intros []].
  apply guarded_write_kept_closed.
Qed.

Lemma disconnect_kept_closed : stable kept_closed (PyHatchBabyRestAsync.disconnect W K).
Proof.
  apply disconnect_stable; try exact _;
    auto using kept_closed_identity, kept_closed_new, kept_closed_disconnect.
Qed.

Lemma run_kept_closed (c : call) : not_connect c = true -> stable kept_closed (run W K c).
Proof.
  destruct c; cbn [run not_connect]; intros N; try discriminate;
    unfold power_on, power_off, set_sound, set_volume, set_color, set_brightness, set_time;
    repeat stable_step;
    try (apply kept_closed_assign; intros; repeat split; reflexivity);
    try apply refresh_data_kept_closed; try apply send_command_kept_closed;
    try apply disconnect_kept_closed; try apply kept_closed_now;
    try (apply getattr_stable; exact _).
  apply scan_stable; try exact _. apply kept_closed_identity.
Qed.

End KeptClosed.

(** X2.  With the automatic refresh off, a session whose connection is
    closed and whose [was_open] flag is down is in the same condition after
    every call other than [connect], on every path: whatever the guard
    connects for one operation it disconnects, also when the operation
    raises. *)
Theorem X2_closed_connection_is_restored (W : World) (K : Constants)
  (cs : list call) (s : Sys) :
  forallb not_connect cs = true ->
  auto_refresh (self s) = false ->
  closed s = true ->
  closed (run_all W K cs s) = true.
Proof.
  intros N A C.
  assert (G : closed (run_all W K cs s) = true
              /\ auto_refresh (self (run_all W K cs s)) = false).
  { revert s A C. induction cs as [|c cs IH]; intros s A C; cbn [run_all].
    - split; assumption.
    - cbn in N. apply andb_prop in N as [N1 N2].
      destruct (run_kept_closed W K c N1 s (conj C A)) as [C1 A1].
      apply (IH N2 _ A1 C1). }
  apply G.
Qed.

(** On the sample session, against a device whose buffer does not decode. *)
Lemma X2_closed_connection_is_restored_witness :
  let W := Sample.world (replace_at 5 x00 (Sample.buffer x00)) in
  let s' := run_all W Sample.K [PowerOn; SetColor 1 2 3; RefreshData; SetTime None]
              (Sample.session false) in
  closed s' = true /\ link_events s' <> [].
Proof.
  intros W s'. split.
  - apply (X2_closed_connection_is_restored W Sample.K
             [PowerOn; SetColor 1 2 3; RefreshData; SetTime None] (Sample.session false));
      vm_compute; reflexivity.
  - vm_compute. discriminate.
Defined.

(** ** Failures of the transport *)

Section Failures.

Variable W : World.
Variable K : Constants.

Lemma prelude_resolvable (s : Sys) :
  resolvable W K s = true ->
  exists s1, prelude W K s = (Ok tt, s1) /\ settled s1 = true /\ net s1 = net s /\
    connected s1 = connected s /\ flag s1 = flag s /\
    auto_refresh (self s1) = auto_refresh (self s) /\
    snapshot (self s1) = snapshot (self s).
Proof.
  destruct s as [[sc ar dev addr cl tm co br so vo pw] l].
  unfold resolvable, prelude, _ensure_scan, client, _ensure_scan, assign, bind,
    gets, modify, ret, raise.
  cbn. intros H.
  destruct dev as [d|]; cbn in *.
  - destruct cl as [c|]; cbn; eexists; repeat split.
  - rewrite scan_eq in *.
    destruct (find _ _) as [d|]; cbn in *; [|discriminate].
    destruct cl as [c|]; cbn; eexists; repeat split.
Qed.

Lemma send_command_resolvable (command : string) (s : Sys) :
  resolvable W K s = true ->
  exists s1, _send_command W K command s = guarded_write W K command s1 /\
    settled s1 = true /\ net s1 = net s /\ connected s1 = connected s /\
    flag s1 = flag s /\ auto_refresh (self s1) = auto_refresh (self s) /\
    snapshot (self s1) = snapshot (self s).
Proof.
  intros H. destruct (prelude_resolvable s H) as (s1 & P & rest).
  exists s1. split; [|exact rest].
  rewrite send_command_prelude. unfold bind. rewrite P. reflexivity.
Qed.

Lemma read_feedback_resolvable (s : Sys) :
  resolvable W K s = true ->
  exists s1, read_feedback W K s = guarded_read W K s1 /\
    settled s1 = true /\ net s1 = net s /\ connected s1 = connected s /\
    flag s1 = flag s /\ auto_refresh (self s1) = auto_refresh (self s) /\
    snapshot (self s1) = snapshot (self s).
Proof.
  intros H. destruct (prelude_resolvable s H) as (s1 & P & rest).
  exists s1. split; [|exact rest].
  rewrite read_feedback_prelude. unfold bind. rewrite P. reflexivity.
Qed.

Lemma ready_resolvable (s : Sys) : ready W K s = true -> resolvable W K s = true.
Proof. unfold ready, resolvable. intros H. apply andb_prop in H as [H _]. exact H. Qed.

Lemma guarded_write_tx_fails (command : string) (s : Sys) :
  settled s = true ->
  connected s || link_ok W (connects (net s)) = true ->
  tx_ok W (writes (net s)) = false ->
  let out := guarded_write W K command s in
  fst out = Raise BleakError
  /\ trace (net (snd out)) =
       trace (net s) ++ (if connected s then [] else [Connect])
         ++ [WriteGatt (CHAR_TX K) command true]
         ++ (if flag s || connected s then [] else [Disconnect])
  /\ connected (snd out) = flag s || connected s
  /\ unread s (snd out)
  /\ snapshot (self (snd out)) = snapshot (self s).
Proof.
  settled_state s. intros _ L T.
  unfold unread.
  unfold guarded_write, async_with, finally, on_client,
    SaveConnectBleakClient.__aenter__, SaveConnectBleakClient.__aexit__,
    SaveConnectBleakClient.connect, SaveConnectBleakClient.disconnect,
    SaveConnectBleakClient.write_gatt_char, bind, gets, modify, ret.
  cbn.
  destruct ic; cbn in *; rewrite ?L; cbn; rewrite T; cbn;
    destruct wo; cbn; repeat rewrite <- app_assoc; cbn;
    rewrite ?filter_app; cbn; rewrite ?app_nil_r; repeat split; reflexivity.
Qed.

Lemma guarded_link_fails (s : Sys) :
  settled s = true ->
  connected s = false ->
  link_ok W (connects (net s)) = false ->
  forall (A : Type) (body : M A),
    let out := async_with W body s in
    fst out = Raise BleakError
    /\ trace (net (snd out)) = trace (net s) ++ [Connect]
    /\ connected (snd out) = false /\ flag (snd out) = flag s
    /\ reads (net (snd out)) = reads (net s)
    /\ snapshot (self (snd out)) = snapshot (self s).
Proof.
  settled_state s. intros _ -> L A body.
  unfold async_with, on_client, SaveConnectBleakClient.__aenter__,
    SaveConnectBleakClient.connect, bind, gets. cbn. rewrite L. cbn.
  repeat split.
Qed.

End Failures.

(** X3.  When the guard can be entered but the write fails, [_send_command]
    raises the transport error; with or without the automatic refresh it
    makes no pause and no status read after the failed write, and the
    snapshot, with the value the caller had just cached, is left as it was.
    The guard disconnects on the way out only when the connection was closed
    on entry and the [was_open] flag is down: with the flag raised, the
    connection that the guard opened for the failed write stays open. *)
Theorem X3_failed_write (W : World) (K : Constants) (command : string) (s : Sys) :
  ready W K s = true ->
  tx_ok W (writes (net s)) = false ->
  let out := _send_command W K command s in
  fst out = Raise BleakError
  /\ trace (net (snd out)) =
       trace (net s) ++ (if connected s then [] else [Connect])
         ++ [WriteGatt (CHAR_TX K) command true]
         ++ (if flag s || connected s then [] else [Disconnect])
  /\ connected (snd out) = flag s || connected s
  /\ unread s (snd out)
  /\ snapshot (self (snd out)) = snapshot (self s).
Proof.
  intros H T out. subst out.
  pose proof (ready_linkable W K s H) as L.
  destruct (send_command_ready W K command s H) as (s1 & E & St & N & Cn & Fl & _ & Sn).
  rewrite E. rewrite <- N, <- Cn in L. rewrite <- N in T.
  destruct (guarded_write_tx_fails W K command s1 St L T)
    as (G1 & G2 & Gc & [G3 G4] & G5).
  split; [exact G1|]. split; [rewrite G2, N, Cn, Fl; reflexivity|].
  split; [rewrite Gc, Cn, Fl; reflexivity|].
  split; [split; [rewrite G3, N; reflexivity|rewrite G4, N; reflexivity]|].
  rewrite G5. exact Sn.
Qed.

(** On the sample session, every write but the first failing: with the flag
    down, and after a [power_on] with the automatic refresh has raised the
    flag and a [disconnect] has closed the connection. *)
Lemma X3_failed_write_witness :
  let W :=
    {| air := air (Sample.world (Sample.buffer x00));
       link_ok := fun _ => true;
       feedback := fun _ => Some (Sample.buffer x00);
       tx_ok := fun n => match n with O => true | _ => false end;
       clock := fun _ => Sample.noon |} in
  let s := run_all W Sample.K [PowerOff] (Sample.session false) in
  let s' := run_all W Sample.K [PowerOn; DoDisconnect] (Sample.session true) in
  (flag s = false
   /\ fst (_send_command W Sample.K "SV10" s) = Raise BleakError
   /\ connected (snd (_send_command W Sample.K "SV10" s)) = false)
  /\ (flag s' = true
      /\ fst (_send_command W Sample.K "SV10" s') = Raise BleakError
      /\ connected (snd (_send_command W Sample.K "SV10" s')) = true).
Proof.
  intros W s s'.
  destruct (X3_failed_write W Sample.K "SV10" s) as (H1 & _ & H3 & _);
    [vm_compute; reflexivity ..|].
  destruct (X3_failed_write W Sample.K "SV10" s') as (H1' & _ & H3' & _);
    [vm_compute; reflexivity ..|].
  split; (split; [vm_compute; reflexivity|]).
  - split; [exact H1|exact (eq_trans H3 eq_refl)].
  - split; [exact H1'|exact (eq_trans H3' eq_refl)].
Defined.

(** X4.  When the device is known (or found) but the connection cannot be
    opened, [refresh_data] and [_send_command] raise the transport error
    after the one connect attempt: nothing is read or written, no
    disconnect is issued, and the snapshot is left as it was. *)
Theorem X4_failed_connect (W : World) (K : Constants) (command : string) (s : Sys) :
  resolvable W K s = true ->
  connected s = false ->
  link_ok W (connects (net s)) = false ->
  (let out := refresh_data W K s in
   fst out = Raise BleakError
   /\ trace (net (snd out)) = trace (net s) ++ [Connect]
   /\ connected (snd out) = false
   /\ snapshot (self (snd out)) = snapshot (self s))
  /\ (let out := _send_command W K command s in
      fst out = Raise BleakError
      /\ trace (net (snd out)) = trace (net s) ++ [Connect]
      /\ connected (snd out) = false
      /\ snapshot (self (snd out)) = snapshot (self s)).
Proof.
  intros R C L.
  destruct (read_feedback_resolvable W K s R) as (s1 & E1 & St & N & Cn & Fl & _ & Sn).
  destruct (send_command_resolvable W K command s R)
    as (s2 & E2 & St2 & N2 & Cn2 & Fl2 & _ & Sn2).
  split.
  - cbv zeta.
    destruct (guarded_link_fails W s1 St (eq_trans Cn C)
                (eq_trans (f_equal (fun n => link_ok W (connects n)) N) L) (list byte)
                (on_client (SaveConnectBleakClient.read_gatt_char W (CHAR_FEEDBACK K))))
      as (G1 & G2 & G3 & _ & _ & G6).
    fold (guarded_read W K) in G1, G2, G3, G6. rewrite <- E1 in G1, G2, G3, G6.
    assert (E : refresh_data W K s = (Raise BleakError, snd (read_feedback W K s))).
    { unfold refresh_data, bind.
      destruct (read_feedback W K s) as [r s3]. cbn in G1. subst r. reflexivity. }
    rewrite E. cbn [fst snd]. rewrite G2, G3, G6, N, Sn. repeat split.
  - cbv zeta. rewrite E2.
    destruct (guarded_link_fails W s2 St2 (eq_trans Cn2 C)
                (eq_trans (f_equal (fun n => link_ok W (connects n)) N2) L) unit
                (on_client
                   (SaveConnectBleakClient.write_gatt_char W (CHAR_TX K) command true) ;;
                 ar <- gets (fun s => auto_refresh (self s)) ;;
                 if ar then sleep_quarter_second ;; refresh_data W K else ret tt))
      as (G1 & G2 & G3 & _ & _ & G6).
    fold (guarded_write W K command) in G1, G2, G3, G6.
    rewrite G1, G2, G3, G6, N2, Sn2. repeat split.
Qed.

(** On the sample session, no connect succeeding. *)
Lemma X4_failed_connect_witness :
  let W :=
    {| air := air (Sample.world (Sample.buffer x00));
       link_ok := fun _ => false;
       feedback := fun _ => Some (Sample.buffer x00);
       tx_ok := fun _ => true;
       clock := fun _ => Sample.noon |} in
  let out := refresh_data W Sample.K (Sample.session true) in
  fst out = Raise BleakError /\ trace (net (snd out)) = [Connect].
Proof.
  intros W out.
  destruct (X4_failed_connect W Sample.K "SI01" (Sample.session true)) as ((H1 & H2 & _) & _);
    [vm_compute; reflexivity ..|].
  split; [exact H1|exact H2].
Defined.

(** ** The explicit connection and the stored identity *)

Section Explicit.

Variable W : World.
Variable K : Constants.

(** A failed [_ensure_scan] is the [RuntimeError] of [scan]. *)
Lemma ensure_scan_error (s : Sys) (e : exception) :
  fst (_ensure_scan W K s) = Raise e -> e = RuntimeError.
Proof.
  unfold _ensure_scan, bind, gets. cbn.
  destruct (device (self s)) as [d|]; [discriminate|].
  rewrite scan_eq. destruct (find _ _) as [d|]; [discriminate|].
  intros [= <-]. reflexivity.
Qed.

#[local] Instance same_net_pre : PreOrder same_net.
Proof.
  split; [intros x; reflexivity|].
  intros x y z H1 H2. unfold same_net in *. congruence.
Qed.

(** Looking for the device makes no call of the client. *)
Lemma ensure_scan_same_net : stable same_net (_ensure_scan W K).
Proof. apply ensure_scan_stable; try exact _. intros f _ [o l]. reflexivity. Qed.

End Explicit.

(** X5.  The explicit methods act only when there is something to do.  On
    a session whose client exists: [is_connected] reports the state of the
    client and changes nothing; on an open connection [connect] changes
    nothing and [disconnect] closes it with one disconnect, after which a
    second [disconnect] changes nothing; on a closed connection
    [disconnect] changes nothing and [connect] makes one attempt, after
    whose success a second [connect] changes nothing.  Neither method
    touches the [was_open] flag or the attributes of the snapshot. *)
Theorem X5_explicit_connect_disconnect (W : World) (K : Constants) (s : Sys) :
  settled s = true ->
  is_connected W K s = (Ok (connected s), s)
  /\ if connected s
     then
       PyHatchBabyRestAsync.connect W K s = (Ok tt, s)
       /\ let out := PyHatchBabyRestAsync.disconnect W K s in
          fst out = Ok tt
          /\ connected (snd out) = false
          /\ flag (snd out) = flag s
          /\ snapshot (self (snd out)) = snapshot (self s)
          /\ trace (net (snd out)) = trace (net s) ++ [Disconnect]
          /\ PyHatchBabyRestAsync.disconnect W K (snd out) = (Ok tt, snd out)
     else
       PyHatchBabyRestAsync.disconnect W K s = (Ok tt, s)
       /\ let out := PyHatchBabyRestAsync.connect W K s in
          trace (net (snd out)) = trace (net s) ++ [Connect]
          /\ flag (snd out) = flag s
          /\ snapshot (self (snd out)) = snapshot (self s)
          /\ if link_ok W (connects (net s))
             then
               fst out = Ok tt /\ connected (snd out) = true
               /\ PyHatchBabyRestAsync.connect W K (snd out) = (Ok tt, snd out)
             else fst out = Raise BleakError /\ connected (snd out) = false.
Proof.
  settled_state s. intros _.
  unfold is_connected, PyHatchBabyRestAsync.connect, PyHatchBabyRestAsync.disconnect,
    client, on_client, SaveConnectBleakClient.connect, SaveConnectBleakClient.disconnect,
    bind, gets, ret, raise.
  cbn. destruct ic; cbn; [repeat split|].
  destruct (link_ok W (connects l)); cbn; repeat split.
Qed.

(** On the sample session, connected by hand. *)
Lemma X5_explicit_connect_disconnect_witness :
  let W := Sample.world (Sample.buffer x00) in
  let s := run_all W Sample.K [DoConnect] (Sample.session true) in
  PyHatchBabyRestAsync.connect W Sample.K s = (Ok tt, s)
  /\ is_connected W Sample.K s = (Ok true, s).
Proof.
  intros W s.
  destruct (X5_explicit_connect_disconnect W Sample.K s) as (H1 & H2);
    [vm_compute; reflexivity|].
  change (connected s) with true in H1, H2. cbv iota in H2.
  destruct H2 as (H2 & _). split; [exact H2|exact H1].
Defined.

(** X6.  [is_connected] never scans and never creates the client: on a
    session without client it answers [False] and changes nothing.  The
    other two do create the client: on a session without client, [connect]
    and [disconnect] look for the device first, scanning when none is
    stored.  When no device is found both raise the [RuntimeError] of the
    scan and make no call of the client.  When a device is found both create
    the client for it; [disconnect] then has nothing to close, and [connect]
    makes its one attempt on the new client. *)
Theorem X6_connection_methods_without_client (W : World) (K : Constants) (s : Sys) :
  _client (self s) = None ->
  is_connected W K s = (Ok false, s)
  /\ (resolvable W K s = false ->
      (let out := PyHatchBabyRestAsync.connect W K s in
       fst out = Raise RuntimeError /\ net (snd out) = net s
       /\ _client (self (snd out)) = None)
      /\ (let out := PyHatchBabyRestAsync.disconnect W K s in
          fst out = Raise RuntimeError /\ net (snd out) = net s
          /\ _client (self (snd out)) = None))
  /\ (resolvable W K s = true ->
      exists d, fst (_ensure_scan W K s) = Ok d
        /\ (let out := PyHatchBabyRestAsync.disconnect W K s in
            fst out = Ok tt /\ net (snd out) = net s
            /\ _client (self (snd out)) = Some (SaveConnectBleakClient.new d))
        /\ (let out := PyHatchBabyRestAsync.connect W K s in
            fst out = (if link_ok W (connects (net s)) then Ok tt else Raise BleakError)
            /\ trace (net (snd out)) = trace (net s) ++ [Connect]
            /\ _client (self (snd out))
               = Some (SaveConnectBleakClient.set_is_connected
                         (link_ok W (connects (net s)))
                         (SaveConnectBleakClient.new d)))).
Proof.
  intros C.
  split; [|split].
  - destruct s as [o l]. cbn in C. unfold is_connected, bind, gets. cbn. rewrite C.
    reflexivity.
  - intros R. unfold resolvable in R.
    pose proof (ensure_scan_error W K s) as Err.
    pose proof (ensure_scan_same_net W K s) as N. unfold same_net in N.
    pose proof (ensure_scan_same_client W K s) as Sc. unfold same_client in Sc.
    destruct (_ensure_scan W K s) as [[d|e] s1] eqn:E; cbn in R; [discriminate|].
    specialize (Err e eq_refl). subst e. cbn in N, Sc. rewrite C in Sc.
    unfold PyHatchBabyRestAsync.connect, PyHatchBabyRestAsync.disconnect, client,
      bind, gets.
    cbv beta iota. rewrite C. cbv beta iota. rewrite E. cbn [fst snd].
    repeat split; assumption.
  - intros R. unfold resolvable in R.
    pose proof (ensure_scan_same_net W K s) as N. unfold same_net in N.
    destruct (_ensure_scan W K s) as [[d|e] s2] eqn:E; cbn in R; [|discriminate].
    cbn in N. exists d. split; [reflexivity|].
    unfold PyHatchBabyRestAsync.connect, PyHatchBabyRestAsync.disconnect, client,
      on_client, SaveConnectBleakClient.connect, bind, gets, assign, modify, ret.
    cbv beta iota. rewrite C. cbv beta iota. rewrite E. cbn. rewrite N.
    split; [repeat split|].
    destruct (link_ok W (connects (net s))); cbn; repeat split.
Qed.

(** On the session without address or device, with no Rest in the air. *)
Lemma X6_connection_methods_without_client_witness :
  is_connected Sample.empty_world Sample.K (Sample.anonymous true)
    = (Ok false, Sample.anonymous true)
  /\ fst (PyHatchBabyRestAsync.disconnect Sample.empty_world Sample.K (Sample.anonymous true))
     = Raise RuntimeError.
Proof.
  destruct (X6_connection_methods_without_client Sample.empty_world Sample.K
              (Sample.anonymous true)) as (H1 & H2 & _); [reflexivity|].
  destruct H2 as (_ & H2 & _); [vm_compute; reflexivity|].
  split; [exact H1|exact H2].
Defined.

(** ** What the session keeps for its lifetime *)

Ltac target_prim :=
  run_prim; unfold same_target; cbn;
  try (intros c [= <-]; eexists; split; reflexivity);
  try discriminate.

Section Lifetime.

Variable W : World.
Variable K : Constants.

Lemma same_target_assign f :
  (forall o, _client (f o) = _client o /\ auto_refresh (f o) = auto_refresh o) ->
  stable same_target (assign f).
Proof.
  intros H [o l] c. cbn. destruct (H o) as [-> _]. intros E.
  exists c. split; [exact E|reflexivity].
Qed.

Lemma same_target_identity f :
  (forall o, _client (f o) = _client o /\ auto_refresh (f o) = auto_refresh o
             /\ snapshot (f o) = snapshot o) ->
  stable same_target (assign f).
Proof. intros H. apply same_target_assign. intros o. split; apply H. Qed.

Lemma same_target_new d s : _client (self s) = None ->
  same_target s (snd (assign (set__client (Some (SaveConnectBleakClient.new d))) s)).
Proof. intros E c H. rewrite E in H. discriminate. Qed.

Lemma same_target_enter :
  stable same_target (on_client (SaveConnectBleakClient.__aenter__ W)).
Proof. target_prim. Qed.

Lemma same_target_exit : stable same_target (on_client SaveConnectBleakClient.__aexit__).
Proof. target_prim. Qed.

Lemma same_target_read ch :
  stable same_target (on_client (SaveConnectBleakClient.read_gatt_char W ch)).
Proof. target_prim. Qed.

Lemma same_target_write ch data rsp :
  stable same_target (on_client (SaveConnectBleakClient.write_gatt_char W ch data rsp)).
Proof. target_prim. Qed.

Lemma same_target_connect :
  stable same_target (on_client (SaveConnectBleakClient.connect W)).
Proof. target_prim. Qed.

Lemma same_target_disconnect :
  stable same_target (on_client SaveConnectBleakClient.disconnect).
Proof. target_prim. Qed.

Lemma same_target_sleep : stable same_target sleep_quarter_second.
Proof. target_prim. Qed.

Lemma same_target_now : stable same_target (now W).
Proof. target_prim. Qed.

End Lifetime.

(** X7.  The client of a session is created once: through any sequence of
    calls, a rescan included, the session keeps a client, and that client
    stays bound to the device it was created for. *)
Theorem X7_client_is_created_once (W : World) (K : Constants) (cs : list call)
  (s : Sys) (c : SaveConnectBleakClient.t) :
  _client (self s) = Some c ->
  exists c', _client (self (run_all W K cs s)) = Some c'
             /\ SaveConnectBleakClient.target c' = SaveConnectBleakClient.target c.
Proof.
  intros H.
  apply (run_all_stable W K same_target
           (same_target_identity) (same_target_assign) (same_target_new)
           (same_target_enter W) (same_target_exit) (same_target_read W)
           (same_target_write W) (same_target_connect W) (same_target_disconnect)
           (same_target_sleep) (same_target_now W) cs s c H).
Qed.

(** On the sample session after a first command. *)
Lemma X7_client_is_created_once_witness :
  let W := Sample.world (Sample.buffer x00) in
  let s := run_all W Sample.K [PowerOn] (Sample.session true) in
  exists c', _client (self (run_all W Sample.K [Scan; DoDisconnect; SetVolume 3] s)) = Some c'
             /\ SaveConnectBleakClient.target c' = Sample.rest.
Proof.
  intros W s.
  apply (X7_client_is_created_once W Sample.K [Scan; DoDisconnect; SetVolume 3] s
           {| SaveConnectBleakClient.target := Sample.rest;
              SaveConnectBleakClient.is_connected := true;
              SaveConnectBleakClient.was_open := true |}).
  vm_compute. reflexivity.
Defined.

#[local] Instance known_pre : PreOrder known.
Proof.
  split; [intros s _; split; reflexivity|].
  intros a b c H1 H2 H. destruct (H1 H) as [I1 S1].
  assert (Hb : device (self b) <> None).
  { unfold identity in I1. injection I1 as D _. rewrite D. exact H. }
  destruct (H2 Hb) as [I2 S2]. split; congruence.
Qed.

Section Known.

Variable W : World.
Variable K : Constants.

(** With a device stored, [_ensure_scan] returns it and does not scan. *)
Lemma ensure_scan_known : stable known (_ensure_scan W K).
Proof.
  intros [o l] H. unfold _ensure_scan, bind, gets. cbn in *.
  destruct (device o); [split; reflexivity|contradiction].
Qed.

Lemma known_assign f :
  (forall o, identity (f o) = identity o /\ scanner (f o) = scanner o) ->
  stable known (assign f).
Proof. intros H [o l] _. cbn. apply H. Qed.

Lemma known_on_client {A : Type} (m : SaveConnectBleakClient.C A) :
  stable known (on_client m).
Proof.
  intros [o l] _. unfold on_client. cbn.
  destruct (_client o) as [c|]; [|split; reflexivity].
  destruct (m (c, l)) as [r [c' l']]. split; reflexivity.
Qed.

Lemma known_sleep : stable known sleep_quarter_second.
Proof. intros [o l] _. split; reflexivity. Qed.

Lemma known_now : stable known (now W).
Proof. intros [o l] _. split; reflexivity. Qed.

(** Storing again the device that [_ensure_scan] returned. *)
Lemma known_ensure_and_store :
  stable known (d <- _ensure_scan W K ;; assign (set_device (Some d))).
Proof.
  intros [o l] H. unfold _ensure_scan, bind, gets. cbn in *.
  destruct (device o) as [d|] eqn:E; [|contradiction].
  cbn. unfold identity. cbn. rewrite E. split; reflexivity.
Qed.

Ltac known_steps :=
  repeat stable_step;
  try apply ensure_scan_known; try apply known_on_client; try apply known_sleep;
  try apply known_now;
  try (apply known_assign; intros; split; reflexivity);
  try (apply getattr_stable; exact _).

Lemma client_known : stable known (client W K).
Proof. unfold client. known_steps. Qed.

Lemma read_feedback_known : stable known (read_feedback W K).
Proof.
  intros s.
  assert (E : read_feedback W K s
              = ((d <- _ensure_scan W K ;; assign (set_device (Some d))) ;;
                 client W K ;;
                 async_with W
                   (on_client
                      (SaveConnectBleakClient.read_gatt_char W (CHAR_FEEDBACK K)))) s).
  { unfold read_feedback, bind. destruct (_ensure_scan W K s) as [[d|e] s1]; reflexivity. }
  rewrite E. clear E. revert s.
  apply stable_bind; [exact _|apply known_ensure_and_store|intros []].
  unfold async_with. known_steps. apply client_known.
Qed.

Lemma refresh_data_known : stable known (refresh_data W K).
Proof. unfold refresh_data, store. known_steps. apply read_feedback_known. Qed.

Lemma send_command_known (command : string) : stable known (_send_command W K command).
Proof.
  intros s.
  assert (E : _send_command W K command s
              = ((d <- _ensure_scan W K ;; assign (set_device (Some d))) ;;
                 client W K ;;
                 guarded_write W K command) s).
  { unfold _send_command, guarded_write, bind.
    destruct (_ensure_scan W K s) as [[d|e] s1]; reflexivity. }
  rewrite E. clear E. revert s.
  apply stable_bind; [exact _|apply known_ensure_and_store|intros []].
  unfold guarded_write, async_with. known_steps.
  - apply client_known.
  - apply refresh_data_known.
Qed.

Lemma guarded_read_known : stable known (guarded_read W K).
Proof. unfold guarded_read, async_with. known_steps. Qed.

Lemma guarded_write_known (command : string) : stable known (guarded_write W K command).
Proof. unfold guarded_write, async_with. known_steps. apply refresh_data_known. Qed.

Lemma run_known (c : call) : not_scan c = true -> stable known (run W K c).
Proof.
  destruct c; cbn [run not_scan]; intros N; try discriminate;
    unfold power_on, power_off, set_sound, set_volume, set_color, set_brightness, set_time,
      PyHatchBabyRestAsync.connect, PyHatchBabyRestAsync.disconnect;
    known_steps;
    try apply refresh_data_known; try apply send_command_known; try apply client_known.
Qed.

End Known.

(** X8.  Once a device is stored, no call other than [scan] looks for it
    again: through any sequence of the other calls the stored device and
    address and the scanner of the session stay as they are, whatever the
    scanner would hear. *)
Theorem X8_known_device_is_not_scanned_again (W : World) (K : Constants)
  (cs : list call) (s : Sys) (d : BLEDevice.t) :
  forallb not_scan cs = true ->
  device (self s) = Some d ->
  identity (self (run_all W K cs s)) = identity (self s)
  /\ scanner (self (run_all W K cs s)) = scanner (self s).
Proof.
  intros N D.
  assert (H : device (self s) <> None) by (rewrite D; discriminate).
  clear D. revert s H. induction cs as [|c cs IH]; intros s H; cbn [run_all].
  - split; reflexivity.
  - cbn in N. apply andb_prop in N as [N1 N2].
    destruct (run_known W K c N1 s H) as [I1 S1].
    assert (H1 : device (self (snd (run W K c s))) <> None).
    { unfold identity in I1. injection I1 as D _. rewrite D. exact H. }
    destruct (IH N2 _ H1) as [I2 S2]. split; congruence.
Qed.

(** On the sample session, in a world where the Rest is no longer heard. *)
Lemma X8_known_device_is_not_scanned_again_witness :
  let s' := run_all Sample.empty_world Sample.K [PowerOn; RefreshData; DoDisconnect]
              (Sample.session false) in
  identity (self s') = (Some Sample.rest, Some (BLEDevice.address Sample.rest))
  /\ scanner (self s') = None.
Proof.
  intros s'.
  destruct (X8_known_device_is_not_scanned_again Sample.empty_world Sample.K
              [PowerOn; RefreshData; DoDisconnect] (Sample.session false) Sample.rest)
    as [H1 H2]; [reflexivity ..|].
  split; [exact H1|exact H2].
Defined.

(** ** Scanning again, and commands that cannot be sent *)

(** X9.  Every scan is one new search: it leaves the scanner of the session
    one search older, whether it finds a device or not.  A scan that found a
    device binds the session to the address of that device: the next scan
    listens again and looks for that address only, not for the manufacturer
    identifier.  So when the address is no longer heard the next scan raises
    [RuntimeError], whatever else is heard, and the stored device stays.
    (A device with an empty address binds nothing: the next scan looks for
    the manufacturer identifier again.) *)
Theorem X9_scan_binds_the_address (W : World) (K : Constants) (s : Sys)
  (d : BLEDevice.t) :
  fst (scan W K s) = Ok d ->
  let s1 := snd (scan W K s) in
  let again := air W (S (BleakScanner.searches (the_scanner s))) in
  (forall s0,
     scanner (self (snd (scan W K s0)))
     = Some {| BleakScanner.searches := S (BleakScanner.searches (the_scanner s0)) |})
  /\ heard W s1 = again
  /\ (BLEDevice.address d <> EmptyString ->
      fst (scan W K s1)
      = match find (fun x => String.eqb (BLEDevice.address x) (BLEDevice.address d)) again with
        | Some d' => Ok d'
        | None => Raise RuntimeError
        end
      /\ ((forall x, In x again -> BLEDevice.address x <> BLEDevice.address d) ->
          fst (scan W K s1) = Raise RuntimeError
          /\ identity (self (snd (scan W K s1))) = (Some d, Some (BLEDevice.address d))))
  /\ (BLEDevice.address d = EmptyString ->
      fst (scan W K s1)
      = match find (fun x => existsb (Z.eqb (BT_MANUFACTURER_ID K))
                               (map fst (BLEDevice.manufacturer_data x))) again with
        | Some d' => Ok d'
        | None => Raise RuntimeError
        end).
Proof.
  intros H s1 again.
  assert (Older : forall s0,
             scanner (self (snd (scan W K s0)))
             = Some {| BleakScanner.searches :=
                         S (BleakScanner.searches (the_scanner s0)) |}).
  { intros s0. rewrite scan_eq. destruct (find _ _); reflexivity. }
  assert (Hh : heard W s1 = again).
  { unfold heard, the_scanner. subst s1. rewrite Older. reflexivity. }
  assert (St : identity (self s1) = (Some d, Some (BLEDevice.address d))).
  { subst s1. pose proof (scan_run W K s) as R.
    destruct (find (wanted K s) (heard W s)) as [d0|]; destruct R as [R1 R2];
      rewrite R1 in H; [|discriminate].
    injection H as <-. exact R2. }
  assert (Ad : address (self s1) = Some (BLEDevice.address d)).
  { exact (f_equal snd St). }
  assert (Run : fst (scan W K s1)
                = match find (wanted K s1) again with
                  | Some d' => Ok d'
                  | None => Raise RuntimeError
                  end).
  { rewrite scan_eq, Hh. destruct (find _ _); reflexivity. }
  split; [exact Older|]. split; [exact Hh|]. split.
  - intros NE.
    assert (Wa : wanted K s1
                 = fun x => String.eqb (BLEDevice.address x) (BLEDevice.address d)).
    { unfold wanted. rewrite Ad. destruct (BLEDevice.address d); [contradiction|reflexivity]. }
    rewrite Wa in Run. split; [exact Run|].
    intros NM.
    assert (F : find (wanted K s1) (heard W s1) = None).
    { rewrite Wa, Hh. apply find_none_all. intros x Hx. apply String.eqb_neq, NM, Hx. }
    pose proof (scan_run W K s1) as R. rewrite F in R. destruct R as [R1 R2].
    split; [exact R1|]. rewrite R2. exact St.
  - intros E.
    assert (Wa : wanted K s1
                 = fun x => existsb (Z.eqb (BT_MANUFACTURER_ID K))
                              (map fst (BLEDevice.manufacturer_data x))).
    { unfold wanted. rewrite Ad, E. reflexivity. }
    rewrite Wa in Run. exact Run.
Qed.

(** The session without address finds the Rest by its manufacturer
    identifier; at the next scan the Rest is not heard and another Rest is:
    the scan raises. *)
Lemma X9_scan_binds_the_address_witness :
  let W := Sample.moving_world in
  let s1 := snd (scan W Sample.K (Sample.anonymous true)) in
  In Sample.other_rest (heard W s1)
  /\ fst (scan W Sample.K s1) = Raise RuntimeError
  /\ identity (self (snd (scan W Sample.K s1)))
     = (Some Sample.rest, Some (BLEDevice.address Sample.rest)).
Proof.
  intros W s1.
  destruct (X9_scan_binds_the_address W Sample.K (Sample.anonymous true) Sample.rest)
    as (_ & _ & H3 & _); [reflexivity|].
  destruct H3 as (_ & H3); [discriminate|].
  split; [right; left; reflexivity|].
  apply H3. cbn. intros x [<-|[<-|[]]]; discriminate.
Defined.

Section Unsent.

Variable W : World.
Variable K : Constants.

Lemma resolvable_frame (s s' : Sys) :
  scanner (self s') = scanner (self s) ->
  identity (self s') = identity (self s) ->
  resolvable W K s' = resolvable W K s.
Proof.
  destruct s as [o l], s' as [o' l']. cbn. intros H1 H2.
  unfold identity in H2. injection H2 as H2 H4.
  unfold resolvable, _ensure_scan, bind, gets.
  cbn. rewrite H2. destruct (device o); cbn; [reflexivity|].
  rewrite !scan_eq. unfold heard, wanted, the_scanner. cbn. rewrite H1, H4.
  destruct (find _ _); reflexivity.
Qed.

Lemma ensure_scan_snapshot : stable same_snapshot (_ensure_scan W K).
Proof. apply ensure_scan_stable; try exact _. apply snapshot_identity. Qed.

(** When no device can be found, a command is not sent and what was assigned
    before it stays assigned. *)
Lemma unsent_after_assign f (command : string) (s : Sys) :
  (forall o, scanner (f o) = scanner o /\ identity (f o) = identity o) ->
  resolvable W K s = false ->
  let out := (assign f ;; _send_command W K command) s in
  fst out = Raise RuntimeError
  /\ net (snd out) = net s
  /\ snapshot (self (snd out)) = snapshot (f (self s)).
Proof.
  intros Hf R.
  assert (R' : resolvable W K (snd (assign f s)) = false).
  { rewrite <- R. destruct s as [o l]. apply resolvable_frame; apply Hf. }
  set (s' := snd (assign f s)) in *.
  pose proof (ensure_scan_error W K s') as Err.
  pose proof (ensure_scan_same_net W K s') as N. unfold same_net in N.
  pose proof (ensure_scan_snapshot s') as Sn. unfold same_snapshot in Sn.
  assert (E : (assign f ;; _send_command W K command) s
              = (Raise RuntimeError, snd (_ensure_scan W K s'))).
  { unfold bind at 1. change (assign f s) with (Ok tt, s'). cbv beta iota.
    unfold resolvable in R'. unfold _send_command, bind.
    destruct (_ensure_scan W K s') as [[d|e] s1]; cbn in R'; [discriminate|].
    rewrite (Err e eq_refl). reflexivity. }
  cbv zeta. rewrite E. cbn [fst snd]. rewrite N, Sn.
  destruct s as [o l]. repeat split.
Qed.

End Unsent.

(** X10.  The setters assign the cached attribute before they send: when no
    device is known and none is found, [power_on], [power_off], [set_sound]
    and [set_volume] raise the [RuntimeError] of the scan without any call
    of the client, and the attribute nevertheless holds the new value, the
    other five attributes of the snapshot being as they were. *)
Theorem X10_optimistic_value_survives_failure (W : World) (K : Constants) (s : Sys)
  (new_sound new_volume : Z) :
  resolvable W K s = false ->
  let o := self s in
  (let out := power_on W K s in
   fst out = Raise RuntimeError /\ net (snd out) = net s
   /\ snapshot (self (snd out))
      = (time o, color o, brightness o, sound o, volume o, Some true))
  /\ (let out := power_off W K s in
      fst out = Raise RuntimeError /\ net (snd out) = net s
      /\ snapshot (self (snd out))
         = (time o, color o, brightness o, sound o, volume o, Some false))
  /\ (let out := set_sound W K new_sound s in
      fst out = Raise RuntimeError /\ net (snd out) = net s
      /\ snapshot (self (snd out))
         = (time o, color o, brightness o, Some new_sound, volume o, power o))
  /\ (let out := set_volume W K new_volume s in
      fst out = Raise RuntimeError /\ net (snd out) = net s
      /\ snapshot (self (snd out))
         = (time o, color o, brightness o, sound o, Some new_volume, power o)).
Proof.
  intros R o.
  repeat split;
    match goal with
    | |- context [power_on] => unfold power_on
    | |- context [power_off] => unfold power_off
    | |- context [set_sound] => unfold set_sound
    | |- context [set_volume] => unfold set_volume
    end;
    match goal with
    | |- context [(assign ?f ;; _send_command W K ?c) s] =>
        destruct (unsent_after_assign W K f c s) as (H1 & H2 & H3);
          [intros o'; split; reflexivity|exact R|]
    end;
    try assumption.
Qed.

(** On the session without address or device, with no Rest in the air. *)
Lemma X10_optimistic_value_survives_failure_witness :
  let out := power_on Sample.empty_world Sample.K (Sample.anonymous true) in
  fst out = Raise RuntimeError /\ trace (net (snd out)) = []
  /\ power (self (snd out)) = Some true.
Proof.
  intros out.
  destruct (X10_optimistic_value_survives_failure Sample.empty_world Sample.K
              (Sample.anonymous true) 0 0) as ((H1 & H2 & H3) & _);
    [vm_compute; reflexivity|].
  split; [exact H1|]. split; [|exact (f_equal snd H3)].
  exact (f_equal trace H2).
Defined.

(** X11.  [set_color] and [set_brightness] stop at a refresh that fails: they
    raise the error of the refresh, hand nothing to the transport for
    writing, and leave every attribute of the snapshot, the colour and the
    brightness included, as it was. *)
Theorem X11_failed_refresh_aborts_set_color (W : World) (K : Constants) (s s1 : Sys)
  (e : exception) (red green blue new_brightness : Z) :
  refresh_data W K s = (Raise e, s1) ->
  set_color W K red green blue s = (Raise e, s1)
  /\ set_brightness W K new_brightness s = (Raise e, s1)
  /\ snapshot (self s1) = snapshot (self s)
  /\ written (trace (net s1)) = written (trace (net s)).
Proof.
  intros R. repeat split.
  - unfold set_color, bind. rewrite R. reflexivity.
  - unfold set_brightness, bind. rewrite R. reflexivity.
  - apply (refresh_data_atomic W K s s1 e R).
  - pose proof (refresh_data_stable W K quiet (fun f _ => quiet_assign f)
                  (fun f _ => quiet_assign f) (fun d s0 _ => quiet_assign _ s0)
                  (quiet_enter W) (quiet_exit) (quiet_read W) s) as Q.
    rewrite R in Q. destruct Q as (added & T & Wr). cbn in T.
    rewrite T, written_app, Wr, app_nil_r. reflexivity.
Qed.

(** On the sample session, against a device whose buffer does not decode. *)
Lemma X11_failed_refresh_aborts_set_color_witness :
  let W := Sample.world (replace_at 13 x00 (Sample.buffer x00)) in
  let out := set_color W Sample.K 1 2 3 (Sample.session true) in
  fst out = Raise AssertionError /\ written (trace (net (snd out))) = []
  /\ color (self (snd out)) = None.
Proof.
  intros W out.
  destruct (X11_failed_refresh_aborts_set_color W Sample.K (Sample.session true)
              (snd (refresh_data W Sample.K (Sample.session true))) AssertionError
              1 2 3 0) as (H1 & _ & H3 & H4); [vm_compute; reflexivity|].
  split; [exact (f_equal fst H1)|].
  split.
  - exact (eq_trans (f_equal (fun x => written (trace (net (snd x)))) H1) H4).
  - exact (eq_trans (f_equal (fun x => color (self (snd x))) H1)
             (f_equal (fun x => snd (fst (fst (fst (fst x))))) H3)).
Defined.

(** ** The width of the command fields *)

Lemma byte_of_value (n : Z) :
  0 <= n < 256 -> exists b, Py.int_of_byte b = n.
Proof.
  intros H. destruct (Byte.of_N (Z.to_N n)) as [b|] eqn:E.
  - exists b. apply Byte.to_of_N in E. unfold Py.int_of_byte. rewrite E. lia.
  - apply Byte.of_N_None_iff in E. lia.
Qed.

(** The digits of a positive number read back as the number. *)
Fixpoint hex_digits_of_pos (p : positive) (rest : string) (acc : N) {struct p} :
  Py.hex_digits (HexString.Raw.of_pos p rest) acc
  = Py.hex_digits rest
      match acc with
      | N0 => N.pos p
      | Npos v => Npos (HexString.pos_hex_app v p)
      end.
Proof.
  do 4 try destruct p as [p|p|]; destruct acc; try reflexivity;
    cbn; rewrite hex_digits_of_pos; reflexivity.
Qed.

(** Every digit printed makes the string longer. *)
Fixpoint of_pos_longer (p : positive) (rest : string) {struct p} :
  (String.length rest < String.length (HexString.Raw.of_pos p rest))%nat.
Proof.
  do 4 try destruct p as [p|p|]; try (cbn; lia);
    cbn [HexString.Raw.of_pos];
    (eapply Nat.lt_trans; [|apply of_pos_longer]); cbn; lia.
Qed.

Lemma hex_digits_zeros (n : nat) (s : string) :
  Py.hex_digits (String.append (Py.zeros n) s) 0 = Py.hex_digits s 0.
Proof. induction n as [|n IH]; [reflexivity|exact IH]. Qed.

Lemma string_length_append (a b : string) :
  String.length (String.append a b) = (String.length a + String.length b)%nat.
Proof. induction a as [|c a IH]; cbn; [reflexivity|rewrite IH; reflexivity]. Qed.

(** X12.  A field of a command, printed with [{:02x}]: a value from 0 to 255
    gives exactly the two lowercase digits of the value; a value of 256 or
    more is not cut and gives three digits or more; the digits of a value
    that is not negative always read back as the value; a negative value
    gives a minus sign.  So the colour command has its ten characters when
    the four values fit a byte, and more when the brightness is 256 or
    more. *)
Theorem X12_command_field_width (n : Z) :
  (0 <= n < 256 -> Py.format_02x n = two_hex n)
  /\ (256 <= n -> (3 <= String.length (Py.format_02x n))%nat)
  /\ (0 <= n -> hex_value (Py.format_02x n) = Some (Z.to_N n))
  /\ (n < 0 -> exists digits, Py.format_02x n = String "-"%char digits)
  /\ (forall red green blue,
        0 <= red < 256 -> 0 <= green < 256 -> 0 <= blue < 256 ->
        (0 <= n < 256 -> String.length (format_SC red green blue n) = 10%nat)
        /\ (256 <= n -> (10 < String.length (format_SC red green blue n))%nat)).
Proof.
  assert (Wide : 256 <= n -> (3 <= String.length (Py.format_02x n))%nat).
  { intros H. destruct n as [|p|p]; try lia.
    unfold Py.format_02x, Py.zfill.
    assert (L : (3 <= String.length (HexString.Raw.of_pos p EmptyString))%nat).
    { do 8 (destruct p as [p|p|]; try lia);
        cbn [HexString.Raw.of_pos];
        match goal with
        | |- (3 <= String.length (HexString.Raw.of_pos ?q ?r))%nat =>
            pose proof (of_pos_longer q r) as L; cbn in L; lia
        end. }
    replace (2 - String.length (HexString.Raw.of_pos p EmptyString))%nat with 0%nat by lia.
    exact L. }
  assert (Two : forall x, 0 <= x < 256 -> String.length (Py.format_02x x) = 2%nat).
  { intros x H. destruct (byte_of_value x H) as [b <-]. rewrite format_02x_byte.
    reflexivity. }
  split; [|split; [exact Wide|split; [|split]]].
  - intros H. destruct (byte_of_value n H) as [b <-]. apply format_02x_byte.
  - intros H. destruct n as [|p|p]; try lia; [reflexivity|].
    unfold hex_value, Py.format_02x, Py.zfill.
    rewrite hex_digits_zeros, hex_digits_of_pos. reflexivity.
  - intros H. destruct n as [|p|p]; try lia. eexists. reflexivity.
  - intros red green blue Hr Hg Hb.
    unfold format_SC. rewrite !string_length_append.
    rewrite (Two red Hr), (Two green Hg), (Two blue Hb). cbn [String.length].
    split; intros H; [rewrite (Two n H); reflexivity|].
    specialize (Wide H). lia.
Qed.

(** The brightness 300 takes three digits. *)
Lemma X12_command_field_width_witness :
  Py.format_02x 200 = "c8"%string
  /\ (3 <= String.length (Py.format_02x 300))%nat
  /\ hex_value (Py.format_02x 300) = Some 300%N.
Proof.
  destruct (X12_command_field_width 200) as (H1 & _).
  destruct (X12_command_field_width 300) as (_ & H2 & H3 & _).
  split; [apply H1; lia|]. split; [apply H2; lia|apply H3; lia].
Defined.

(** ** What the decode reads *)

(** X13.  The decode reads offsets 1 to 14 only: a buffer too short to hold
    offset 14 never decodes, and one that does not reach offset 5 raises
    [IndexError]; byte 0 and the bytes after offset 14 change nothing. *)
Theorem X13_decode_reads_offsets_1_to_14 (K : Constants) (raw extra : list byte)
  (b0 b0' : byte) (tl : list byte) :
  ((List.length raw <= 5)%nat -> decode K raw = Raise IndexError)
  /\ ((List.length raw < 15)%nat -> exists e, decode K raw = Raise e)
  /\ ((15 <= List.length raw)%nat -> decode K (raw ++ extra) = decode K raw)
  /\ decode K (b0 :: tl) = decode K (b0' :: tl).
Proof.
  repeat split.
  - intros L. do 6 (destruct raw as [|? raw]; [reflexivity|]). cbn in L. lia.
  - intros L. destruct (decode K raw) as [v|e] eqn:E; [|exists e; reflexivity].
    apply decode_Ok_length in E. lia.
  - intros L. do 15 (destruct raw as [|? raw]; [cbn in L; lia|]).
    cbn [app]. rewrite !decode_cons. reflexivity.
Qed.

(** On the sample buffer. *)
Lemma X13_decode_reads_offsets_1_to_14_witness :
  decode Sample.K (firstn 5 (Sample.buffer x00)) = Raise IndexError
  /\ decode Sample.K (Sample.buffer x00 ++ [xff; xff]%byte)
     = decode Sample.K (Sample.buffer x00).
Proof.
  destruct (X13_decode_reads_offsets_1_to_14 Sample.K (firstn 5 (Sample.buffer x00))
              [] x00 x00 []) as (H1 & _).
  destruct (X13_decode_reads_offsets_1_to_14 Sample.K (Sample.buffer x00)
              [xff; xff]%byte x00 x00 []) as (_ & _ & H3 & _).
  split; [apply H1; cbn; lia|apply H3; cbn; lia].
Defined.

(** ** The first use of a session made without scanning *)

Section FirstUse.

Variable W : World.
Variable K : Constants.

Lemma prelude_first_use (s : Sys) (d : BLEDevice.t) :
  device (self s) = None ->
  _client (self s) = None ->
  fst (scan W K s) = Ok d ->
  exists s1, prelude W K s = (Ok tt, s1)
    /\ identity (self s1) = (Some d, Some (BLEDevice.address d))
    /\ _client (self s1) = Some (SaveConnectBleakClient.new d)
    /\ net s1 = net s.
Proof.
  destruct s as [[sc ar dev addr cl tm co br so vo pw] l]. cbn.
  intros -> ->.
  unfold prelude, _ensure_scan, client, _ensure_scan, assign, bind, gets,
    modify, ret, raise.
  cbn. rewrite scan_eq.
  destruct (find _ _) as [d'|]; cbn; [|discriminate].
  intros [= ->]. eexists. repeat split.
Qed.

(** Without device, an operation whose scan finds nothing stops there. *)
Lemma first_use_fails (command : string) (s : Sys) (e : exception) :
  device (self s) = None ->
  fst (scan W K s) = Raise e ->
  refresh_data W K s = (Raise RuntimeError, searched s)
  /\ _send_command W K command s = (Raise RuntimeError, searched s).
Proof.
  intros D Sc.
  assert (E : _ensure_scan W K s = (Raise RuntimeError, searched s)).
  { unfold _ensure_scan, bind, gets. rewrite D. rewrite scan_eq in *.
    destruct (find _ _); [discriminate|reflexivity]. }
  split.
  - unfold refresh_data, read_feedback. unfold bind at 1 2. rewrite E. reflexivity.
  - unfold _send_command. unfold bind at 1. rewrite E. reflexivity.
Qed.

Lemma same_target_guarded_read : stable same_target (guarded_read W K).
Proof.
  unfold guarded_read. apply async_with_stable; try exact _;
    auto using same_target_enter, same_target_exit, same_target_read.
Qed.

Lemma same_target_refresh_data : stable same_target (refresh_data W K).
Proof.
  apply refresh_data_stable; try exact _;
    auto using same_target_identity, same_target_assign, same_target_new,
      same_target_enter, same_target_exit, same_target_read.
Qed.

Lemma same_target_guarded_write (command : string) :
  stable same_target (guarded_write W K command).
Proof.
  unfold guarded_write. apply async_with_stable; try exact _;
    auto using same_target_enter, same_target_exit.
  repeat stable_step.
  - apply same_target_write.
  - apply same_target_sleep.
  - apply same_target_refresh_data.
Qed.

Lemma refresh_data_prelude (s : Sys) :
  refresh_data W K s
  = (prelude W K ;;
     (raw <- guarded_read W K ;; v <- lift (decode K raw) ;; store v)) s.
Proof.
  unfold refresh_data. unfold bind at 1. rewrite read_feedback_prelude.
  unfold bind. destruct (prelude W K s) as [[[]|e] s1]; reflexivity.
Qed.

End FirstUse.

(** X14.  A session made without device and without scanning looks for its
    device at its first use.  When the scan that [refresh_data] or
    [_send_command] then makes finds a device, that device and its address
    are stored and the client is created for it, whether the rest of the
    operation succeeds or raises.  When the scan finds none, the operation
    raises the [RuntimeError] of the scan before any call of the client: the
    link is untouched, no client is created, and the stored identity and the
    snapshot are as they were. *)
Theorem X14_first_use_resolves_identity (W : World) (K : Constants) (s : Sys)
  (d : BLEDevice.t) (command : string) :
  device (self s) = None ->
  _client (self s) = None ->
  (fst (scan W K s) = Ok d ->
   (identity (self (snd (refresh_data W K s))) = (Some d, Some (BLEDevice.address d))
    /\ exists c, _client (self (snd (refresh_data W K s))) = Some c
                 /\ SaveConnectBleakClient.target c = d)
   /\ (identity (self (snd (_send_command W K command s)))
       = (Some d, Some (BLEDevice.address d))
       /\ exists c, _client (self (snd (_send_command W K command s))) = Some c
                    /\ SaveConnectBleakClient.target c = d))
  /\ (forall e, fst (scan W K s) = Raise e ->
      (let out := refresh_data W K s in
       fst out = Raise RuntimeError /\ net (snd out) = net s
       /\ _client (self (snd out)) = None
       /\ identity (self (snd out)) = identity (self s)
       /\ snapshot (self (snd out)) = snapshot (self s))
      /\ (let out := _send_command W K command s in
          fst out = Raise RuntimeError /\ net (snd out) = net s
          /\ _client (self (snd out)) = None
          /\ identity (self (snd out)) = identity (self s)
          /\ snapshot (self (snd out)) = snapshot (self s))).
Proof.
  intros D C. split; [intros Sc|].
  2: { intros e Sc. destruct (first_use_fails W K command s e D Sc) as [E1 E2].
       cbv zeta. rewrite E1, E2. destruct s as [o l]. cbn in C. cbn. rewrite C.
       repeat split. }
  destruct (prelude_first_use W K s d D C Sc) as (s1 & P & I & Cl & _).
  assert (Kn : device (self s1) <> None).
  { unfold identity in I. injection I as -> _. discriminate. }
  split.
  - assert (E : refresh_data W K s
                = (raw <- guarded_read W K ;; v <- lift (decode K raw) ;; store v) s1).
    { rewrite refresh_data_prelude. unfold bind at 1. rewrite P. reflexivity. }
    rewrite E.
    assert (R1 : stable known
                   (raw <- guarded_read W K ;; v <- lift (decode K raw) ;; store v)).
    { repeat stable_step; [apply guarded_read_known|].
      unfold store. repeat stable_step; apply known_assign; intros; split; reflexivity. }
    assert (R2 : stable same_target
                   (raw <- guarded_read W K ;; v <- lift (decode K raw) ;; store v)).
    { repeat stable_step; [apply same_target_guarded_read|].
      apply store_stable; try exact _. apply same_target_assign. }
    destruct (R1 s1 Kn) as [I1 _]. destruct (R2 s1 _ Cl) as (c & Hc & Tc).
    split; [congruence|]. exists c. split; [exact Hc|exact Tc].
  - assert (E : _send_command W K command s = guarded_write W K command s1).
    { rewrite send_command_prelude. unfold bind at 1. rewrite P. reflexivity. }
    rewrite E.
    destruct (guarded_write_known W K command s1 Kn) as [I1 _].
    destruct (same_target_guarded_write W K command s1 _ Cl) as (c & Hc & Tc).
    split; [congruence|]. exists c. split; [exact Hc|exact Tc].
Qed.

(** On the session without address, against a device whose buffer does not
    decode. *)
Lemma X14_first_use_resolves_identity_witness :
  let W := Sample.world (replace_at 5 x00 (Sample.buffer x00)) in
  let out := refresh_data W Sample.K (Sample.anonymous true) in
  fst out = Raise AssertionError
  /\ identity (self (snd out)) = (Some Sample.rest, Some (BLEDevice.address Sample.rest)).
Proof.
  intros W out.
  destruct (X14_first_use_resolves_identity W Sample.K (Sample.anonymous true)
              Sample.rest "SI01") as (H & _); [reflexivity ..|].
  destruct H as ((H1 & _) & _); [reflexivity|].
  split; [vm_compute; reflexivity|exact H1].
Defined.

(** ** The constructor and the module-level [connect] *)

(** X15.  [connect(...)] builds the same session as the constructor, except
    when it is given a device together with [scan_now]: the constructor
    adopts the device, with its address, and never scans for it, whereas
    [connect] then scans for the address of the device and raises the
    [RuntimeError] of the scan when the scanner does not hear it. *)
Theorem X15_connect_and_constructor (W : World) (K : Constants)
  (arg : address_or_ble_device) (sc : option BleakScanner.t)
  (scan_now refresh_now auto_refresh : bool) (l : Link) :
  (match arg with
   | Device _ => scan_now = false
   | _ => True
   end ->
   module_connect W K arg sc scan_now refresh_now auto_refresh l
   = __init__ W K arg sc scan_now refresh_now auto_refresh l)
  /\ forall d, arg = Device d ->
       (let out := __init__ W K arg sc scan_now false auto_refresh l in
        fst out = Ok tt
        /\ identity (self (snd out)) = (Some d, Some (BLEDevice.address d))
        /\ scanner (self (snd out)) = sc
        /\ _client (self (snd out)) = None
        /\ net (snd out) = l)
       /\ (scan_now = true ->
           BLEDevice.address d <> EmptyString ->
           (forall x,
              In x (air W (BleakScanner.searches
                             match sc with
                             | Some sc => sc
                             | None => BleakScanner.create
                             end)) ->
              BLEDevice.address x <> BLEDevice.address d) ->
           fst (module_connect W K arg sc scan_now refresh_now auto_refresh l)
           = Raise RuntimeError).
Proof.
  split.
  - intros H. unfold module_connect, __init__.
    destruct arg as [|a|d]; destruct scan_now, refresh_now; try discriminate;
      unfold assign, bind, gets, modify, ret, raise; cbn;
      rewrite ?scan_eq; unfold heard, wanted, the_scanner, searched; cbn;
      repeat match goal with
             | |- context [find ?f ?l] => destruct (find f l); cbn
             end; reflexivity.
  - intros d ->. split; [repeat split|].
    intros -> NE NM.
    set (s0 := snd (__init__ W K (Device d) sc false false auto_refresh l)).
    assert (E : module_connect W K (Device d) sc true refresh_now auto_refresh l
                = ((scan W K ;; ret tt) ;;
                   (if refresh_now then refresh_data W K else ret tt)) s0)
      by reflexivity.
    rewrite E. clear E.
    pose proof (scan_run W K s0) as R.
    assert (Eh : heard W s0 = air W (BleakScanner.searches
                                       match sc with
                                       | Some sc => sc
                                       | None => BleakScanner.create
                                       end)) by reflexivity.
    assert (Ea : wanted K s0
                 = fun x => String.eqb (BLEDevice.address x) (BLEDevice.address d)).
    { unfold wanted. change (address (self s0)) with (Some (BLEDevice.address d)).
      destruct (BLEDevice.address d); [contradiction|reflexivity]. }
    rewrite Eh, Ea in R.
    rewrite find_none_all in R.
    + destruct R as [R _]. unfold bind.
      destruct (scan W K s0) as [[x|e] s1]; cbn in R; [discriminate|].
      injection R as ->. reflexivity.
    + intros x Hx. apply String.eqb_neq. apply NM. exact Hx.
Qed.

(** With only a lamp in the air and the Rest given as device. *)
Lemma X15_connect_and_constructor_witness :
  fst (__init__ Sample.empty_world Sample.K (Device Sample.rest) None true false true
         fresh_link) = Ok tt
  /\ fst (module_connect Sample.empty_world Sample.K (Device Sample.rest) None true false true
            fresh_link) = Raise RuntimeError
  /\ module_connect Sample.empty_world Sample.K NoAddress None true true true fresh_link
     = __init__ Sample.empty_world Sample.K NoAddress None true true true fresh_link.
Proof.
  destruct (X15_connect_and_constructor Sample.empty_world Sample.K (Device Sample.rest)
              None true false true fresh_link) as (_ & H).
  destruct (H Sample.rest eq_refl) as ((H1 & _) & H2).
  destruct (X15_connect_and_constructor Sample.empty_world Sample.K NoAddress
              None true true true fresh_link) as (H3 & _).
  split; [exact H1|]. split; [|apply H3; exact I].
  apply H2; [reflexivity|discriminate|].
  cbn. intros x [<-|[]]. cbn. discriminate.
Defined.

(** ** The guard with the flag down *)

#[local] Instance stays_closed_pre : PreOrder stays_closed.
Proof. split; [intros s H; exact H|intros a b c H1 H2 H; auto]. Qed.

Section FlagDown.

Variable W : World.
Variable K : Constants.

Lemma stays_closed_assign f :
  (forall o, _client (f o) = _client o /\ auto_refresh (f o) = auto_refresh o) ->
  stable stays_closed (assign f).
Proof.
  intros H [o l]. unfold stays_closed, closed, connected, flag. cbn.
  destruct (H o) as [-> _]. intros H1. exact H1.
Qed.

Lemma stays_closed_identity f :
  (forall o, _client (f o) = _client o /\ auto_refresh (f o) = auto_refresh o
             /\ snapshot (f o) = snapshot o) ->
  stable stays_closed (assign f).
Proof. intros H. apply stays_closed_assign. intros o. split; apply H. Qed.

Lemma stays_closed_new d s : _client (self s) = None ->
  stays_closed s (snd (assign (set__client (Some (SaveConnectBleakClient.new d))) s)).
Proof. intros _. destruct s as [o l]. intros _. reflexivity. Qed.

Lemma guarded_read_stays_closed : stable stays_closed (guarded_read W K).
Proof.
  intros [[sc ar dev addr [[d ic wo]|] tm co br so vo pw] l];
    unfold stays_closed, closed, connected, flag; cbn; intros H1; [|reflexivity].
  destruct ic, wo; try discriminate.
  unfold_session. cbn.
  destruct (link_ok W (connects l)); cbn;
    try (destruct (feedback W (reads l)) as [raw|]; cbn); reflexivity.
Qed.

Lemma refresh_data_stays_closed : stable stays_closed (refresh_data W K).
Proof.
  unfold refresh_data. repeat stable_step.
  - intros s. rewrite read_feedback_prelude. revert s.
    apply stable_bind; [exact _| |intros []; apply guarded_read_stays_closed].
    unfold prelude. repeat stable_step.
    + apply ensure_scan_stable; try exact _. apply stays_closed_identity.
    + apply stays_closed_identity. intros o. repeat split.
    + apply client_stable; try exact _;
        auto using stays_closed_identity, stays_closed_new.
  - apply store_stable; try exact _. apply stays_closed_assign.
Qed.

End FlagDown.

(** X16.  As long as the [was_open] flag is down, the guard leaves the
    connection as it found it, on every path: after [refresh_data] the
    connection is open if and only if it was open before, and so it is after
    [_send_command] when the automatic refresh is off. *)
Theorem X16_leave_as_found_with_flag_down (W : World) (K : Constants) (s : Sys)
  (command : string) :
  flag s = false ->
  connected (snd (refresh_data W K s)) = connected s
  /\ (auto_refresh (self s) = false ->
      connected (snd (_send_command W K command s)) = connected s).
Proof.
  intros F.
  destruct (connected s) eqn:C.
  - split.
    + apply (refresh_data_kept_open W K s C).
    + intros _. apply (send_command_kept_open W K command s C).
  - assert (Cl : closed s = true) by (unfold closed; rewrite C, F; reflexivity).
    split.
    + pose proof (refresh_data_stays_closed W K s Cl) as H.
      unfold closed in H. apply andb_prop in H as [H _].
      apply negb_true_iff in H. exact H.
    + intros A.
      destruct (send_command_kept_closed W K command s (conj Cl A)) as [H _].
      unfold closed in H. apply andb_prop in H as [H _].
      apply negb_true_iff in H. exact H.
Qed.

(** On the sample session, every read failing. *)
Lemma X16_leave_as_found_with_flag_down_witness :
  let W :=
    {| air := air (Sample.world (Sample.buffer x00));
       link_ok := fun _ => true;
       feedback := fun _ => None;
       tx_ok := fun _ => true;
       clock := fun _ => Sample.noon |} in
  let out := refresh_data W Sample.K (Sample.session true) in
  fst out = Raise BleakError /\ connected (snd out) = false.
Proof.
  intros W out. split; [vm_compute; reflexivity|].
  destruct (X16_leave_as_found_with_flag_down W Sample.K (Sample.session true) "SI01")
    as [H _]; [reflexivity|].
  exact H.
Defined.

(** ** The stamp of [set_time] *)

Lemma string_append_inj (a a' b b' : string) :
  String.length a = String.length a' ->
  String.append a b = String.append a' b' -> a = a' /\ b = b'.
Proof.
  revert a'. induction a as [|c a IH]; intros [|c' a'] L E; cbn in *; try discriminate.
  - split; [reflexivity|exact E].
  - injection E as -> E. injection L as L. destruct (IH a' L E) as [-> ->].
    split; reflexivity.
Qed.

Lemma fields_checked :
  forallb (fun n => field_ok 2 (Py.decimal 2 n) n) (map N.of_nat (seq 0 100)) = true
  /\ forallb (fun n => field_ok 4 (Py.digits n) n)
       (map N.of_nat (seq (N.to_nat 1000) (N.to_nat 9000))) = true.
Proof. split; vm_compute; reflexivity. Qed.

Lemma field2_ok (n : N) : (n < 100)%N -> field_ok 2 (Py.decimal 2 n) n = true.
Proof.
  intros H. destruct fields_checked as [F _].
  apply (proj1 (forallb_forall _ _) F).
  apply in_map_iff. exists (N.to_nat n). split; [lia|].
  apply in_seq. lia.
Qed.

Lemma field4_ok (n : N) : (1000 <= n < 10000)%N -> field_ok 4 (Py.digits n) n = true.
Proof.
  intros H. destruct fields_checked as [_ F].
  apply (proj1 (forallb_forall _ _) F).
  apply in_map_iff. exists (N.to_nat n). split; [lia|].
  apply in_seq. lia.
Qed.

Lemma field_ok_spec (w : nat) (s : string) (n : N) :
  field_ok w s n = true -> String.length s = w /\ decimal_value s = n.
Proof.
  unfold field_ok. intros H. apply andb_prop in H as [H1 H2].
  apply Nat.eqb_eq in H1. apply N.eqb_eq in H2. split; assumption.
Qed.

Lemma field_inj (w : nat) (s s' : string) (n n' : N) :
  field_ok w s n = true -> field_ok w s' n' = true -> s = s' -> n = n'.
Proof.
  intros H H' E. apply field_ok_spec in H as [_ H]. apply field_ok_spec in H' as [_ H'].
  rewrite <- H, <- H', E. reflexivity.
Qed.

(** X17.  For a clock reading with a year of four digits, the command of
    [set_time] has exactly 17 characters ([ST], fourteen digits, [U]), and
    two readings that differ give different commands. *)
Theorem X17_time_stamp_is_fixed_width (c c' : civil) :
  calendar c ->
  calendar c' ->
  String.length (strftime_ST c) = 17%nat
  /\ (strftime_ST c = strftime_ST c' -> c = c').
Proof.
  intros (Hy & Hm & Hd & Hh & Hi & Hs) (Hy' & Hm' & Hd' & Hh' & Hi' & Hs').
  pose proof (field4_ok _ Hy) as Fy. pose proof (field4_ok _ Hy') as Fy'.
  pose proof (field2_ok _ Hm) as Fm. pose proof (field2_ok _ Hm') as Fm'.
  pose proof (field2_ok _ Hd) as Fd. pose proof (field2_ok _ Hd') as Fd'.
  pose proof (field2_ok _ Hh) as Fh. pose proof (field2_ok _ Hh') as Fh'.
  pose proof (field2_ok _ Hi) as Fi. pose proof (field2_ok _ Hi') as Fi'.
  pose proof (field2_ok _ Hs) as Fs. pose proof (field2_ok _ Hs') as Fs'.
  pose proof (proj1 (field_ok_spec _ _ _ Fy)) as Ly.
  pose proof (proj1 (field_ok_spec _ _ _ Fm)) as Lm.
  pose proof (proj1 (field_ok_spec _ _ _ Fd)) as Ld.
  pose proof (proj1 (field_ok_spec _ _ _ Fh)) as Lh.
  pose proof (proj1 (field_ok_spec _ _ _ Fi)) as Li.
  pose proof (proj1 (field_ok_spec _ _ _ Fs)) as Ls.
  pose proof (proj1 (field_ok_spec _ _ _ Fy')) as Ly'.
  pose proof (proj1 (field_ok_spec _ _ _ Fm')) as Lm'.
  pose proof (proj1 (field_ok_spec _ _ _ Fd')) as Ld'.
  pose proof (proj1 (field_ok_spec _ _ _ Fh')) as Lh'.
  pose proof (proj1 (field_ok_spec _ _ _ Fi')) as Li'.
  pose proof (proj1 (field_ok_spec _ _ _ Fs')) as Ls'.
  split.
  - unfold strftime_ST. rewrite !string_length_append, Ly, Lm, Ld, Lh, Li, Ls.
    reflexivity.
  - unfold strftime_ST. intros E.
    apply string_append_inj in E as [_ E]; [|reflexivity].
    apply string_append_inj in E as [Ey E]; [|congruence].
    apply string_append_inj in E as [Em E]; [|congruence].
    apply string_append_inj in E as [Ed E]; [|congruence].
    apply string_append_inj in E as [Eh E]; [|congruence].
    apply string_append_inj in E as [Ei E]; [|congruence].
    apply string_append_inj in E as [Es _]; [|congruence].
    apply (field_inj _ _ _ _ _ Fy Fy') in Ey. apply (field_inj _ _ _ _ _ Fm Fm') in Em.
    apply (field_inj _ _ _ _ _ Fd Fd') in Ed. apply (field_inj _ _ _ _ _ Fh Fh') in Eh.
    apply (field_inj _ _ _ _ _ Fi Fi') in Ei. apply (field_inj _ _ _ _ _ Fs Fs') in Es.
    destruct c, c'. cbn in *. congruence.
Qed.

(** On the sample reading of the clock. *)
Lemma X17_time_stamp_is_fixed_width_witness :
  String.length (strftime_ST Sample.noon) = 17%nat.
Proof.
  apply (X17_time_stamp_is_fixed_width Sample.noon Sample.noon);
    unfold calendar; cbn; lia.
Defined.
